(** * SCSI Primary Commands (SPC) emulation: drivers/target/target_core_spc.c

    A shallow embedding of the command dispatcher, the INQUIRY, MODE SENSE,
    MODE SELECT, REPORT LUNS and REPORT SUPPORTED OPERATION CODES emulators,
    followed by the properties established about them.

    Conventions.
    - C integers are [Z]; a store into a narrower type is written out with
      [u8], [u16], [u32].  A C truth test [if (x)] is [truthy x].
    - A byte buffer is a [list Z]; [rd b i] is [b[i]] and [wr b i v] is
      [b[i] = v].  A store outside the buffer is dropped by the model (it is
      undefined behaviour in C).
    - A callee that receives [&buf[off]] operates on the suffix of the buffer
      that starts at [off]; [at_offset] puts the result back in place.
    - A C string is the list of bytes of its array; [cstr] is its content up
      to the terminating NUL. *)

From stdpp Require Import base numbers list strings.

Local Open Scope Z_scope.

(* ===================================================================== *)
(** * Integers and bytes *)
(* ===================================================================== *)

Definition u8 (v : Z) : Z := v mod 256.
Definition u16 (v : Z) : Z := v mod 65536.
Definition u32 (v : Z) : Z := v mod 4294967296.

Definition truthy (x : Z) : bool := negb (x =? 0).

(** [min_t(u32, a, b)] and [min] on unsigned operands. *)
Definition min_u32 (a b : Z) : Z := Z.min (u32 a) (u32 b).

(* ===================================================================== *)
(** * Buffers *)
(* ===================================================================== *)

Definition rd (b : list Z) (i : Z) : Z := default 0 (b !! Z.to_nat i).

Definition wr (b : list Z) (i : Z) (v : Z) : list Z := <[Z.to_nat i := u8 v]> b.

(** [b[i] |= v] *)
Definition wr_or (b : list Z) (i : Z) (v : Z) : list Z := wr b i (Z.lor (rd b i) v).

(** [b[i] &= v] *)
Definition wr_and (b : list Z) (i : Z) (v : Z) : list Z := wr b i (Z.land (rd b i) v).

(** [kzalloc(n)] and [memset(buf, 0, n)] of a whole array. *)
Definition zeroed (n : Z) : list Z := replicate (Z.to_nat n) 0.

(** [memcpy(&b[off], src, length src)]: the bytes of [src] replace those of
    [b] from [off] on; the buffer keeps its size. *)
Definition memcpy_to (b : list Z) (off : Z) (src : list Z) : list Z :=
  let o := Z.to_nat off in
  take (length b) (take o b ++ src ++ drop (o + length src)%nat b).

(** [memset(&b[off], c, n)] *)
Definition memset_at (b : list Z) (off : Z) (c : Z) (n : Z) : list Z :=
  memcpy_to b off (replicate (Z.to_nat n) (u8 c)).

(** Calling [f(&b[off], ...)]: [f] sees the suffix of [b] from [off]. *)
Definition at_offset {A} (off : Z) (f : list Z -> list Z * A) (b : list Z)
  : list Z * A :=
  let '(p, a) := f (drop (Z.to_nat off) b) in
  (take (Z.to_nat off) b ++ p, a).

Definition put_unaligned_be16 (v : Z) (b : list Z) (off : Z) : list Z :=
  let v := u16 v in
  wr (wr b off (Z.shiftr v 8)) (off + 1) v.

Definition put_unaligned_be32 (v : Z) (b : list Z) (off : Z) : list Z :=
  let v := u32 v in
  wr (wr (wr (wr b off (Z.shiftr v 24)) (off + 1) (Z.shiftr v 16))
         (off + 2) (Z.shiftr v 8)) (off + 3) v.

Definition put_unaligned_be64 (v : Z) (b : list Z) (off : Z) : list Z :=
  let v := v mod 2 ^ 64 in
  put_unaligned_be32 v (put_unaligned_be32 (Z.shiftr v 32) b off) (off + 4).

Definition get_unaligned_be16 (b : list Z) (off : Z) : Z :=
  Z.lor (Z.shiftl (rd b off) 8) (rd b (off + 1)).

Definition get_unaligned_be24 (b : list Z) (off : Z) : Z :=
  Z.lor (Z.lor (Z.shiftl (rd b off) 16) (Z.shiftl (rd b (off + 1)) 8))
        (rd b (off + 2)).

Definition get_unaligned_be32 (b : list Z) (off : Z) : Z :=
  Z.lor (Z.lor (Z.lor (Z.shiftl (rd b off) 24) (Z.shiftl (rd b (off + 1)) 16))
               (Z.shiftl (rd b (off + 2)) 8))
        (rd b (off + 3)).

(** The four bytes [cpu_to_be32(v)] lays out in memory. *)
Definition cpu_to_be32 (v : Z) : list Z :=
  let v := u32 v in
  [u8 (Z.shiftr v 24); u8 (Z.shiftr v 16); u8 (Z.shiftr v 8); u8 v].

(* ===================================================================== *)
(** * C strings *)
(* ===================================================================== *)

(** The content of a NUL-terminated array. *)
Fixpoint cstr (s : list Z) : list Z :=
  match s with
  | [] => []
  | c :: s' => if c =? 0 then [] else c :: cstr s'
  end.

Definition strlen (s : list Z) : Z := Z.of_nat (length (cstr s)).

Definition strnlen (s : list Z) (n : Z) : Z := Z.min (strlen s) n.

(** The bytes of a string literal. *)
Definition bytes_of_string (s : string) : list Z :=
  (λ a, Z.of_nat (Ascii.nat_of_ascii a)) <$> String.list_ascii_of_string s.

(** A character array holding a string literal and its terminator. *)
Definition c_array (s : string) : list Z := bytes_of_string s ++ [0].

(** [sprintf(&b[off], "%s", s)]: the content and its terminator are stored,
    the number of characters before the terminator is returned. *)
Definition sprintf_s (b : list Z) (off : Z) (s : list Z) : list Z * Z :=
  (memcpy_to b off (s ++ [0]), Z.of_nat (length s)).

(* ===================================================================== *)
(** * Constants of the SCSI and target-core headers *)
(* ===================================================================== *)

(** Modelled from the spec: the operation codes, service actions, device
    types and flag bits come from <scsi/scsi_proto.h>, target_core_base.h
    and target_core_pr.h, which are not part of the sources at hand.  The
    spec names the commands and gives INQUIRY as 0x12; the values below are
    the ones SPC-4 and SBC-3 assign to those names. *)
Module Scsi.
Definition TEST_UNIT_READY : Z := 0x00.
Definition REQUEST_SENSE : Z := 0x03.
Definition READ_6 : Z := 0x08.
Definition WRITE_6 : Z := 0x0a.
Definition INQUIRY : Z := 0x12.
Definition MODE_SELECT : Z := 0x15.
Definition RESERVE : Z := 0x16.
Definition RELEASE : Z := 0x17.
Definition MODE_SENSE : Z := 0x1a.
Definition START_STOP : Z := 0x1b.
Definition RECEIVE_DIAGNOSTIC : Z := 0x1c.
Definition SEND_DIAGNOSTIC : Z := 0x1d.
Definition READ_CAPACITY : Z := 0x25.
Definition READ_10 : Z := 0x28.
Definition WRITE_10 : Z := 0x2a.
Definition WRITE_VERIFY : Z := 0x2e.
Definition VERIFY : Z := 0x2f.
Definition SYNCHRONIZE_CACHE : Z := 0x35.
Definition WRITE_BUFFER : Z := 0x3b.
Definition WRITE_SAME : Z := 0x41.
Definition UNMAP : Z := 0x42.
Definition LOG_SELECT : Z := 0x4c.
Definition LOG_SENSE : Z := 0x4d.
Definition MODE_SELECT_10 : Z := 0x55.
Definition RESERVE_10 : Z := 0x56.
Definition RELEASE_10 : Z := 0x57.
Definition MODE_SENSE_10 : Z := 0x5a.
Definition PERSISTENT_RESERVE_IN : Z := 0x5e.
Definition PERSISTENT_RESERVE_OUT : Z := 0x5f.
Definition VARIABLE_LENGTH_CMD : Z := 0x7f.
Definition EXTENDED_COPY : Z := 0x83.
Definition RECEIVE_COPY_RESULTS : Z := 0x84.
Definition READ_16 : Z := 0x88.
Definition COMPARE_AND_WRITE : Z := 0x89.
Definition WRITE_16 : Z := 0x8a.
Definition READ_ATTRIBUTE : Z := 0x8c.
Definition WRITE_ATTRIBUTE : Z := 0x8d.
Definition WRITE_VERIFY_16 : Z := 0x8e.
Definition VERIFY_16 : Z := 0x8f.
Definition SYNCHRONIZE_CACHE_16 : Z := 0x91.
Definition WRITE_SAME_16 : Z := 0x93.
Definition SERVICE_ACTION_IN_16 : Z := 0x9e.
Definition REPORT_LUNS : Z := 0xa0.
Definition SECURITY_PROTOCOL_IN : Z := 0xa2.
Definition MAINTENANCE_IN : Z := 0xa3.
Definition MAINTENANCE_OUT : Z := 0xa4.
Definition READ_12 : Z := 0xa8.
Definition WRITE_12 : Z := 0xaa.
Definition SECURITY_PROTOCOL_OUT : Z := 0xb5.

(** Service actions. *)
Definition WRITE_SAME_32 : Z := 0x0d.
Definition SAI_READ_CAPACITY_16 : Z := 0x10.
Definition SAI_REPORT_REFERRALS : Z := 0x13.
Definition MI_REPORT_TARGET_PGS : Z := 0x0a.
Definition MI_REPORT_SUPPORTED_OPERATION_CODES : Z := 0x0c.
Definition MO_SET_TARGET_PGS : Z := 0x0a.
Definition RCR_SA_OPERATING_PARAMETERS : Z := 0x03.
Definition PRI_READ_KEYS : Z := 0x00.
Definition PRI_READ_RESERVATION : Z := 0x01.
Definition PRI_REPORT_CAPABILITIES : Z := 0x02.
Definition PRI_READ_FULL_STATUS : Z := 0x03.
Definition PRO_REGISTER : Z := 0x00.
Definition PRO_RESERVE : Z := 0x01.
Definition PRO_RELEASE : Z := 0x02.
Definition PRO_CLEAR : Z := 0x03.
Definition PRO_PREEMPT : Z := 0x04.
Definition PRO_PREEMPT_AND_ABORT : Z := 0x05.
Definition PRO_REGISTER_AND_IGNORE_EXISTING_KEY : Z := 0x06.
Definition PRO_REGISTER_AND_MOVE : Z := 0x07.
Definition PRO_REPLACE_LOST_RESERVATION : Z := 0x08.

(** Peripheral device types. *)
Definition TYPE_DISK : Z := 0x00.
Definition TYPE_TAPE : Z := 0x01.
Definition TYPE_ROM : Z := 0x05.

(** Status, task attribute, support levels, usage-bit masks. *)
Definition SAM_STAT_GOOD : Z := 0x00.
Definition TCM_HEAD_TAG : Z := 0x21.
Definition SCSI_SUPPORT_NOT_SUPPORTED : Z := 1.
Definition SCSI_SUPPORT_FULL : Z := 3.
Definition SCSI_CONTROL_MASK : Z := 0.
Definition SCSI_GROUP_NUMBER_MASK : Z := 0.

(** Device and transport flag bits, protection operations, ALUA. *)
Definition DF_EMULATED_VPD_UNIT_SERIAL : Z := 0x4.
Definition TRANSPORT_FLAG_PASSTHROUGH_PGR : Z := 0x4.
Definition TARGET_PROT_DIN_PASS : Z := 0x10.
Definition TARGET_PROT_DOUT_PASS : Z := 0x20.
Definition TARGET_DIF_TYPE1_PROT : Z := 1.
Definition TARGET_DIF_TYPE3_PROT : Z := 3.
Definition TARGET_UA_INTLCK_CTRL_CLEAR : Z := 0.
Definition TARGET_UA_INTLCK_CTRL_NO_CLEAR : Z := 1.
Definition TARGET_UA_INTLCK_CTRL_ESTABLISH_UA : Z := 2.
Definition TPGS_EXPLICIT_ALUA : Z := 0x20.

(** Transport protocol identifiers and version descriptors. *)
Definition SCSI_PROTOCOL_FCP : Z := 0.
Definition SCSI_PROTOCOL_SBP : Z := 2.
Definition SCSI_PROTOCOL_SRP : Z := 4.
Definition SCSI_PROTOCOL_ISCSI : Z := 5.
Definition SCSI_PROTOCOL_SAS : Z := 6.
Definition SCSI_VERSION_DESCRIPTOR_SAM5 : Z := 0x00a0.
Definition SCSI_VERSION_DESCRIPTOR_SPC4 : Z := 0x0460.
Definition SCSI_VERSION_DESCRIPTOR_SBC3 : Z := 0x04c0.
Definition SCSI_VERSION_DESCRIPTOR_FCP4 : Z := 0x0a40.
Definition SCSI_VERSION_DESCRIPTOR_ISCSI : Z := 0x0960.
Definition SCSI_VERSION_DESCRIPTOR_SAS3 : Z := 0x0c60.
Definition SCSI_VERSION_DESCRIPTOR_SBP3 : Z := 0x0980.
Definition SCSI_VERSION_DESCRIPTOR_SRP : Z := 0x0940.

(** Field widths and scratch-buffer sizes. *)
Definition INQUIRY_VENDOR_LEN : Z := 8.
Definition INQUIRY_MODEL_LEN : Z := 16.
Definition INQUIRY_REVISION_LEN : Z := 4.
Definition INQUIRY_VPD_SERIAL_LEN : Z := 254.
Definition SE_INQUIRY_BUF : Z := 1024.
Definition SE_MODE_PAGE_BUF : Z := 512.
Definition PAGE_SIZE : Z := 4096.
End Scsi.
Import Scsi.

(* ===================================================================== *)
(** * Data model *)
(* ===================================================================== *)

Inductive sense_reason_t :=
  | TCM_NO_SENSE
  | TCM_UNSUPPORTED_SCSI_OPCODE
  | TCM_INVALID_CDB_FIELD
  | TCM_UNKNOWN_MODE_PAGE
  | TCM_INVALID_PARAMETER_LIST
  | TCM_PARAMETER_LIST_LENGTH_ERROR
  | TCM_LOGICAL_UNIT_COMMUNICATION_FAILURE.

(** The functions [cmd->execute_cmd] may point to. *)
Inductive execute_fn :=
  | fn_spc_emulate_modeselect
  | fn_spc_emulate_modesense
  | fn_target_scsi3_emulate_pr_in
  | fn_target_scsi3_emulate_pr_out
  | fn_target_scsi2_reservation_release
  | fn_target_scsi2_reservation_reserve
  | fn_spc_emulate_request_sense
  | fn_spc_emulate_inquiry
  | fn_target_do_xcopy
  | fn_target_do_receive_copy_results
  | fn_spc_emulate_report_luns
  | fn_spc_emulate_testunitready
  | fn_target_emulate_report_target_port_groups
  | fn_spc_emulate_report_supp_op_codes
  | fn_target_emulate_set_target_port_groups.

Record se_dev_attrib := {
  emulate_ua_intlck_ctrl : Z;
  emulate_tas : Z;
  emulate_tpu : Z;
  emulate_tpws : Z;
  emulate_caw : Z;
  emulate_3pc : Z;
  emulate_pr : Z;
  emulate_rsoc : Z;
  pi_prot_type : Z;
  is_nonrot : Z;
  emulate_rest_reord : Z;
  unmap_zeroes_data : Z;
  hw_block_size : Z;
  block_size : Z;
  hw_max_sectors : Z;
  optimal_sectors : Z;
  max_unmap_lba_count : Z;
  max_unmap_block_desc_count : Z;
  unmap_granularity : Z;
  unmap_granularity_alignment : Z;
  max_write_same_len : Z;
}.

Record t10_wwn_t := {
  vendor : list Z;
  model : list Z;
  revision : list Z;
  unit_serial : list Z;
  company_id : Z;
}.

Record t10_alua_t := {
  lba_map_list_empty : bool;
  lba_map_segment_size : Z;
  lba_map_segment_multiplier : Z;
}.

Record t10_alua_lu_gp := { lu_gp_id : Z }.

Record t10_alua_lu_gp_member := { lu_gp : option t10_alua_lu_gp }.

Record t10_alua_tg_pt_gp := {
  tg_pt_gp_alua_access_type : Z;
  tg_pt_gp_id : Z;
}.

(** The backend operations of [dev->transport]; [get_io_min] and
    [get_io_opt] are optional function pointers. *)
Record target_backend_ops := {
  get_device_type : Z;
  get_blocks : Z;
  get_io_min : option Z;
  get_io_opt : option Z;
}.

(** [target_check_wce], [target_check_fua] and [target_sense_desc_format]
    live in target_core_device.c and target_core_transport.c; their results
    for the device are part of its snapshot. *)
Record se_device := {
  dev_attrib : se_dev_attrib;
  dev_flags : Z;
  transport_flags : Z;
  export_count : Z;
  t10_wwn : t10_wwn_t;
  t10_alua : t10_alua_t;
  dev_alua_lu_gp_mem : option t10_alua_lu_gp_member;
  transport : target_backend_ops;
  target_check_wce : bool;
  target_check_fua : bool;
  target_sense_desc_format : bool;
}.

(** [tpg_get_tag] and [tpg_get_wwn] are the fabric callbacks of
    [se_tpg_tfo], evaluated on this portal group. *)
Record se_portal_group := {
  proto_id : Z;
  tpg_rtpi : Z;
  tpg_get_tag : Z;
  tpg_get_wwn : list Z;
}.

Record se_lun := {
  lun_tpg : se_portal_group;
  lun_tg_pt_gp : option t10_alua_tg_pt_gp;
  lun_access_ro : bool;
}.

Record se_dev_entry := { mapped_lun : Z }.

Record se_node_acl := { lun_entry_hlist : list se_dev_entry }.

Record se_session := {
  sup_prot_ops : Z;
  sess_prot_type : Z;
  sess_node_acl : se_node_acl;
}.

Record target_core_fabric_ops := { max_data_sg_nents : Z }.

(** [cmd->protocol_data]: which optional backend entry points exist. *)
Record exec_cmd_ops := {
  execute_unmap : bool;
  execute_write_same : bool;
}.

(** A command.  [t_data] is what [transport_kmap_data_sg] yields: [None] for
    a NULL mapping, otherwise the bytes of the data buffer.
    [target_lun_is_rdonly] is the result of the helper of that name. *)
Record se_cmd := {
  t_task_cdb : list Z;
  data_length : Z;
  t_data : option (list Z);
  se_cmd_dev : se_device;
  se_cmd_lun : se_lun;
  se_sess : option se_session;
  se_tfo : target_core_fabric_ops;
  protocol_data : exec_cmd_ops;
  target_lun_is_rdonly : bool;
  execute_cmd : option execute_fn;
  sam_task_attr : Z;
}.

Definition set_execute_cmd (f : execute_fn) (cmd : se_cmd) : se_cmd :=
  {| t_task_cdb := t_task_cdb cmd; data_length := data_length cmd;
     t_data := t_data cmd; se_cmd_dev := se_cmd_dev cmd;
     se_cmd_lun := se_cmd_lun cmd; se_sess := se_sess cmd;
     se_tfo := se_tfo cmd; protocol_data := protocol_data cmd;
     target_lun_is_rdonly := target_lun_is_rdonly cmd;
     execute_cmd := Some f; sam_task_attr := sam_task_attr cmd |}.

Definition set_sam_task_attr (a : Z) (cmd : se_cmd) : se_cmd :=
  {| t_task_cdb := t_task_cdb cmd; data_length := data_length cmd;
     t_data := t_data cmd; se_cmd_dev := se_cmd_dev cmd;
     se_cmd_lun := se_cmd_lun cmd; se_sess := se_sess cmd;
     se_tfo := se_tfo cmd; protocol_data := protocol_data cmd;
     target_lun_is_rdonly := target_lun_is_rdonly cmd;
     execute_cmd := execute_cmd cmd; sam_task_attr := a |}.

(** The session of a command on the paths that dereference it without a
    NULL test (a NULL session there is a fault, outside this model). *)
Definition null_session : se_session :=
  {| sup_prot_ops := 0; sess_prot_type := 0;
     sess_node_acl := {| lun_entry_hlist := [] |} |}.

Definition cmd_sess (cmd : se_cmd) : se_session := default null_session (se_sess cmd).

(** How a command was completed: [target_complete_cmd(cmd, status)] or
    [target_complete_cmd_with_length(cmd, status, length)]. *)
Inductive completion :=
  | Complete (status : Z)
  | CompleteWithLength (status : Z) (length : Z).

(** What an emulation handler leaves behind: its return value, the data
    buffer of the command, and the completion it signalled, if any. *)
Record outcome := {
  ret : sense_reason_t;
  data_out : option (list Z);
  completed : option completion;
}.

(* ===================================================================== *)
(** * Command dispatcher: spc_parse_cdb *)
(* ===================================================================== *)

Definition is_one_of (x : Z) (l : list Z) : bool := existsb (Z.eqb x) l.

(** The result of [spc_parse_cdb]: the return value, the command with its
    [execute_cmd] and [sam_task_attr] as the call left them, and [*size]
    if it was assigned. *)
Definition spc_parse_cdb (cmd : se_cmd) : sense_reason_t * se_cmd * option Z :=
  let dev := se_cmd_dev cmd in
  let cdb := t_task_cdb cmd in
  let op := rd cdb 0 in
  let gate :=
    if is_one_of op [RESERVE; RESERVE_10; RELEASE; RELEASE_10] then
      if negb (truthy (emulate_pr (dev_attrib dev))) then
        Some TCM_UNSUPPORTED_SCSI_OPCODE
      else if truthy (Z.land (transport_flags dev) TRANSPORT_FLAG_PASSTHROUGH_PGR) then
        Some TCM_UNSUPPORTED_SCSI_OPCODE
      else None
    else if is_one_of op [PERSISTENT_RESERVE_IN; PERSISTENT_RESERVE_OUT] then
      if negb (truthy (emulate_pr (dev_attrib dev))) then
        Some TCM_UNSUPPORTED_SCSI_OPCODE
      else None
    else None in
  match gate with
  | Some err => (err, cmd, None)
  | None =>
    if op =? MODE_SELECT then
      (TCM_NO_SENSE, set_execute_cmd fn_spc_emulate_modeselect cmd, Some (rd cdb 4))
    else if op =? MODE_SELECT_10 then
      (TCM_NO_SENSE, set_execute_cmd fn_spc_emulate_modeselect cmd,
       Some (get_unaligned_be16 cdb 7))
    else if op =? MODE_SENSE then
      (TCM_NO_SENSE, set_execute_cmd fn_spc_emulate_modesense cmd, Some (rd cdb 4))
    else if op =? MODE_SENSE_10 then
      (TCM_NO_SENSE, set_execute_cmd fn_spc_emulate_modesense cmd,
       Some (get_unaligned_be16 cdb 7))
    else if is_one_of op [LOG_SELECT; LOG_SENSE] then
      (TCM_NO_SENSE, cmd, Some (get_unaligned_be16 cdb 7))
    else if op =? PERSISTENT_RESERVE_IN then
      (TCM_NO_SENSE, set_execute_cmd fn_target_scsi3_emulate_pr_in cmd,
       Some (get_unaligned_be16 cdb 7))
    else if op =? PERSISTENT_RESERVE_OUT then
      (TCM_NO_SENSE, set_execute_cmd fn_target_scsi3_emulate_pr_out cmd,
       Some (get_unaligned_be32 cdb 5))
    else if is_one_of op [RELEASE; RELEASE_10] then
      let size := if op =? RELEASE_10 then get_unaligned_be16 cdb 7
                  else data_length cmd in
      (TCM_NO_SENSE, set_execute_cmd fn_target_scsi2_reservation_release cmd, Some size)
    else if is_one_of op [RESERVE; RESERVE_10] then
      let size := if op =? RESERVE_10 then get_unaligned_be16 cdb 7
                  else data_length cmd in
      (TCM_NO_SENSE, set_execute_cmd fn_target_scsi2_reservation_reserve cmd, Some size)
    else if op =? REQUEST_SENSE then
      (TCM_NO_SENSE, set_execute_cmd fn_spc_emulate_request_sense cmd, Some (rd cdb 4))
    else if op =? INQUIRY then
      (TCM_NO_SENSE,
       set_execute_cmd fn_spc_emulate_inquiry (set_sam_task_attr TCM_HEAD_TAG cmd),
       Some (get_unaligned_be16 cdb 3))
    else if is_one_of op [SECURITY_PROTOCOL_IN; SECURITY_PROTOCOL_OUT] then
      (TCM_NO_SENSE, cmd, Some (get_unaligned_be32 cdb 6))
    else if op =? EXTENDED_COPY then
      (TCM_NO_SENSE, set_execute_cmd fn_target_do_xcopy cmd,
       Some (get_unaligned_be32 cdb 10))
    else if op =? RECEIVE_COPY_RESULTS then
      (TCM_NO_SENSE, set_execute_cmd fn_target_do_receive_copy_results cmd,
       Some (get_unaligned_be32 cdb 10))
    else if is_one_of op [READ_ATTRIBUTE; WRITE_ATTRIBUTE] then
      (TCM_NO_SENSE, cmd, Some (get_unaligned_be32 cdb 10))
    else if is_one_of op [RECEIVE_DIAGNOSTIC; SEND_DIAGNOSTIC] then
      (TCM_NO_SENSE, cmd, Some (get_unaligned_be16 cdb 3))
    else if op =? WRITE_BUFFER then
      (TCM_NO_SENSE, cmd, Some (get_unaligned_be24 cdb 6))
    else if op =? REPORT_LUNS then
      (TCM_NO_SENSE,
       set_sam_task_attr TCM_HEAD_TAG (set_execute_cmd fn_spc_emulate_report_luns cmd),
       Some (get_unaligned_be32 cdb 6))
    else if op =? TEST_UNIT_READY then
      (TCM_NO_SENSE, set_execute_cmd fn_spc_emulate_testunitready cmd, Some 0)
    else if op =? MAINTENANCE_IN then
      if negb (get_device_type (transport dev) =? TYPE_ROM) then
        let cmd1 :=
          if Z.land (rd cdb 1) 0x1f =? MI_REPORT_TARGET_PGS
          then set_execute_cmd fn_target_emulate_report_target_port_groups cmd
          else cmd in
        let cmd2 :=
          if Z.land (rd cdb 1) 0x1f =? MI_REPORT_SUPPORTED_OPERATION_CODES
          then set_execute_cmd fn_spc_emulate_report_supp_op_codes cmd1
          else cmd1 in
        (TCM_NO_SENSE, cmd2, Some (get_unaligned_be32 cdb 6))
      else
        (TCM_NO_SENSE, cmd, Some (get_unaligned_be16 cdb 8))
    else if op =? MAINTENANCE_OUT then
      if negb (get_device_type (transport dev) =? TYPE_ROM) then
        let cmd1 :=
          if rd cdb 1 =? MO_SET_TARGET_PGS
          then set_execute_cmd fn_target_emulate_set_target_port_groups cmd
          else cmd in
        (TCM_NO_SENSE, cmd1, Some (get_unaligned_be32 cdb 6))
      else
        (TCM_NO_SENSE, cmd, Some (get_unaligned_be16 cdb 8))
    else
      (TCM_UNSUPPORTED_SCSI_OPCODE, cmd, None)
  end.

(* ===================================================================== *)
(** * INQUIRY *)
(* ===================================================================== *)

Definition spc_fill_alua_data (lun : se_lun) (buf : list Z) : list Z :=
  let buf := wr buf 5 0x80 in
  match lun_tg_pt_gp lun with
  | Some tg_pt_gp => wr_or buf 5 (tg_pt_gp_alua_access_type tg_pt_gp)
  | None => buf
  end.

Definition spc_find_scsi_transport_vd (proto : Z) : Z :=
  if proto =? SCSI_PROTOCOL_FCP then SCSI_VERSION_DESCRIPTOR_FCP4
  else if proto =? SCSI_PROTOCOL_ISCSI then SCSI_VERSION_DESCRIPTOR_ISCSI
  else if proto =? SCSI_PROTOCOL_SAS then SCSI_VERSION_DESCRIPTOR_SAS3
  else if proto =? SCSI_PROTOCOL_SBP then SCSI_VERSION_DESCRIPTOR_SBP3
  else if proto =? SCSI_PROTOCOL_SRP then SCSI_VERSION_DESCRIPTOR_SRP
  else 0.

(** [sess->sup_prot_ops & (TARGET_PROT_DIN_PASS | TARGET_PROT_DOUT_PASS)] *)
Definition prot_pass (sess : se_session) : bool :=
  truthy (Z.land (sup_prot_ops sess) (Z.lor TARGET_PROT_DIN_PASS TARGET_PROT_DOUT_PASS)).

(** [memcpy(&buf[off], s, strnlen(s, n))] *)
Definition memcpy_strn (buf : list Z) (off : Z) (s : list Z) (n : Z) : list Z :=
  memcpy_to buf off (take (Z.to_nat (strnlen s n)) s).

Definition spc_emulate_inquiry_std (cmd : se_cmd) (buf : list Z)
  : sense_reason_t * list Z :=
  let lun := se_cmd_lun cmd in
  let tpg := lun_tpg lun in
  let dev := se_cmd_dev cmd in
  let sess := cmd_sess cmd in
  let buf := if get_device_type (transport dev) =? TYPE_TAPE
             then wr buf 1 0x80 else buf in
  let buf := wr buf 2 0x06 in
  let buf := wr buf 3 2 in
  let buf := spc_fill_alua_data lun buf in
  let buf := if truthy (emulate_3pc (dev_attrib dev))
             then wr_or buf 5 0x8 else buf in
  let buf := if prot_pass sess then
               if truthy (pi_prot_type (dev_attrib dev))
                  || truthy (sess_prot_type (cmd_sess cmd))
               then wr_or buf 5 0x1 else buf
             else buf in
  let buf := if export_count dev >? 1 then wr_or buf 6 0x10 else buf in
  let buf := wr buf 7 0x2 in
  let buf := memset_at buf 8 0x20
               (INQUIRY_VENDOR_LEN + INQUIRY_MODEL_LEN + INQUIRY_REVISION_LEN) in
  let buf := memcpy_strn buf 8 (vendor (t10_wwn dev)) INQUIRY_VENDOR_LEN in
  let buf := memcpy_strn buf 16 (model (t10_wwn dev)) INQUIRY_MODEL_LEN in
  let buf := memcpy_strn buf 32 (revision (t10_wwn dev)) INQUIRY_REVISION_LEN in
  let buf := put_unaligned_be16 SCSI_VERSION_DESCRIPTOR_SAM5 buf 58 in
  let buf := put_unaligned_be16 (spc_find_scsi_transport_vd (proto_id tpg)) buf 60 in
  let buf := put_unaligned_be16 SCSI_VERSION_DESCRIPTOR_SPC4 buf 62 in
  let buf := if get_device_type (transport (se_cmd_dev cmd)) =? TYPE_DISK
             then put_unaligned_be16 SCSI_VERSION_DESCRIPTOR_SBC3 buf 64 else buf in
  let buf := wr buf 4 91 in
  (TCM_NO_SENSE, buf).

Definition has_unit_serial (dev : se_device) : bool :=
  truthy (Z.land (dev_flags dev) DF_EMULATED_VPD_UNIT_SERIAL).

(** Unit serial number. *)
Definition spc_emulate_evpd_80 (cmd : se_cmd) (buf : list Z)
  : sense_reason_t * list Z :=
  let dev := se_cmd_dev cmd in
  if has_unit_serial dev then
    let '(buf, n) := sprintf_s buf 4 (cstr (unit_serial (t10_wwn dev))) in
    let len := u16 n in
    let len := u16 (len + 1) in
    (TCM_NO_SENSE, wr buf 3 len)
  else (TCM_NO_SENSE, buf).

(** Modelled from the spec: [hex_to_bin] of lib/hexdump.c is not among the
    sources; the spec speaks of packing the hex nibbles of the unit-serial
    string.  The value of a hexadecimal digit of either case, -1 for any
    other character. *)
Definition hex_to_bin (ch : Z) : Z :=
  if (48 <=? ch) && (ch <=? 57) then ch - 48
  else if (97 <=? ch) && (ch <=? 102) then ch - 97 + 10
  else if (65 <=? ch) && (ch <=? 70) then ch - 65 + 10
  else -1.

(** The loop of [spc_gen_naa_6h_vendor_specific]; [p] is the rest of the
    serial string. *)
Fixpoint naa_6h_loop (p : list Z) (cnt : Z) (buf : list Z) (off : Z) (next : bool)
  : list Z :=
  match p with
  | [] => buf
  | c :: p' =>
    if truthy c && (off <? cnt) then
      let val := hex_to_bin c in
      if val <? 0 then naa_6h_loop p' cnt buf off next
      else if next then naa_6h_loop p' cnt (wr_or buf off val) (off + 1) false
      else naa_6h_loop p' cnt (wr buf off (Z.shiftl val 4)) off true
    else buf
  end.

(** Generate NAA IEEE Registered Extended designator. *)
Definition spc_gen_naa_6h_vendor_specific (dev : se_device) (buf : list Z)
  : list Z * unit :=
  let p := unit_serial (t10_wwn dev) in
  let company_id := u32 (company_id (t10_wwn dev)) in
  let off := 0 in
  let buf := wr buf off (Z.shiftl 0x6 4) in
  let buf := wr_or buf off (Z.land (Z.shiftr company_id 20) 0xf) in
  let off := off + 1 in
  let buf := wr buf off (Z.land (Z.shiftr company_id 12) 0xff) in
  let off := off + 1 in
  let buf := wr buf off (Z.land (Z.shiftr company_id 4) 0xff) in
  let off := off + 1 in
  let buf := wr buf off (Z.shiftl (Z.land company_id 0xf) 4) in
  (naa_6h_loop p (off + 13) buf off true, tt).

(** A lower-case hexadecimal digit and the output of ["%04x"] for a 16-bit
    value. *)
Definition hex_digit (n : Z) : Z := if n <? 10 then 48 + n else 87 + n.

Definition hex04 (v : Z) : list Z :=
  [hex_digit (Z.land (Z.shiftr v 12) 0xf); hex_digit (Z.land (Z.shiftr v 8) 0xf);
   hex_digit (Z.land (Z.shiftr v 4) 0xf); hex_digit (Z.land v 0xf)].

(** The local variables of [spc_emulate_evpd_83] that outlive a step. *)
Record evpd_83_locals := {
  e_buf : list Z;
  e_off : Z;
  e_len : Z;
}.

(** The NUL-terminated, NUL-padded SCSI name string length: a multiple of
    four, at most 256. *)
Definition scsi_name_pad (n : Z) : Z :=
  let n := u32 (n + 1) in
  let padding := Z.land (u32 (- n)) 3 in
  let n := if truthy padding then u32 (n + padding) else n in
  if n >? 256 then 256 else n.

(** Device identification VPD.  The body of [spc_emulate_evpd_83] is a
    sequence of designators separated by its labels; each stretch is given
    here as a step on the locals [buf], [off] and [len]. *)

(** NAA IEEE Registered Extended Assigned designator (skipped by the
    [goto check_t10_vend_desc] when no unit serial is set). *)
Definition evpd_83_naa (dev : se_device) (l : evpd_83_locals) : evpd_83_locals :=
  let '(buf, off, len) := (e_buf l, e_off l, e_len l) in
  if negb (has_unit_serial dev) then l
  else
    let buf := wr buf off 0x1 in
    let off := u32 (off + 1) in
    let buf := wr buf off 0x00 in
    let buf := wr_or buf off 0x3 in
    let off := u32 (off + 1) in
    let off := u32 (off + 1) in
    let buf := wr buf off 0x10 in
    let off := u32 (off + 1) in
    let buf := fst (at_offset off (spc_gen_naa_6h_vendor_specific dev) buf) in
    let len := 20 in
    let off := u32 (len + 4) in
    {| e_buf := buf; e_off := off; e_len := len |}.

(** check_t10_vend_desc: T10 Vendor Identifier. *)
Definition evpd_83_t10_vendor (dev : se_device) (l : evpd_83_locals)
  : evpd_83_locals :=
  let '(buf, off, len) := (e_buf l, e_off l, e_len l) in
  let prod := model (t10_wwn dev) in
  let id_len := 8 in
  let '(buf, id_len) :=
    if has_unit_serial dev then
      let '(buf, n) :=
        sprintf_s buf (off + 12)
                  (cstr prod ++ [58] ++ cstr (unit_serial (t10_wwn dev))) in
      (buf, u16 (id_len + n))
    else (buf, id_len) in
  let buf := wr buf off 0x2 in
  let buf := wr buf (off + 1) 0x1 in
  let buf := wr buf (off + 2) 0x0 in
  let buf := memset_at buf (off + 4) 0x20 INQUIRY_VENDOR_LEN in
  let buf := memcpy_strn buf (off + 4) (vendor (t10_wwn dev)) INQUIRY_VENDOR_LEN in
  let id_len := u16 (id_len + 1) in
  let buf := wr buf (off + 3) id_len in
  let len := u16 (len + (id_len + 4)) in
  let off := u32 (off + (id_len + 4)) in
  {| e_buf := buf; e_off := off; e_len := len |}.

(** Relative target port identifier. *)
Definition evpd_83_rtpi (lun : se_lun) (l : evpd_83_locals) : evpd_83_locals :=
  let '(buf, off, len) := (e_buf l, e_off l, e_len l) in
  let tpg := lun_tpg lun in
  let buf := wr buf off (Z.shiftl (proto_id tpg) 4) in
  let buf := wr_or buf off 0x1 in
  let off := u32 (off + 1) in
  let buf := wr buf off 0x80 in
  let buf := wr_or buf off 0x10 in
  let buf := wr_or buf off 0x4 in
  let off := u32 (off + 1) in
  let off := u32 (off + 1) in
  let buf := wr buf off 4 in
  let off := u32 (off + 1) in
  let off := u32 (off + 2) in
  let buf := put_unaligned_be16 (tpg_rtpi (lun_tpg lun)) buf off in
  let off := u32 (off + 2) in
  let len := u16 (len + 8) in
  {| e_buf := buf; e_off := off; e_len := len |}.

(** Target port group identifier (skipped by [goto check_lu_gp] when the
    LUN has no target port group). *)
Definition evpd_83_tg_pt_gp (lun : se_lun) (l : evpd_83_locals) : evpd_83_locals :=
  let '(buf, off, len) := (e_buf l, e_off l, e_len l) in
  let tpg := lun_tpg lun in
  match lun_tg_pt_gp lun with
  | None => l
  | Some tg_pt_gp =>
    let tg_pt_gp_id := u16 (tg_pt_gp_id tg_pt_gp) in
    let buf := wr buf off (Z.shiftl (proto_id tpg) 4) in
    let buf := wr_or buf off 0x1 in
    let off := u32 (off + 1) in
    let buf := wr buf off 0x80 in
    let buf := wr_or buf off 0x10 in
    let buf := wr_or buf off 0x5 in
    let off := u32 (off + 1) in
    let off := u32 (off + 1) in
    let buf := wr buf off 4 in
    let off := u32 (off + 1) in
    let off := u32 (off + 2) in
    let buf := put_unaligned_be16 tg_pt_gp_id buf off in
    let off := u32 (off + 2) in
    let len := u16 (len + 8) in
    {| e_buf := buf; e_off := off; e_len := len |}
  end.

(** check_lu_gp: Logical Unit Group identifier (skipped by
    [goto check_scsi_name] without group membership). *)
Definition evpd_83_lu_gp (dev : se_device) (l : evpd_83_locals) : evpd_83_locals :=
  let '(buf, off, len) := (e_buf l, e_off l, e_len l) in
  match dev_alua_lu_gp_mem dev with
  | None => l
  | Some lu_gp_mem =>
    match lu_gp lu_gp_mem with
    | None => l
    | Some lu_gp =>
      let lu_gp_id := u16 (lu_gp_id lu_gp) in
      let buf := wr_or buf off 0x1 in
      let off := u32 (off + 1) in
      let buf := wr_or buf off 0x6 in
      let off := u32 (off + 1) in
      let off := u32 (off + 1) in
      let buf := wr buf off 4 in
      let off := u32 (off + 1) in
      let off := u32 (off + 2) in
      let buf := put_unaligned_be16 lu_gp_id buf off in
      let off := u32 (off + 2) in
      let len := u16 (len + 8) in
      {| e_buf := buf; e_off := off; e_len := len |}
    end
  end.

(** check_scsi_name: SCSI name string designator,
    ["<fabric name>,t,0x<tpgt>"]. *)
Definition evpd_83_scsi_name (tpg : se_portal_group) (l : evpd_83_locals)
  : evpd_83_locals :=
  let '(buf, off, len) := (e_buf l, e_off l, e_len l) in
  let buf := wr buf off (Z.shiftl (proto_id tpg) 4) in
  let buf := wr_or buf off 0x3 in
  let off := u32 (off + 1) in
  let buf := wr buf off 0x80 in
  let buf := wr_or buf off 0x10 in
  let buf := wr_or buf off 0x8 in
  let off := u32 (off + 1) in
  let off := u32 (off + 2) in
  let tpgt := u16 (tpg_get_tag tpg) in
  let '(buf, n) :=
    sprintf_s buf off (cstr (tpg_get_wwn tpg) ++ [44; 116; 44; 48; 120] ++ hex04 tpgt) in
  let scsi_name_len := scsi_name_pad n in
  let buf := wr buf (off - 1) scsi_name_len in
  let off := u32 (off + scsi_name_len) in
  let len := u16 (len + (scsi_name_len + 4)) in
  {| e_buf := buf; e_off := off; e_len := len |}.

(** Target device designator: the fabric name alone. *)
Definition evpd_83_target_device (tpg : se_portal_group) (l : evpd_83_locals)
  : evpd_83_locals :=
  let '(buf, off, len) := (e_buf l, e_off l, e_len l) in
  let buf := wr buf off (Z.shiftl (proto_id tpg) 4) in
  let buf := wr_or buf off 0x3 in
  let off := u32 (off + 1) in
  let buf := wr buf off 0x80 in
  let buf := wr_or buf off 0x20 in
  let buf := wr_or buf off 0x8 in
  let off := u32 (off + 1) in
  let off := u32 (off + 2) in
  let '(buf, n) := sprintf_s buf off (cstr (tpg_get_wwn tpg)) in
  let scsi_target_len := scsi_name_pad n in
  let buf := wr buf (off - 1) scsi_target_len in
  let off := u32 (off + scsi_target_len) in
  let len := u16 (len + (scsi_target_len + 4)) in
  {| e_buf := buf; e_off := off; e_len := len |}.

(** The locals when the last designator has been encoded, before the page
    length is stored. *)
Definition evpd_83_designators (cmd : se_cmd) (buf : list Z) : evpd_83_locals :=
  let dev := se_cmd_dev cmd in
  let lun := se_cmd_lun cmd in
  let l := {| e_buf := buf; e_off := 4; e_len := 0 |} in
  let l := evpd_83_naa dev l in
  let l := evpd_83_t10_vendor dev l in
  let tpg := lun_tpg lun in
  let l := evpd_83_rtpi lun l in
  let l := evpd_83_tg_pt_gp lun l in
  let l := evpd_83_lu_gp dev l in
  let l := evpd_83_scsi_name tpg l in
  evpd_83_target_device tpg l.

(** The locals on return, [put_unaligned_be16(len, &buf[2])] done. *)
Definition spc_emulate_evpd_83_locals (cmd : se_cmd) (buf : list Z) : evpd_83_locals :=
  let l := evpd_83_designators cmd buf in
  {| e_buf := put_unaligned_be16 (e_len l) (e_buf l) 2;
     e_off := e_off l; e_len := e_len l |}.

Definition spc_emulate_evpd_83 (cmd : se_cmd) (buf : list Z)
  : sense_reason_t * list Z :=
  (TCM_NO_SENSE, e_buf (spc_emulate_evpd_83_locals cmd buf)).

(** Extended INQUIRY Data VPD page. *)
Definition spc_emulate_evpd_86 (cmd : se_cmd) (buf : list Z)
  : sense_reason_t * list Z :=
  let dev := se_cmd_dev cmd in
  let sess := cmd_sess cmd in
  let pi := pi_prot_type (dev_attrib dev) in
  let sp := sess_prot_type (cmd_sess cmd) in
  let buf := wr buf 3 0x3c in
  let buf :=
    if prot_pass sess then
      if (pi =? TARGET_DIF_TYPE1_PROT) || (sp =? TARGET_DIF_TYPE1_PROT)
      then wr buf 4 0x5
      else if (pi =? TARGET_DIF_TYPE3_PROT) || (sp =? TARGET_DIF_TYPE3_PROT)
      then wr buf 4 0x4
      else buf
    else buf in
  let buf :=
    if (get_device_type (transport dev) =? TYPE_DISK) && prot_pass sess
       && (truthy pi || truthy sp)
    then wr_or buf 4 (Z.shiftl 0x3 3) else buf in
  let buf := wr buf 5 0x07 in
  let buf := if target_check_wce dev then wr buf 6 0x01 else buf in
  let buf := if negb (lba_map_list_empty (t10_alua dev)) then wr buf 8 0x10 else buf in
  (TCM_NO_SENSE, buf).

(** [mult_frac(x, n, d)] and [min_not_zero(x, y)] of <linux/math.h> and
    <linux/minmax.h>, on 32-bit unsigned operands. *)
Definition mult_frac (x n d : Z) : Z :=
  let q := x / d in
  let r := x mod d in
  u32 (u32 (q * n) + u32 (r * n) / d).

Definition min_not_zero (x y : Z) : Z :=
  if x =? 0 then y else if y =? 0 then x else Z.min x y.

(** Block Limits VPD page. *)
Definition spc_emulate_evpd_b0 (cmd : se_cmd) (buf : list Z)
  : sense_reason_t * list Z :=
  let dev := se_cmd_dev cmd in
  let attrib := dev_attrib dev in
  let have_tp := truthy (emulate_tpu attrib) || truthy (emulate_tpws attrib) in
  let buf := wr buf 0 (get_device_type (transport dev)) in
  let buf := wr buf 3 (if have_tp then 0x3c else 0x10) in
  let buf := wr buf 4 0x01 in
  let buf := if truthy (emulate_caw attrib) then wr buf 5 0x01 else buf in
  let buf :=
    match get_io_min (transport dev) with
    | Some min =>
      if truthy min then put_unaligned_be16 (u32 min / block_size attrib) buf 6
      else put_unaligned_be16 1 buf 6
    | None => put_unaligned_be16 1 buf 6
    end in
  let mtl :=
    if truthy (max_data_sg_nents (se_tfo cmd))
    then u32 (max_data_sg_nents (se_tfo cmd) * PAGE_SIZE / block_size attrib)
    else 0 in
  let io_max_blocks :=
    mult_frac (hw_max_sectors attrib) (hw_block_size attrib) (block_size attrib) in
  let buf := put_unaligned_be32 (min_not_zero mtl io_max_blocks) buf 8 in
  let buf :=
    match get_io_opt (transport dev) with
    | Some opt =>
      if truthy opt then put_unaligned_be32 (u32 opt / block_size attrib) buf 12
      else put_unaligned_be32 (optimal_sectors attrib) buf 12
    | None => put_unaligned_be32 (optimal_sectors attrib) buf 12
    end in
  let buf :=
    if negb have_tp then buf
    else
      let buf := put_unaligned_be32 (max_unmap_lba_count attrib) buf 20 in
      let buf := put_unaligned_be32 (max_unmap_block_desc_count attrib) buf 24 in
      let buf := put_unaligned_be32 (unmap_granularity attrib) buf 28 in
      let buf := put_unaligned_be32 (unmap_granularity_alignment attrib) buf 32 in
      if negb (unmap_granularity_alignment attrib =? 0)
      then wr_or buf 32 0x80 else buf in
  (* max_write_same: *)
  let buf := put_unaligned_be64 (max_write_same_len attrib) buf 36 in
  (TCM_NO_SENSE, buf).

(** Block Device Characteristics VPD page. *)
Definition spc_emulate_evpd_b1 (cmd : se_cmd) (buf : list Z)
  : sense_reason_t * list Z :=
  let dev := se_cmd_dev cmd in
  let buf := wr buf 0 (get_device_type (transport dev)) in
  let buf := wr buf 3 0x3c in
  let buf := wr buf 5 (if truthy (is_nonrot (dev_attrib dev)) then 1 else 0) in
  (TCM_NO_SENSE, buf).

(** Thin Provisioning VPD. *)
Definition spc_emulate_evpd_b2 (cmd : se_cmd) (buf : list Z)
  : sense_reason_t * list Z :=
  let dev := se_cmd_dev cmd in
  let attrib := dev_attrib dev in
  let buf := wr buf 0 (get_device_type (transport dev)) in
  let buf := put_unaligned_be16 0x0004 buf 2 in
  let buf := wr buf 4 0x00 in
  let buf := if negb (emulate_tpu attrib =? 0) then wr buf 5 0x80 else buf in
  let buf := if negb (emulate_tpws attrib =? 0)
             then wr_or buf 5 (Z.lor 0x40 0x20) else buf in
  let buf :=
    if (negb (emulate_tpu attrib =? 0) || negb (emulate_tpws attrib =? 0))
       && negb (unmap_zeroes_data attrib =? 0)
    then wr_or buf 5 0x04 else buf in
  (TCM_NO_SENSE, buf).

(** Referrals VPD page. *)
Definition spc_emulate_evpd_b3 (cmd : se_cmd) (buf : list Z)
  : sense_reason_t * list Z :=
  let dev := se_cmd_dev cmd in
  let buf := wr buf 0 (get_device_type (transport dev)) in
  let buf := wr buf 3 0x0c in
  let buf := put_unaligned_be32 (lba_map_segment_size (t10_alua dev)) buf 8 in
  let buf := put_unaligned_be32 (lba_map_segment_multiplier (t10_alua dev)) buf 12 in
  (TCM_NO_SENSE, buf).

(** The [.page] column of [evpd_handlers], which [spc_emulate_evpd_00]
    reads through its forward declaration. *)
Definition evpd_handler_pages : list Z :=
  [0x00; 0x80; 0x83; 0x86; 0xb0; 0xb1; 0xb2; 0xb3].

(** [for (p = 0; p < ARRAY_SIZE(evpd_handlers); ++p) buf[p + 4] = page] *)
Fixpoint evpd_00_fill (pages : list Z) (p : Z) (buf : list Z) : list Z :=
  match pages with
  | [] => buf
  | page :: rest => evpd_00_fill rest (p + 1) (wr buf (p + 4) page)
  end.

(** Supported vital product data pages. *)
Definition spc_emulate_evpd_00 (cmd : se_cmd) (buf : list Z)
  : sense_reason_t * list Z :=
  if has_unit_serial (se_cmd_dev cmd) then
    let buf := wr buf 3 (Z.of_nat (length evpd_handler_pages)) in
    (TCM_NO_SENSE, evpd_00_fill evpd_handler_pages 0 buf)
  else (TCM_NO_SENSE, buf).

Definition evpd_handlers
  : list (Z * (se_cmd -> list Z -> sense_reason_t * list Z)) :=
  [ (0x00, spc_emulate_evpd_00);
    (0x80, spc_emulate_evpd_80);
    (0x83, spc_emulate_evpd_83);
    (0x86, spc_emulate_evpd_86);
    (0xb0, spc_emulate_evpd_b0);
    (0xb1, spc_emulate_evpd_b1);
    (0xb2, spc_emulate_evpd_b2);
    (0xb3, spc_emulate_evpd_b3) ].

(** The search of [spc_emulate_inquiry] through [evpd_handlers]: the return
    value, the buffer and [len]. *)
Fixpoint inquiry_evpd_loop
    (handlers : list (Z * (se_cmd -> list Z -> sense_reason_t * list Z)))
    (cmd : se_cmd) (buf : list Z) : sense_reason_t * list Z * Z :=
  match handlers with
  | [] => (TCM_INVALID_CDB_FIELD, buf, 0)
  | (page, emulate) :: rest =>
    if rd (t_task_cdb cmd) 2 =? page then
      let buf := wr buf 1 (rd (t_task_cdb cmd) 2) in
      let '(ret, buf) := emulate cmd buf in
      (ret, buf, get_unaligned_be16 buf 2 + 4)
    else inquiry_evpd_loop rest cmd buf
  end.

(** The exit path shared by the emulators that build their response in a
    scratch buffer: copy [n] bytes out when the data buffer is mapped. *)
Definition copy_out (cmd : se_cmd) (buf : list Z) (n : Z) : option (list Z) :=
  match t_data cmd with
  | Some rbuf => Some (memcpy_to rbuf 0 (take (Z.to_nat n) buf))
  | None => None
  end.

(** The scratch buffer is taken to be allocated ([kzalloc] succeeding). *)
Definition spc_emulate_inquiry (cmd : se_cmd) : outcome :=
  let dev := se_cmd_dev cmd in
  let cdb := t_task_cdb cmd in
  let buf := zeroed SE_INQUIRY_BUF in
  let buf := wr buf 0 (get_device_type (transport dev)) in
  let '(ret, buf, len) :=
    if negb (truthy (Z.land (rd cdb 1) 0x1)) then
      if truthy (rd cdb 2) then (TCM_INVALID_CDB_FIELD, buf, 0)
      else
        let '(ret, buf) := spc_emulate_inquiry_std cmd buf in
        (ret, buf, rd buf 4 + 5)
    else inquiry_evpd_loop evpd_handlers cmd buf in
  (* out: *)
  let data := copy_out cmd buf (min_u32 SE_INQUIRY_BUF (data_length cmd)) in
  {| ret := ret;
     data_out := data;
     completed := match ret with
                  | TCM_NO_SENSE => Some (CompleteWithLength SAM_STAT_GOOD len)
                  | _ => None
                  end |}.

(* ===================================================================== *)
(** * MODE SENSE and MODE SELECT *)
(* ===================================================================== *)

(** The [struct se_cmd *, u8 pc, unsigned char *p] page generators: the
    page written at [p] and the page size. *)
Definition spc_modesense_rwrecovery (cmd : se_cmd) (pc : Z) (p : list Z)
  : list Z * Z :=
  let p := wr p 0 0x01 in
  let p := wr p 1 0x0a in
  (p, 12).

Definition spc_modesense_control (cmd : se_cmd) (pc : Z) (p : list Z)
  : list Z * Z :=
  let dev := se_cmd_dev cmd in
  let sess := cmd_sess cmd in
  let p := wr p 0 0x0a in
  let p := wr p 1 0x0a in
  if pc =? 1 then (p, 12)
  else
    let p := wr p 2 (Z.shiftl 1 1) in
    let p := if target_sense_desc_format dev then wr_or p 2 (Z.shiftl 1 2) else p in
    let p := wr p 3 (if emulate_rest_reord (dev_attrib dev) =? 1 then 0x00 else 0x10) in
    let ua := emulate_ua_intlck_ctrl (dev_attrib dev) in
    let p := if ua =? TARGET_UA_INTLCK_CTRL_ESTABLISH_UA then wr p 4 0x30
             else if ua =? TARGET_UA_INTLCK_CTRL_NO_CLEAR then wr p 4 0x20
             else wr p 4 0x00 in
    let p := wr p 5 (if truthy (emulate_tas (dev_attrib dev)) then 0x40 else 0x00) in
    let p := if prot_pass sess then
               if truthy (pi_prot_type (dev_attrib dev)) || truthy (sess_prot_type sess)
               then wr_or p 5 0x80 else p
             else p in
    let p := wr p 8 0xff in
    let p := wr p 9 0xff in
    let p := wr p 11 30 in
    (p, 12).

Definition spc_modesense_caching (cmd : se_cmd) (pc : Z) (p : list Z)
  : list Z * Z :=
  let dev := se_cmd_dev cmd in
  let p := wr p 0 0x08 in
  let p := wr p 1 0x12 in
  if pc =? 1 then (p, 20)
  else
    let p := if target_check_wce dev then wr p 2 0x04 else p in
    let p := wr p 12 0x20 in
    (p, 20).

Definition spc_modesense_informational_exceptions (cmd : se_cmd) (pc : Z) (p : list Z)
  : list Z * Z :=
  let p := wr p 0 0x1c in
  let p := wr p 1 0x0a in
  (p, 12).

Record modesense_handler := {
  mh_page : Z;
  mh_subpage : Z;
  mh_emulate : se_cmd -> Z -> list Z -> list Z * Z;
}.

Definition modesense_handlers : list modesense_handler :=
  [ {| mh_page := 0x01; mh_subpage := 0x00; mh_emulate := spc_modesense_rwrecovery |};
    {| mh_page := 0x08; mh_subpage := 0x00; mh_emulate := spc_modesense_caching |};
    {| mh_page := 0x0a; mh_subpage := 0x00; mh_emulate := spc_modesense_control |};
    {| mh_page := 0x1c; mh_subpage := 0x00;
       mh_emulate := spc_modesense_informational_exceptions |} ].

(** Every device type, the default included, takes the same branch. *)
Definition spc_modesense_write_protect (type : Z) (buf : list Z) : list Z * unit :=
  (wr_or buf 0 0x80, tt).

Definition spc_modesense_dpofua (type : Z) (buf : list Z) : list Z * unit :=
  if type =? TYPE_DISK then (wr_or buf 0 0x10, tt) else (buf, tt).

Definition spc_modesense_blockdesc (blocks block_size : Z) (buf : list Z)
  : list Z * Z :=
  let buf := wr buf 0 8 in
  let buf := put_unaligned_be32 (Z.min blocks 0xffffffff) buf 1 in
  let buf := put_unaligned_be32 block_size buf 5 in
  (buf, 9).

Definition spc_modesense_long_blockdesc (blocks block_size : Z) (buf : list Z)
  : list Z * Z :=
  if blocks <=? 0xffffffff then
    let '(buf, n) := at_offset 3 (spc_modesense_blockdesc blocks block_size) buf in
    (buf, n + 3)
  else
    let buf := wr buf 0 1 in
    let buf := wr buf 3 16 in
    let buf := put_unaligned_be64 blocks buf 4 in
    let buf := put_unaligned_be32 block_size buf 16 in
    (buf, 17).

(** The search loops of MODE SENSE and MODE SELECT for an exact
    page and subpage match. *)
Fixpoint modesense_find (handlers : list modesense_handler) (page subpage : Z)
  : option modesense_handler :=
  match handlers with
  | [] => None
  | h :: rest =>
    if (mh_page h =? page) && (mh_subpage h =? subpage) then Some h
    else modesense_find rest page subpage
  end.

(** The loop of MODE SENSE for page code 0x3f (all pages). *)
Fixpoint modesense_all_pages (handlers : list modesense_handler) (cmd : se_cmd)
    (ten : bool) (pc subpage : Z) (buf : list Z) (length : Z) : list Z * Z :=
  match handlers with
  | [] => (buf, length)
  | h :: rest =>
    if Z.land (mh_subpage h) (Z.lnot subpage) =? 0 then
      let '(buf, ret) := at_offset length (mh_emulate h cmd pc) buf in
      if negb ten && (length + ret >=? 255) then (buf, length)
      else modesense_all_pages rest cmd ten pc subpage buf (length + ret)
    else modesense_all_pages rest cmd ten pc subpage buf length
  end.

(** [spc_emulate_modesense] up to and including its [set_length] label:
    the value of an early return, or the scratch buffer and [length]. *)
Definition spc_modesense_scratch (cmd : se_cmd) : sense_reason_t + list Z * Z :=
  let dev := se_cmd_dev cmd in
  let cdb := t_task_cdb cmd in
  let type := get_device_type (transport dev) in
  let ten := rd (t_task_cdb cmd) 0 =? MODE_SENSE_10 in
  let dbd := truthy (Z.land (rd cdb 1) 0x08) in
  let llba := if ten then truthy (Z.land (rd cdb 1) 0x10) else false in
  let pc := u8 (Z.shiftr (rd cdb 2) 6) in
  let page := Z.land (rd cdb 2) 0x3f in
  let subpage := rd cdb 3 in
  let buf := zeroed SE_MODE_PAGE_BUF in
  let length := if ten then 3 else 2 in
  (* DEVICE-SPECIFIC PARAMETER *)
  let buf := if lun_access_ro (se_cmd_lun cmd) || target_lun_is_rdonly cmd
             then fst (at_offset length (spc_modesense_write_protect type) buf)
             else buf in
  let buf := if target_check_fua dev
             then fst (at_offset length (spc_modesense_dpofua type) buf)
             else buf in
  let length := length + 1 in
  (* BLOCK DESCRIPTOR *)
  let '(buf, length) :=
    if negb dbd && (type =? TYPE_DISK) then
      let blocks := get_blocks (transport dev) in
      let block_size := block_size (dev_attrib dev) in
      if ten then
        if llba then
          let '(buf, n) :=
            at_offset length (spc_modesense_long_blockdesc blocks block_size) buf in
          (buf, length + n)
        else
          let length := length + 3 in
          let '(buf, n) :=
            at_offset length (spc_modesense_blockdesc blocks block_size) buf in
          (buf, length + n)
      else
        let '(buf, n) :=
          at_offset length (spc_modesense_blockdesc blocks block_size) buf in
        (buf, length + n)
    else if ten then (buf, length + 4)
    else (buf, length + 1) in
  let pages :=
    if page =? 0x3f then
      if negb (subpage =? 0x00) && negb (subpage =? 0xff) then inl TCM_INVALID_CDB_FIELD
      else inr (modesense_all_pages modesense_handlers cmd ten pc subpage buf length)
    else
      match modesense_find modesense_handlers page subpage with
      | Some h =>
        let '(buf, n) := at_offset length (mh_emulate h cmd pc) buf in
        inr (buf, length + n)
      | None => inl TCM_UNKNOWN_MODE_PAGE
      end in
  match pages with
  | inl err => inl err
  | inr (buf, length) =>
    (* set_length: *)
    let buf := if ten then put_unaligned_be16 (length - 2) buf 0
               else wr buf 0 (length - 1) in
    inr (buf, length)
  end.

Definition spc_emulate_modesense (cmd : se_cmd) : outcome :=
  match spc_modesense_scratch cmd with
  | inl err => {| ret := err; data_out := t_data cmd; completed := None |}
  | inr (buf, length) =>
    {| ret := TCM_NO_SENSE;
       data_out := copy_out cmd buf (min_u32 SE_MODE_PAGE_BUF (data_length cmd));
       completed := Some (CompleteWithLength SAM_STAT_GOOD length) |}
  end.

Fixpoint bytes_eqb (a b : list Z) : bool :=
  match a, b with
  | [], [] => true
  | x :: a', y :: b' => (x =? y) && bytes_eqb a' b'
  | _, _ => false
  end.

(** [memcmp(a, b, n)]: 0 when the first [n] bytes agree; only that is
    looked at by the callers, a difference is reported as 1. *)
Definition memcmp (a b : list Z) (n : Z) : Z :=
  if bytes_eqb (take (Z.to_nat n) a) (take (Z.to_nat n) b) then 0 else 1.

Definition spc_emulate_modeselect (cmd : se_cmd) : outcome :=
  let cdb := t_task_cdb cmd in
  let ten := rd cdb 0 =? MODE_SELECT_10 in
  let off := if ten then 8 else 4 in
  let pf := truthy (Z.land (rd cdb 1) 0x10) in
  if negb (truthy (data_length cmd)) then
    {| ret := TCM_NO_SENSE; data_out := t_data cmd;
       completed := Some (Complete SAM_STAT_GOOD) |}
  else if data_length cmd <? off + 2 then
    {| ret := TCM_PARAMETER_LIST_LENGTH_ERROR; data_out := t_data cmd;
       completed := None |}
  else
    match t_data cmd with
    | None =>
      {| ret := TCM_LOGICAL_UNIT_COMMUNICATION_FAILURE; data_out := None;
         completed := None |}
    | Some buf =>
      let ret :=
        if negb pf then TCM_INVALID_CDB_FIELD
        else
          let page := Z.land (rd buf off) 0x3f in
          let subpage := if truthy (Z.land (rd buf off) 0x40)
                         then rd buf (off + 1) else 0 in
          match modesense_find modesense_handlers page subpage with
          | None => TCM_UNKNOWN_MODE_PAGE
          | Some h =>
            let tbuf := zeroed SE_MODE_PAGE_BUF in
            let '(tbuf, length) := mh_emulate h cmd 0 tbuf in
            (* check_contents: *)
            if data_length cmd <? off + length then TCM_PARAMETER_LIST_LENGTH_ERROR
            else if truthy (memcmp (drop (Z.to_nat off) buf) tbuf length)
            then TCM_INVALID_PARAMETER_LIST
            else TCM_NO_SENSE
          end in
      (* out: *)
      {| ret := ret; data_out := Some buf;
         completed := match ret with
                      | TCM_NO_SENSE => Some (Complete SAM_STAT_GOOD)
                      | _ => None
                      end |}
    end.

(* ===================================================================== *)
(** * REPORT LUNS *)
(* ===================================================================== *)

(** Modelled from the spec: [int_to_scsilun] of drivers/scsi/scsi_common.c
    is not among the sources; the spec calls each LUN entry an 8-byte SCSI
    LUN structure.  The 64-bit LUN is laid out two bytes at a time, the
    more significant byte of each 16-bit level first. *)
Fixpoint int_to_scsilun_loop (levels : nat) (lun : Z) : list Z :=
  match levels with
  | O => []
  | S levels' =>
    Z.land (Z.shiftr lun 8) 0xff :: Z.land lun 0xff
      :: int_to_scsilun_loop levels' (Z.shiftr lun 16)
  end.

Definition int_to_scsilun (lun : Z) : list Z := int_to_scsilun_loop 4 (lun mod 2 ^ 64).

(** Conversion of a 32-bit unsigned value to [int]. *)
Definition s32 (v : Z) : Z := if u32 v <? 2147483648 then u32 v else u32 v - 4294967296.

(** [memcpy(buf + off, src, n)] through a possibly NULL mapping. *)
Definition memcpy_opt (buf : option (list Z)) (off : Z) (src : list Z) (n : Z)
  : option (list Z) :=
  match buf with
  | Some b => Some (memcpy_to b off (take (Z.to_nat n) src))
  | None => None
  end.

(** The walk over [nacl->lun_entry_hlist]. *)
Fixpoint report_luns_loop (deves : list se_dev_entry) (data_length : Z)
    (buf : option (list Z)) (lun_count offset : Z) : option (list Z) * Z * Z :=
  match deves with
  | [] => (buf, lun_count, offset)
  | deve :: rest =>
    let lun_count := u32 (lun_count + 1) in
    if offset >=? data_length then
      report_luns_loop rest data_length buf lun_count offset
    else
      let slun := int_to_scsilun (mapped_lun deve) in
      let buf := memcpy_opt buf offset slun (Z.min 8 (u32 (data_length - offset))) in
      report_luns_loop rest data_length buf lun_count (u32 (offset + 8))
  end.

Definition spc_emulate_report_luns (cmd : se_cmd) : outcome :=
  let buf := t_data cmd in
  if truthy (data_length cmd) && negb (bool_decide (is_Some buf)) then
    {| ret := TCM_LOGICAL_UNIT_COMMUNICATION_FAILURE; data_out := buf;
       completed := None |}
  else
    let '(buf, lun_count, offset) :=
      match se_sess cmd with
      | None => (buf, 0, 8)
      | Some sess =>
        report_luns_loop (lun_entry_hlist (sess_node_acl sess))
                         (data_length cmd) buf 0 8
      end in
    (* done: *)
    let '(buf, lun_count) :=
      if lun_count =? 0 then
        let slun := int_to_scsilun 0 in
        let buf := if data_length cmd >? 8
                   then memcpy_opt buf offset slun
                          (Z.min 8 (u32 (data_length cmd - offset)))
                   else buf in
        (buf, 1)
      else (buf, lun_count) in
    let buf := memcpy_opt buf 0 (cpu_to_be32 (u32 (lun_count * 8)))
                 (Z.min 4 (s32 (data_length cmd))) in
    {| ret := TCM_NO_SENSE; data_out := buf;
       completed :=
         Some (CompleteWithLength SAM_STAT_GOOD (s32 (u32 (8 + u32 (lun_count * 8))))) |}.

(* ===================================================================== *)
(** * REPORT SUPPORTED OPERATION CODES *)
(* ===================================================================== *)

(** The data members of [struct target_opcode_descriptor]. *)
Record opcode_descr_fields := {
  support : Z;
  serv_action_valid : Z;
  opcode : Z;
  service_action : Z;
  cdb_size : Z;
  specific_timeout : Z;
  nominal_timeout : Z;
  recommended_timeout : Z;
  usage_bits : list Z;
}.

(** A descriptor: its data and its two optional callbacks.  [enabled] is
    handed the descriptor's own data, as the C callback is handed
    [descr]. *)
Record target_opcode_descriptor := {
  descr_fields :> opcode_descr_fields;
  enabled : option (opcode_descr_fields -> se_cmd -> bool);
  update_usage_bits : option (list Z -> se_device -> list Z);
}.

Definition set_dpofua_usage_bits (usage_bits : list Z) (dev : se_device) : list Z :=
  if negb (target_check_fua dev) then wr_and usage_bits 1 (Z.lnot 0x18)
  else wr_or usage_bits 1 0x18.

Definition set_dpofua_usage_bits32 (usage_bits : list Z) (dev : se_device) : list Z :=
  if negb (target_check_fua dev) then wr_and usage_bits 10 (Z.lnot 0x18)
  else wr_or usage_bits 10 0x18.

Definition tcm_is_ws_enabled (descr : opcode_descr_fields) (cmd : se_cmd) : bool :=
  let ops := protocol_data cmd in
  let dev := se_cmd_dev cmd in
  (truthy (emulate_tpws (dev_attrib dev)) && execute_unmap ops)
  || execute_write_same ops.

Definition tcm_is_caw_enabled (descr : opcode_descr_fields) (cmd : se_cmd) : bool :=
  truthy (emulate_caw (dev_attrib (se_cmd_dev cmd))).

Definition tcm_is_rep_ref_enabled (descr : opcode_descr_fields) (cmd : se_cmd) : bool :=
  if lba_map_list_empty (t10_alua (se_cmd_dev cmd)) then false else true.

Definition tcm_is_unmap_enabled (descr : opcode_descr_fields) (cmd : se_cmd) : bool :=
  execute_unmap (protocol_data cmd)
  && truthy (emulate_tpu (dev_attrib (se_cmd_dev cmd))).

Definition tcm_is_pr_enabled (descr : opcode_descr_fields) (cmd : se_cmd) : bool :=
  let dev := se_cmd_dev cmd in
  if negb (truthy (emulate_pr (dev_attrib dev))) then false
  else if negb (truthy (Z.land (transport_flags dev) TRANSPORT_FLAG_PASSTHROUGH_PGR))
  then true
  else if is_one_of (opcode descr) [RESERVE; RESERVE_10; RELEASE; RELEASE_10]
  then false
  else if opcode descr =? PERSISTENT_RESERVE_OUT then
    if is_one_of (service_action descr)
         [PRO_REGISTER_AND_MOVE; PRO_REPLACE_LOST_RESERVATION]
    then false else true
  else if opcode descr =? PERSISTENT_RESERVE_IN then
    if service_action descr =? PRI_READ_FULL_STATUS then false else true
  else true.

Definition tcm_is_3pc_enabled (descr : opcode_descr_fields) (cmd : se_cmd) : bool :=
  truthy (emulate_3pc (dev_attrib (se_cmd_dev cmd))).

Definition spc_rsoc_enabled (descr : opcode_descr_fields) (cmd : se_cmd) : bool :=
  truthy (emulate_rsoc (dev_attrib (se_cmd_dev cmd))).

Definition tcm_is_set_tpg_enabled (descr : opcode_descr_fields) (cmd : se_cmd) : bool :=
  match lun_tg_pt_gp (se_cmd_lun cmd) with
  | None => false
  | Some l_tg_pt_gp =>
    if negb (truthy (Z.land (tg_pt_gp_alua_access_type l_tg_pt_gp) TPGS_EXPLICIT_ALUA))
    then false else true
  end.

Definition tcm_opcode_read6 : target_opcode_descriptor :=
  {| descr_fields :=
       {| support := SCSI_SUPPORT_FULL; serv_action_valid := 0; opcode := READ_6;
          service_action := 0; cdb_size := 6;
          specific_timeout := 0; nominal_timeout := 0; recommended_timeout := 0;
          usage_bits :=
            [READ_6; 0x1f; 0xff; 0xff; 0xff; SCSI_CONTROL_MASK] |};
     enabled := None;
     update_usage_bits := None |}.

Definition tcm_opcode_read10 : target_opcode_descriptor :=
  {| descr_fields :=
       {| support := SCSI_SUPPORT_FULL; serv_action_valid := 0; opcode := READ_10;
          service_action := 0; cdb_size := 10;
          specific_timeout := 0; nominal_timeout := 0; recommended_timeout := 0;
          usage_bits :=
            [READ_10; 0xf8; 0xff; 0xff; 0xff; 0xff;
             SCSI_GROUP_NUMBER_MASK; 0xff; 0xff; SCSI_CONTROL_MASK] |};
     enabled := None;
     update_usage_bits := Some set_dpofua_usage_bits |}.

Definition tcm_opcode_read12 : target_opcode_descriptor :=
  {| descr_fields :=
       {| support := SCSI_SUPPORT_FULL; serv_action_valid := 0; opcode := READ_12;
          service_action := 0; cdb_size := 12;
          specific_timeout := 0; nominal_timeout := 0; recommended_timeout := 0;
          usage_bits :=
            [READ_12; 0xf8; 0xff; 0xff; 0xff; 0xff;
             0xff; 0xff; 0xff; 0xff; SCSI_GROUP_NUMBER_MASK; SCSI_CONTROL_MASK] |};
     enabled := None;
     update_usage_bits := Some set_dpofua_usage_bits |}.

Definition tcm_opcode_read16 : target_opcode_descriptor :=
  {| descr_fields :=
       {| support := SCSI_SUPPORT_FULL; serv_action_valid := 0; opcode := READ_16;
          service_action := 0; cdb_size := 16;
          specific_timeout := 0; nominal_timeout := 0; recommended_timeout := 0;
          usage_bits :=
            [READ_16; 0xf8; 0xff; 0xff; 0xff; 0xff;
             0xff; 0xff; 0xff; 0xff; 0xff; 0xff;
             0xff; 0xff; SCSI_GROUP_NUMBER_MASK; SCSI_CONTROL_MASK] |};
     enabled := None;
     update_usage_bits := Some set_dpofua_usage_bits |}.

Definition tcm_opcode_write6 : target_opcode_descriptor :=
  {| descr_fields :=
       {| support := SCSI_SUPPORT_FULL; serv_action_valid := 0; opcode := WRITE_6;
          service_action := 0; cdb_size := 6;
          specific_timeout := 0; nominal_timeout := 0; recommended_timeout := 0;
          usage_bits :=
            [WRITE_6; 0x1f; 0xff; 0xff; 0xff; SCSI_CONTROL_MASK] |};
     enabled := None;
     update_usage_bits := None |}.

Definition tcm_opcode_write10 : target_opcode_descriptor :=
  {| descr_fields :=
       {| support := SCSI_SUPPORT_FULL; serv_action_valid := 0; opcode := WRITE_10;
          service_action := 0; cdb_size := 10;
          specific_timeout := 0; nominal_timeout := 0; recommended_timeout := 0;
          usage_bits :=
            [WRITE_10; 0xf8; 0xff; 0xff; 0xff; 0xff;
             SCSI_GROUP_NUMBER_MASK; 0xff; 0xff; SCSI_CONTROL_MASK] |};
     enabled := None;
     update_usage_bits := Some set_dpofua_usage_bits |}.

Definition tcm_opcode_write_verify10 : target_opcode_descriptor :=
  {| descr_fields :=
       {| support := SCSI_SUPPORT_FULL; serv_action_valid := 0; opcode := WRITE_VERIFY;
          service_action := 0; cdb_size := 10;
          specific_timeout := 0; nominal_timeout := 0; recommended_timeout := 0;
          usage_bits :=
            [WRITE_VERIFY; 0xf0; 0xff; 0xff; 0xff; 0xff;
             SCSI_GROUP_NUMBER_MASK; 0xff; 0xff; SCSI_CONTROL_MASK] |};
     enabled := None;
     update_usage_bits := Some set_dpofua_usage_bits |}.

Definition tcm_opcode_write12 : target_opcode_descriptor :=
  {| descr_fields :=
       {| support := SCSI_SUPPORT_FULL; serv_action_valid := 0; opcode := WRITE_12;
          service_action := 0; cdb_size := 12;
          specific_timeout := 0; nominal_timeout := 0; recommended_timeout := 0;
          usage_bits :=
            [WRITE_12; 0xf8; 0xff; 0xff; 0xff; 0xff;
             0xff; 0xff; 0xff; 0xff; SCSI_GROUP_NUMBER_MASK; SCSI_CONTROL_MASK] |};
     enabled := None;
     update_usage_bits := Some set_dpofua_usage_bits |}.

Definition tcm_opcode_write16 : target_opcode_descriptor :=
  {| descr_fields :=
       {| support := SCSI_SUPPORT_FULL; serv_action_valid := 0; opcode := WRITE_16;
          service_action := 0; cdb_size := 16;
          specific_timeout := 0; nominal_timeout := 0; recommended_timeout := 0;
          usage_bits :=
            [WRITE_16; 0xf8; 0xff; 0xff; 0xff; 0xff;
             0xff; 0xff; 0xff; 0xff; 0xff; 0xff;
             0xff; 0xff; SCSI_GROUP_NUMBER_MASK; SCSI_CONTROL_MASK] |};
     enabled := None;
     update_usage_bits := Some set_dpofua_usage_bits |}.

Definition tcm_opcode_write_verify16 : target_opcode_descriptor :=
  {| descr_fields :=
       {| support := SCSI_SUPPORT_FULL; serv_action_valid := 0; opcode := WRITE_VERIFY_16;
          service_action := 0; cdb_size := 16;
          specific_timeout := 0; nominal_timeout := 0; recommended_timeout := 0;
          usage_bits :=
            [WRITE_VERIFY_16; 0xf0; 0xff; 0xff; 0xff; 0xff;
             0xff; 0xff; 0xff; 0xff; 0xff; 0xff;
             0xff; 0xff; SCSI_GROUP_NUMBER_MASK; SCSI_CONTROL_MASK] |};
     enabled := None;
     update_usage_bits := Some set_dpofua_usage_bits |}.

Definition tcm_opcode_write_same32 : target_opcode_descriptor :=
  {| descr_fields :=
       {| support := SCSI_SUPPORT_FULL; serv_action_valid := 1; opcode := VARIABLE_LENGTH_CMD;
          service_action := WRITE_SAME_32; cdb_size := 32;
          specific_timeout := 0; nominal_timeout := 0; recommended_timeout := 0;
          usage_bits :=
            [VARIABLE_LENGTH_CMD; SCSI_CONTROL_MASK; 0x00; 0x00; 0x00; 0x00;
             SCSI_GROUP_NUMBER_MASK; 0x18; 0x00; WRITE_SAME_32; 0xe8; 0x00;
             0xff; 0xff; 0xff; 0xff; 0xff; 0xff;
             0xff; 0xff; 0x00; 0x00; 0x00; 0x00;
             0x00; 0x00; 0x00; 0x00; 0xff; 0xff;
             0xff; 0xff] |};
     enabled := Some tcm_is_ws_enabled;
     update_usage_bits := Some set_dpofua_usage_bits32 |}.

Definition tcm_opcode_compare_write : target_opcode_descriptor :=
  {| descr_fields :=
       {| support := SCSI_SUPPORT_FULL; serv_action_valid := 0; opcode := COMPARE_AND_WRITE;
          service_action := 0; cdb_size := 16;
          specific_timeout := 0; nominal_timeout := 0; recommended_timeout := 0;
          usage_bits :=
            [COMPARE_AND_WRITE; 0x18; 0xff; 0xff; 0xff; 0xff;
             0xff; 0xff; 0xff; 0xff; 0x00; 0x00;
             0x00; 0xff; SCSI_GROUP_NUMBER_MASK; SCSI_CONTROL_MASK] |};
     enabled := Some tcm_is_caw_enabled;
     update_usage_bits := Some set_dpofua_usage_bits |}.

Definition tcm_opcode_read_capacity : target_opcode_descriptor :=
  {| descr_fields :=
       {| support := SCSI_SUPPORT_FULL; serv_action_valid := 0; opcode := READ_CAPACITY;
          service_action := 0; cdb_size := 10;
          specific_timeout := 0; nominal_timeout := 0; recommended_timeout := 0;
          usage_bits :=
            [READ_CAPACITY; 0x00; 0xff; 0xff; 0xff; 0xff;
             0x00; 0x00; 0x01; SCSI_CONTROL_MASK] |};
     enabled := None;
     update_usage_bits := None |}.

Definition tcm_opcode_read_capacity16 : target_opcode_descriptor :=
  {| descr_fields :=
       {| support := SCSI_SUPPORT_FULL; serv_action_valid := 1; opcode := SERVICE_ACTION_IN_16;
          service_action := SAI_READ_CAPACITY_16; cdb_size := 16;
          specific_timeout := 0; nominal_timeout := 0; recommended_timeout := 0;
          usage_bits :=
            [SERVICE_ACTION_IN_16; SAI_READ_CAPACITY_16; 0x00; 0x00; 0x00; 0x00;
             0x00; 0x00; 0x00; 0x00; 0xff; 0xff;
             0xff; 0xff; 0x00; SCSI_CONTROL_MASK] |};
     enabled := None;
     update_usage_bits := None |}.

Definition tcm_opcode_read_report_refferals : target_opcode_descriptor :=
  {| descr_fields :=
       {| support := SCSI_SUPPORT_FULL; serv_action_valid := 1; opcode := SERVICE_ACTION_IN_16;
          service_action := SAI_REPORT_REFERRALS; cdb_size := 16;
          specific_timeout := 0; nominal_timeout := 0; recommended_timeout := 0;
          usage_bits :=
            [SERVICE_ACTION_IN_16; SAI_REPORT_REFERRALS; 0x00; 0x00; 0x00; 0x00;
             0x00; 0x00; 0x00; 0x00; 0xff; 0xff;
             0xff; 0xff; 0x00; SCSI_CONTROL_MASK] |};
     enabled := Some tcm_is_rep_ref_enabled;
     update_usage_bits := None |}.

Definition tcm_opcode_sync_cache : target_opcode_descriptor :=
  {| descr_fields :=
       {| support := SCSI_SUPPORT_FULL; serv_action_valid := 0; opcode := SYNCHRONIZE_CACHE;
          service_action := 0; cdb_size := 10;
          specific_timeout := 0; nominal_timeout := 0; recommended_timeout := 0;
          usage_bits :=
            [SYNCHRONIZE_CACHE; 0x02; 0xff; 0xff; 0xff; 0xff;
             SCSI_GROUP_NUMBER_MASK; 0xff; 0xff; SCSI_CONTROL_MASK] |};
     enabled := None;
     update_usage_bits := None |}.

Definition tcm_opcode_sync_cache16 : target_opcode_descriptor :=
  {| descr_fields :=
       {| support := SCSI_SUPPORT_FULL; serv_action_valid := 0; opcode := SYNCHRONIZE_CACHE_16;
          service_action := 0; cdb_size := 16;
          specific_timeout := 0; nominal_timeout := 0; recommended_timeout := 0;
          usage_bits :=
            [SYNCHRONIZE_CACHE_16; 0x02; 0xff; 0xff; 0xff; 0xff;
             0xff; 0xff; 0xff; 0xff; 0xff; 0xff;
             0xff; 0xff; SCSI_GROUP_NUMBER_MASK; SCSI_CONTROL_MASK] |};
     enabled := None;
     update_usage_bits := None |}.

Definition tcm_opcode_unmap : target_opcode_descriptor :=
  {| descr_fields :=
       {| support := SCSI_SUPPORT_FULL; serv_action_valid := 0; opcode := UNMAP;
          service_action := 0; cdb_size := 10;
          specific_timeout := 0; nominal_timeout := 0; recommended_timeout := 0;
          usage_bits :=
            [UNMAP; 0x00; 0x00; 0x00; 0x00; 0x00;
             SCSI_GROUP_NUMBER_MASK; 0xff; 0xff; SCSI_CONTROL_MASK] |};
     enabled := Some tcm_is_unmap_enabled;
     update_usage_bits := None |}.

Definition tcm_opcode_write_same : target_opcode_descriptor :=
  {| descr_fields :=
       {| support := SCSI_SUPPORT_FULL; serv_action_valid := 0; opcode := WRITE_SAME;
          service_action := 0; cdb_size := 10;
          specific_timeout := 0; nominal_timeout := 0; recommended_timeout := 0;
          usage_bits :=
            [WRITE_SAME; 0xe8; 0xff; 0xff; 0xff; 0xff;
             SCSI_GROUP_NUMBER_MASK; 0xff; 0xff; SCSI_CONTROL_MASK] |};
     enabled := Some tcm_is_ws_enabled;
     update_usage_bits := None |}.

Definition tcm_opcode_write_same16 : target_opcode_descriptor :=
  {| descr_fields :=
       {| support := SCSI_SUPPORT_FULL; serv_action_valid := 0; opcode := WRITE_SAME_16;
          service_action := 0; cdb_size := 16;
          specific_timeout := 0; nominal_timeout := 0; recommended_timeout := 0;
          usage_bits :=
            [WRITE_SAME_16; 0xe8; 0xff; 0xff; 0xff; 0xff;
             0xff; 0xff; 0xff; 0xff; 0xff; 0xff;
             0xff; 0xff; SCSI_GROUP_NUMBER_MASK; SCSI_CONTROL_MASK] |};
     enabled := Some tcm_is_ws_enabled;
     update_usage_bits := None |}.

Definition tcm_opcode_verify : target_opcode_descriptor :=
  {| descr_fields :=
       {| support := SCSI_SUPPORT_FULL; serv_action_valid := 0; opcode := VERIFY;
          service_action := 0; cdb_size := 10;
          specific_timeout := 0; nominal_timeout := 0; recommended_timeout := 0;
          usage_bits :=
            [VERIFY; 0x00; 0xff; 0xff; 0xff; 0xff;
             SCSI_GROUP_NUMBER_MASK; 0xff; 0xff; SCSI_CONTROL_MASK] |};
     enabled := None;
     update_usage_bits := None |}.

Definition tcm_opcode_verify16 : target_opcode_descriptor :=
  {| descr_fields :=
       {| support := SCSI_SUPPORT_FULL; serv_action_valid := 0; opcode := VERIFY_16;
          service_action := 0; cdb_size := 16;
          specific_timeout := 0; nominal_timeout := 0; recommended_timeout := 0;
          usage_bits :=
            [VERIFY_16; 0x00; 0xff; 0xff; 0xff; 0xff;
             0xff; 0xff; 0xff; 0xff; 0xff; 0xff;
             0xff; 0xff; SCSI_GROUP_NUMBER_MASK; SCSI_CONTROL_MASK] |};
     enabled := None;
     update_usage_bits := None |}.

Definition tcm_opcode_start_stop : target_opcode_descriptor :=
  {| descr_fields :=
       {| support := SCSI_SUPPORT_FULL; serv_action_valid := 0; opcode := START_STOP;
          service_action := 0; cdb_size := 6;
          specific_timeout := 0; nominal_timeout := 0; recommended_timeout := 0;
          usage_bits :=
            [START_STOP; 0x01; 0x00; 0x00; 0x01; SCSI_CONTROL_MASK] |};
     enabled := None;
     update_usage_bits := None |}.

Definition tcm_opcode_mode_select : target_opcode_descriptor :=
  {| descr_fields :=
       {| support := SCSI_SUPPORT_FULL; serv_action_valid := 0; opcode := MODE_SELECT;
          service_action := 0; cdb_size := 6;
          specific_timeout := 0; nominal_timeout := 0; recommended_timeout := 0;
          usage_bits :=
            [MODE_SELECT; 0x10; 0x00; 0x00; 0xff; SCSI_CONTROL_MASK] |};
     enabled := None;
     update_usage_bits := None |}.

Definition tcm_opcode_mode_select10 : target_opcode_descriptor :=
  {| descr_fields :=
       {| support := SCSI_SUPPORT_FULL; serv_action_valid := 0; opcode := MODE_SELECT_10;
          service_action := 0; cdb_size := 10;
          specific_timeout := 0; nominal_timeout := 0; recommended_timeout := 0;
          usage_bits :=
            [MODE_SELECT_10; 0x10; 0x00; 0x00; 0x00; 0x00;
             0x00; 0xff; 0xff; SCSI_CONTROL_MASK] |};
     enabled := None;
     update_usage_bits := None |}.

Definition tcm_opcode_mode_sense : target_opcode_descriptor :=
  {| descr_fields :=
       {| support := SCSI_SUPPORT_FULL; serv_action_valid := 0; opcode := MODE_SENSE;
          service_action := 0; cdb_size := 6;
          specific_timeout := 0; nominal_timeout := 0; recommended_timeout := 0;
          usage_bits :=
            [MODE_SENSE; 0x08; 0xff; 0xff; 0xff; SCSI_CONTROL_MASK] |};
     enabled := None;
     update_usage_bits := None |}.

Definition tcm_opcode_mode_sense10 : target_opcode_descriptor :=
  {| descr_fields :=
       {| support := SCSI_SUPPORT_FULL; serv_action_valid := 0; opcode := MODE_SENSE_10;
          service_action := 0; cdb_size := 10;
          specific_timeout := 0; nominal_timeout := 0; recommended_timeout := 0;
          usage_bits :=
            [MODE_SENSE_10; 0x18; 0xff; 0xff; 0x00; 0x00;
             0x00; 0xff; 0xff; SCSI_CONTROL_MASK] |};
     enabled := None;
     update_usage_bits := None |}.

Definition tcm_opcode_pri_read_keys : target_opcode_descriptor :=
  {| descr_fields :=
       {| support := SCSI_SUPPORT_FULL; serv_action_valid := 1; opcode := PERSISTENT_RESERVE_IN;
          service_action := PRI_READ_KEYS; cdb_size := 10;
          specific_timeout := 0; nominal_timeout := 0; recommended_timeout := 0;
          usage_bits :=
            [PERSISTENT_RESERVE_IN; PRI_READ_KEYS; 0x00; 0x00; 0x00; 0x00;
             0x00; 0xff; 0xff; SCSI_CONTROL_MASK] |};
     enabled := None;
     update_usage_bits := None |}.

Definition tcm_opcode_pri_read_resrv : target_opcode_descriptor :=
  {| descr_fields :=
       {| support := SCSI_SUPPORT_FULL; serv_action_valid := 1; opcode := PERSISTENT_RESERVE_IN;
          service_action := PRI_READ_RESERVATION; cdb_size := 10;
          specific_timeout := 0; nominal_timeout := 0; recommended_timeout := 0;
          usage_bits :=
            [PERSISTENT_RESERVE_IN; PRI_READ_RESERVATION; 0x00; 0x00; 0x00; 0x00;
             0x00; 0xff; 0xff; SCSI_CONTROL_MASK] |};
     enabled := None;
     update_usage_bits := None |}.

Definition tcm_opcode_pri_read_caps : target_opcode_descriptor :=
  {| descr_fields :=
       {| support := SCSI_SUPPORT_FULL; serv_action_valid := 1; opcode := PERSISTENT_RESERVE_IN;
          service_action := PRI_REPORT_CAPABILITIES; cdb_size := 10;
          specific_timeout := 0; nominal_timeout := 0; recommended_timeout := 0;
          usage_bits :=
            [PERSISTENT_RESERVE_IN; PRI_REPORT_CAPABILITIES; 0x00; 0x00; 0x00; 0x00;
             0x00; 0xff; 0xff; SCSI_CONTROL_MASK] |};
     enabled := Some tcm_is_pr_enabled;
     update_usage_bits := None |}.

Definition tcm_opcode_pri_read_full_status : target_opcode_descriptor :=
  {| descr_fields :=
       {| support := SCSI_SUPPORT_FULL; serv_action_valid := 1; opcode := PERSISTENT_RESERVE_IN;
          service_action := PRI_READ_FULL_STATUS; cdb_size := 10;
          specific_timeout := 0; nominal_timeout := 0; recommended_timeout := 0;
          usage_bits :=
            [PERSISTENT_RESERVE_IN; PRI_READ_FULL_STATUS; 0x00; 0x00; 0x00; 0x00;
             0x00; 0xff; 0xff; SCSI_CONTROL_MASK] |};
     enabled := Some tcm_is_pr_enabled;
     update_usage_bits := None |}.

Definition tcm_opcode_pro_register : target_opcode_descriptor :=
  {| descr_fields :=
       {| support := SCSI_SUPPORT_FULL; serv_action_valid := 1; opcode := PERSISTENT_RESERVE_OUT;
          service_action := PRO_REGISTER; cdb_size := 10;
          specific_timeout := 0; nominal_timeout := 0; recommended_timeout := 0;
          usage_bits :=
            [PERSISTENT_RESERVE_OUT; PRO_REGISTER; 0xff; 0x00; 0x00; 0xff;
             0xff; 0xff; 0xff; SCSI_CONTROL_MASK] |};
     enabled := Some tcm_is_pr_enabled;
     update_usage_bits := None |}.

Definition tcm_opcode_pro_reserve : target_opcode_descriptor :=
  {| descr_fields :=
       {| support := SCSI_SUPPORT_FULL; serv_action_valid := 1; opcode := PERSISTENT_RESERVE_OUT;
          service_action := PRO_RESERVE; cdb_size := 10;
          specific_timeout := 0; nominal_timeout := 0; recommended_timeout := 0;
          usage_bits :=
            [PERSISTENT_RESERVE_OUT; PRO_RESERVE; 0xff; 0x00; 0x00; 0xff;
             0xff; 0xff; 0xff; SCSI_CONTROL_MASK] |};
     enabled := Some tcm_is_pr_enabled;
     update_usage_bits := None |}.

Definition tcm_opcode_pro_release : target_opcode_descriptor :=
  {| descr_fields :=
       {| support := SCSI_SUPPORT_FULL; serv_action_valid := 1; opcode := PERSISTENT_RESERVE_OUT;
          service_action := PRO_RELEASE; cdb_size := 10;
          specific_timeout := 0; nominal_timeout := 0; recommended_timeout := 0;
          usage_bits :=
            [PERSISTENT_RESERVE_OUT; PRO_RELEASE; 0xff; 0x00; 0x00; 0xff;
             0xff; 0xff; 0xff; SCSI_CONTROL_MASK] |};
     enabled := Some tcm_is_pr_enabled;
     update_usage_bits := None |}.

Definition tcm_opcode_pro_clear : target_opcode_descriptor :=
  {| descr_fields :=
       {| support := SCSI_SUPPORT_FULL; serv_action_valid := 1; opcode := PERSISTENT_RESERVE_OUT;
          service_action := PRO_CLEAR; cdb_size := 10;
          specific_timeout := 0; nominal_timeout := 0; recommended_timeout := 0;
          usage_bits :=
            [PERSISTENT_RESERVE_OUT; PRO_CLEAR; 0xff; 0x00; 0x00; 0xff;
             0xff; 0xff; 0xff; SCSI_CONTROL_MASK] |};
     enabled := Some tcm_is_pr_enabled;
     update_usage_bits := None |}.

Definition tcm_opcode_pro_preempt : target_opcode_descriptor :=
  {| descr_fields :=
       {| support := SCSI_SUPPORT_FULL; serv_action_valid := 1; opcode := PERSISTENT_RESERVE_OUT;
          service_action := PRO_PREEMPT; cdb_size := 10;
          specific_timeout := 0; nominal_timeout := 0; recommended_timeout := 0;
          usage_bits :=
            [PERSISTENT_RESERVE_OUT; PRO_PREEMPT; 0xff; 0x00; 0x00; 0xff;
             0xff; 0xff; 0xff; SCSI_CONTROL_MASK] |};
     enabled := Some tcm_is_pr_enabled;
     update_usage_bits := None |}.

Definition tcm_opcode_pro_preempt_abort : target_opcode_descriptor :=
  {| descr_fields :=
       {| support := SCSI_SUPPORT_FULL; serv_action_valid := 1; opcode := PERSISTENT_RESERVE_OUT;
          service_action := PRO_PREEMPT_AND_ABORT; cdb_size := 10;
          specific_timeout := 0; nominal_timeout := 0; recommended_timeout := 0;
          usage_bits :=
            [PERSISTENT_RESERVE_OUT; PRO_PREEMPT_AND_ABORT; 0xff; 0x00; 0x00; 0xff;
             0xff; 0xff; 0xff; SCSI_CONTROL_MASK] |};
     enabled := Some tcm_is_pr_enabled;
     update_usage_bits := None |}.

Definition tcm_opcode_pro_reg_ign_exist : target_opcode_descriptor :=
  {| descr_fields :=
       {| support := SCSI_SUPPORT_FULL; serv_action_valid := 1; opcode := PERSISTENT_RESERVE_OUT;
          service_action := PRO_REGISTER_AND_IGNORE_EXISTING_KEY; cdb_size := 10;
          specific_timeout := 0; nominal_timeout := 0; recommended_timeout := 0;
          usage_bits :=
            [PERSISTENT_RESERVE_OUT; PRO_REGISTER_AND_IGNORE_EXISTING_KEY; 0xff; 0x00; 0x00; 0xff;
             0xff; 0xff; 0xff; SCSI_CONTROL_MASK] |};
     enabled := Some tcm_is_pr_enabled;
     update_usage_bits := None |}.

Definition tcm_opcode_pro_register_move : target_opcode_descriptor :=
  {| descr_fields :=
       {| support := SCSI_SUPPORT_FULL; serv_action_valid := 1; opcode := PERSISTENT_RESERVE_OUT;
          service_action := PRO_REGISTER_AND_MOVE; cdb_size := 10;
          specific_timeout := 0; nominal_timeout := 0; recommended_timeout := 0;
          usage_bits :=
            [PERSISTENT_RESERVE_OUT; PRO_REGISTER_AND_MOVE; 0xff; 0x00; 0x00; 0xff;
             0xff; 0xff; 0xff; SCSI_CONTROL_MASK] |};
     enabled := Some tcm_is_pr_enabled;
     update_usage_bits := None |}.

Definition tcm_opcode_release : target_opcode_descriptor :=
  {| descr_fields :=
       {| support := SCSI_SUPPORT_FULL; serv_action_valid := 0; opcode := RELEASE;
          service_action := 0; cdb_size := 6;
          specific_timeout := 0; nominal_timeout := 0; recommended_timeout := 0;
          usage_bits :=
            [RELEASE; 0x00; 0x00; 0x00; 0x00; SCSI_CONTROL_MASK] |};
     enabled := Some tcm_is_pr_enabled;
     update_usage_bits := None |}.

Definition tcm_opcode_release10 : target_opcode_descriptor :=
  {| descr_fields :=
       {| support := SCSI_SUPPORT_FULL; serv_action_valid := 0; opcode := RELEASE_10;
          service_action := 0; cdb_size := 10;
          specific_timeout := 0; nominal_timeout := 0; recommended_timeout := 0;
          usage_bits :=
            [RELEASE_10; 0x00; 0x00; 0x00; 0x00; 0x00;
             0x00; 0xff; 0xff; SCSI_CONTROL_MASK] |};
     enabled := Some tcm_is_pr_enabled;
     update_usage_bits := None |}.

Definition tcm_opcode_reserve : target_opcode_descriptor :=
  {| descr_fields :=
       {| support := SCSI_SUPPORT_FULL; serv_action_valid := 0; opcode := RESERVE;
          service_action := 0; cdb_size := 6;
          specific_timeout := 0; nominal_timeout := 0; recommended_timeout := 0;
          usage_bits :=
            [RESERVE; 0x00; 0x00; 0x00; 0x00; SCSI_CONTROL_MASK] |};
     enabled := Some tcm_is_pr_enabled;
     update_usage_bits := None |}.

Definition tcm_opcode_reserve10 : target_opcode_descriptor :=
  {| descr_fields :=
       {| support := SCSI_SUPPORT_FULL; serv_action_valid := 0; opcode := RESERVE_10;
          service_action := 0; cdb_size := 10;
          specific_timeout := 0; nominal_timeout := 0; recommended_timeout := 0;
          usage_bits :=
            [RESERVE_10; 0x00; 0x00; 0x00; 0x00; 0x00;
             0x00; 0xff; 0xff; SCSI_CONTROL_MASK] |};
     enabled := Some tcm_is_pr_enabled;
     update_usage_bits := None |}.

Definition tcm_opcode_request_sense : target_opcode_descriptor :=
  {| descr_fields :=
       {| support := SCSI_SUPPORT_FULL; serv_action_valid := 0; opcode := REQUEST_SENSE;
          service_action := 0; cdb_size := 6;
          specific_timeout := 0; nominal_timeout := 0; recommended_timeout := 0;
          usage_bits :=
            [REQUEST_SENSE; 0x00; 0x00; 0x00; 0xff; SCSI_CONTROL_MASK] |};
     enabled := None;
     update_usage_bits := None |}.

Definition tcm_opcode_inquiry : target_opcode_descriptor :=
  {| descr_fields :=
       {| support := SCSI_SUPPORT_FULL; serv_action_valid := 0; opcode := INQUIRY;
          service_action := 0; cdb_size := 6;
          specific_timeout := 0; nominal_timeout := 0; recommended_timeout := 0;
          usage_bits :=
            [INQUIRY; 0x01; 0xff; 0xff; 0xff; SCSI_CONTROL_MASK] |};
     enabled := None;
     update_usage_bits := None |}.

Definition tcm_opcode_extended_copy_lid1 : target_opcode_descriptor :=
  {| descr_fields :=
       {| support := SCSI_SUPPORT_FULL; serv_action_valid := 1; opcode := EXTENDED_COPY;
          service_action := 0; cdb_size := 16;
          specific_timeout := 0; nominal_timeout := 0; recommended_timeout := 0;
          usage_bits :=
            [EXTENDED_COPY; 0x00; 0x00; 0x00; 0x00; 0x00;
             0x00; 0x00; 0x00; 0x00; 0xff; 0xff;
             0xff; 0xff; 0x00; SCSI_CONTROL_MASK] |};
     enabled := Some tcm_is_3pc_enabled;
     update_usage_bits := None |}.

Definition tcm_opcode_rcv_copy_res_op_params : target_opcode_descriptor :=
  {| descr_fields :=
       {| support := SCSI_SUPPORT_FULL; serv_action_valid := 1; opcode := RECEIVE_COPY_RESULTS;
          service_action := RCR_SA_OPERATING_PARAMETERS; cdb_size := 16;
          specific_timeout := 0; nominal_timeout := 0; recommended_timeout := 0;
          usage_bits :=
            [RECEIVE_COPY_RESULTS; RCR_SA_OPERATING_PARAMETERS; 0x00; 0x00; 0x00; 0x00;
             0x00; 0x00; 0x00; 0x00; 0xff; 0xff;
             0xff; 0xff; 0x00; SCSI_CONTROL_MASK] |};
     enabled := Some tcm_is_3pc_enabled;
     update_usage_bits := None |}.

Definition tcm_opcode_report_luns : target_opcode_descriptor :=
  {| descr_fields :=
       {| support := SCSI_SUPPORT_FULL; serv_action_valid := 0; opcode := REPORT_LUNS;
          service_action := 0; cdb_size := 12;
          specific_timeout := 0; nominal_timeout := 0; recommended_timeout := 0;
          usage_bits :=
            [REPORT_LUNS; 0x00; 0xff; 0x00; 0x00; 0x00;
             0xff; 0xff; 0xff; 0xff; 0x00; SCSI_CONTROL_MASK] |};
     enabled := None;
     update_usage_bits := None |}.

Definition tcm_opcode_test_unit_ready : target_opcode_descriptor :=
  {| descr_fields :=
       {| support := SCSI_SUPPORT_FULL; serv_action_valid := 0; opcode := TEST_UNIT_READY;
          service_action := 0; cdb_size := 6;
          specific_timeout := 0; nominal_timeout := 0; recommended_timeout := 0;
          usage_bits :=
            [TEST_UNIT_READY; 0x00; 0x00; 0x00; 0x00; SCSI_CONTROL_MASK] |};
     enabled := None;
     update_usage_bits := None |}.

Definition tcm_opcode_report_target_pgs : target_opcode_descriptor :=
  {| descr_fields :=
       {| support := SCSI_SUPPORT_FULL; serv_action_valid := 1; opcode := MAINTENANCE_IN;
          service_action := MI_REPORT_TARGET_PGS; cdb_size := 12;
          specific_timeout := 0; nominal_timeout := 0; recommended_timeout := 0;
          usage_bits :=
            [MAINTENANCE_IN; (Z.lor 0xE0 MI_REPORT_TARGET_PGS); 0x00; 0x00; 0x00; 0x00;
             0xff; 0xff; 0xff; 0xff; 0x00; SCSI_CONTROL_MASK] |};
     enabled := None;
     update_usage_bits := None |}.

Definition tcm_opcode_report_supp_opcodes : target_opcode_descriptor :=
  {| descr_fields :=
       {| support := SCSI_SUPPORT_FULL; serv_action_valid := 1; opcode := MAINTENANCE_IN;
          service_action := MI_REPORT_SUPPORTED_OPERATION_CODES; cdb_size := 12;
          specific_timeout := 0; nominal_timeout := 0; recommended_timeout := 0;
          usage_bits :=
            [MAINTENANCE_IN; MI_REPORT_SUPPORTED_OPERATION_CODES; 0x87; 0xff; 0xff; 0xff;
             0xff; 0xff; 0xff; 0xff; 0x00; SCSI_CONTROL_MASK] |};
     enabled := Some spc_rsoc_enabled;
     update_usage_bits := None |}.

Definition tcm_opcode_set_tpg : target_opcode_descriptor :=
  {| descr_fields :=
       {| support := SCSI_SUPPORT_FULL; serv_action_valid := 1; opcode := MAINTENANCE_OUT;
          service_action := MO_SET_TARGET_PGS; cdb_size := 12;
          specific_timeout := 0; nominal_timeout := 0; recommended_timeout := 0;
          usage_bits :=
            [MAINTENANCE_OUT; MO_SET_TARGET_PGS; 0x00; 0x00; 0x00; 0x00;
             0xff; 0xff; 0xff; 0xff; 0x00; SCSI_CONTROL_MASK] |};
     enabled := Some tcm_is_set_tpg_enabled;
     update_usage_bits := None |}.

Definition tcm_supported_opcodes : list target_opcode_descriptor :=
  [ tcm_opcode_read6;
    tcm_opcode_read10;
    tcm_opcode_read12;
    tcm_opcode_read16;
    tcm_opcode_write6;
    tcm_opcode_write10;
    tcm_opcode_write_verify10;
    tcm_opcode_write12;
    tcm_opcode_write16;
    tcm_opcode_write_verify16;
    tcm_opcode_write_same32;
    tcm_opcode_compare_write;
    tcm_opcode_read_capacity;
    tcm_opcode_read_capacity16;
    tcm_opcode_read_report_refferals;
    tcm_opcode_sync_cache;
    tcm_opcode_sync_cache16;
    tcm_opcode_unmap;
    tcm_opcode_write_same;
    tcm_opcode_write_same16;
    tcm_opcode_verify;
    tcm_opcode_verify16;
    tcm_opcode_start_stop;
    tcm_opcode_mode_select;
    tcm_opcode_mode_select10;
    tcm_opcode_mode_sense;
    tcm_opcode_mode_sense10;
    tcm_opcode_pri_read_keys;
    tcm_opcode_pri_read_resrv;
    tcm_opcode_pri_read_caps;
    tcm_opcode_pri_read_full_status;
    tcm_opcode_pro_register;
    tcm_opcode_pro_reserve;
    tcm_opcode_pro_release;
    tcm_opcode_pro_clear;
    tcm_opcode_pro_preempt;
    tcm_opcode_pro_preempt_abort;
    tcm_opcode_pro_reg_ign_exist;
    tcm_opcode_pro_register_move;
    tcm_opcode_release;
    tcm_opcode_release10;
    tcm_opcode_reserve;
    tcm_opcode_reserve10;
    tcm_opcode_request_sense;
    tcm_opcode_inquiry;
    tcm_opcode_extended_copy_lid1;
    tcm_opcode_rcv_copy_res_op_params;
    tcm_opcode_report_luns;
    tcm_opcode_test_unit_ready;
    tcm_opcode_report_target_pgs;
    tcm_opcode_report_supp_opcodes;
    tcm_opcode_set_tpg ].

Definition spc_rsoc_encode_command_timeouts_descriptor
    (ctdp : Z) (descr : target_opcode_descriptor) (buf : list Z) : list Z * Z :=
  if negb (truthy ctdp) then (buf, 0)
  else
    let buf := put_unaligned_be16 0xa buf 0 in
    let buf := wr buf 3 (specific_timeout descr) in
    let buf := put_unaligned_be32 (nominal_timeout descr) buf 4 in
    let buf := put_unaligned_be32 (recommended_timeout descr) buf 8 in
    (buf, 12).

Definition spc_rsoc_encode_command_descriptor
    (ctdp : Z) (descr : target_opcode_descriptor) (buf : list Z) : list Z * Z :=
  let buf := wr buf 0 (opcode descr) in
  let buf := put_unaligned_be16 (service_action descr) buf 2 in
  let buf := wr buf 5 (Z.lor (Z.shiftl ctdp 1) (serv_action_valid descr)) in
  let buf := put_unaligned_be16 (cdb_size descr) buf 6 in
  let '(buf, td_size) :=
    at_offset 8 (spc_rsoc_encode_command_timeouts_descriptor ctdp descr) buf in
  (buf, 8 + td_size).

Definition spc_rsoc_encode_one_command_descriptor
    (ctdp : Z) (descr : option target_opcode_descriptor) (dev : se_device)
    (buf : list Z) : list Z * Z :=
  match descr with
  | None =>
    (wr buf 1 (Z.lor (Z.shiftl ctdp 7) SCSI_SUPPORT_NOT_SUPPORTED), 2)
  | Some descr =>
    let buf := wr buf 1 (Z.lor (Z.shiftl ctdp 7) SCSI_SUPPORT_FULL) in
    let buf := put_unaligned_be16 (cdb_size descr) buf 2 in
    let buf := memcpy_to buf 4 (take (Z.to_nat (cdb_size descr)) (usage_bits descr)) in
    let buf := match update_usage_bits descr with
               | Some update => fst (at_offset 4 (fun p => (update p dev, tt)) buf)
               | None => buf
               end in
    let '(buf, td_size) :=
      at_offset (4 + cdb_size descr)
                (spc_rsoc_encode_command_timeouts_descriptor ctdp descr) buf in
    (buf, 4 + cdb_size descr + td_size)
  end.

(** [!descr->enabled || descr->enabled(descr, cmd)] *)
Definition descr_enabled (descr : target_opcode_descriptor) (cmd : se_cmd) : bool :=
  match enabled descr with
  | None => true
  | Some f => f descr cmd
  end.

(** The scan of [spc_rsoc_get_descr] over the descriptor table: the return
    value and [*opcode]. *)
Fixpoint spc_rsoc_get_descr_loop (table : list target_opcode_descriptor)
    (cmd : se_cmd) (opts requested_opcode requested_sa : Z)
  : sense_reason_t * option target_opcode_descriptor :=
  match table with
  | [] => (TCM_NO_SENSE, None)
  | descr :: rest =>
    let continue :=
      spc_rsoc_get_descr_loop rest cmd opts requested_opcode requested_sa in
    if negb (opcode descr =? requested_opcode) then continue
    else if opts =? 0x1 then
      if truthy (serv_action_valid descr) then (TCM_INVALID_CDB_FIELD, None)
      else if descr_enabled descr cmd then (TCM_NO_SENSE, Some descr)
      else continue
    else if opts =? 0x2 then
      if truthy (serv_action_valid descr)
         && (service_action descr =? requested_sa) then
        if descr_enabled descr cmd then (TCM_NO_SENSE, Some descr)
        else continue
      else if negb (truthy (serv_action_valid descr))
      then (TCM_INVALID_CDB_FIELD, None)
      else continue
    else if opts =? 0x3 then
      if service_action descr =? requested_sa then
        if descr_enabled descr cmd then (TCM_NO_SENSE, Some descr)
        else continue
      else continue
    else continue
  end.

(** The fields the emulator takes from the CDB: [opts = cdb[2] & 0x3],
    [rctd = (cdb[2] >> 7) & 0x1], [requested_opcode = cdb[3]] and
    [requested_sa = ((u16)cdb[4]) << 8 | cdb[5]]. *)
Definition rsoc_opts (cdb : list Z) : Z := Z.land (rd cdb 2) 0x3.
Definition rsoc_rctd (cdb : list Z) : Z := Z.land (Z.shiftr (rd cdb 2) 7) 0x1.
Definition rsoc_requested_opcode (cdb : list Z) : Z := rd cdb 3.
Definition rsoc_requested_sa (cdb : list Z) : Z :=
  u16 (Z.lor (Z.shiftl (u16 (rd cdb 4)) 8) (rd cdb 5)).

Definition spc_rsoc_get_descr (cmd : se_cmd)
  : sense_reason_t * option target_opcode_descriptor :=
  let cdb := t_task_cdb cmd in
  let opts := rsoc_opts cdb in
  let requested_opcode := rsoc_requested_opcode cdb in
  let requested_sa := rsoc_requested_sa cdb in
  if opts >? 3 then (TCM_INVALID_CDB_FIELD, None)
  else spc_rsoc_get_descr_loop tcm_supported_opcodes cmd opts
                               requested_opcode requested_sa.

(** The all-commands loop of [spc_emulate_report_supp_op_codes]. *)
Fixpoint rsoc_all_commands (table : list target_opcode_descriptor) (cmd : se_cmd)
    (rctd : Z) (buf : list Z) (response_length : Z) : list Z * Z :=
  match table with
  | [] => (buf, response_length)
  | descr :: rest =>
    if negb (descr_enabled descr cmd) then
      rsoc_all_commands rest cmd rctd buf response_length
    else
      let '(buf, n) :=
        at_offset response_length
                  (spc_rsoc_encode_command_descriptor rctd descr) buf in
      rsoc_all_commands rest cmd rctd buf (response_length + n)
  end.

(** The response buffer is taken to be allocated ([kzalloc] succeeding). *)
Definition spc_emulate_report_supp_op_codes (cmd : se_cmd) : outcome :=
  let descr_num := Z.of_nat (length tcm_supported_opcodes) in
  let cdb := t_task_cdb cmd in
  let rctd := rsoc_rctd cdb in
  let opts := rsoc_opts cdb in
  if negb (truthy (emulate_rsoc (dev_attrib (se_cmd_dev cmd)))) then
    {| ret := TCM_UNSUPPORTED_SCSI_OPCODE; data_out := t_data cmd;
       completed := None |}
  else
    let rbuf := t_data cmd in
    if truthy (data_length cmd) && negb (bool_decide (is_Some rbuf)) then
      {| ret := TCM_LOGICAL_UNIT_COMMUNICATION_FAILURE; data_out := rbuf;
         completed := None |}
    else
      let sized :=
        if opts =? 0 then inr (4 + (8 + rctd * 12) * descr_num, None)
        else
          match spc_rsoc_get_descr cmd with
          | (TCM_NO_SENSE, Some descr) =>
            inr (4 + cdb_size descr + rctd * 12, Some descr)
          | (TCM_NO_SENSE, None) => inr (2, None)
          | (err, _) => inl err
          end in
      match sized with
      | inl err => {| ret := err; data_out := rbuf; completed := None |}
      | inr (response_length, descr) =>
        let buf := zeroed response_length in
        let '(buf, response_length) :=
          if opts =? 0 then
            let '(buf, response_length) :=
              rsoc_all_commands tcm_supported_opcodes cmd rctd buf 4 in
            (put_unaligned_be32 (response_length - 4) buf 0, response_length)
          else
            spc_rsoc_encode_one_command_descriptor rctd descr (se_cmd_dev cmd) buf in
        {| ret := TCM_NO_SENSE;
           data_out := copy_out cmd buf (min_u32 response_length (data_length cmd));
           completed := Some (CompleteWithLength SAM_STAT_GOOD response_length) |}
      end.

(* ===================================================================== *)
(** * Vocabulary of the properties *)
(* ===================================================================== *)

(** The parts of the dispatcher's result. *)
Definition parse_ret (r : sense_reason_t * se_cmd * option Z) : sense_reason_t :=
  fst (fst r).

Definition parse_cmd (r : sense_reason_t * se_cmd * option Z) : se_cmd :=
  snd (fst r).

Definition parse_size (r : sense_reason_t * se_cmd * option Z) : option Z := snd r.

(** The field of [n] bytes at offset [off]. *)
Definition bytes_at (b : list Z) (off n : Z) : list Z :=
  take (Z.to_nat n) (drop (Z.to_nat off) b).

(** A string cut to [width] bytes, or filled up to it with ASCII spaces. *)
Definition space_padded (width : Z) (s : list Z) : list Z :=
  take (Z.to_nat width) (s ++ replicate (Z.to_nat width) 0x20).

(** The model and serial strings fit their arrays in [struct t10_wwn]:
    [model[INQUIRY_MODEL_LEN + 1]] and [unit_serial[INQUIRY_VPD_SERIAL_LEN]]. *)
Definition t10_wwn_fits (wwn : t10_wwn_t) : Prop :=
  strlen (model wwn) <= INQUIRY_MODEL_LEN
  ∧ strlen (unit_serial wwn) < INQUIRY_VPD_SERIAL_LEN.

(** The bookkeeping invariant of the device identification generator: the
    running offset is the accumulated length plus the 4-byte header, the
    length stays below [bound], the buffer keeps its [size]. *)
Definition evpd_83_inv (size : nat) (bound : Z) (l : evpd_83_locals) : Prop :=
  e_off l = e_len l + 4 ∧ 0 <= e_len l <= bound ∧ length (e_buf l) = size.

(** The data buffer of a command spans [data_length] bytes when it is
    mapped; a command without data has no mapping. *)
Definition data_buffer_ok (cmd : se_cmd) : Prop :=
  match t_data cmd with
  | Some b => Z.of_nat (length b) = data_length cmd
  | None => data_length cmd = 0
  end.

(** The LUNs a command's nexus can see, in list order. *)
Definition visible_luns (cmd : se_cmd) : list Z :=
  match se_sess cmd with
  | Some sess => mapped_lun <$> lun_entry_hlist (sess_node_acl sess)
  | None => []
  end.

(** The LUNs REPORT LUNS reports for a set of visible ones. *)
Definition reported_luns (luns : list Z) : list Z :=
  match luns with
  | [] => [0]
  | _ => luns
  end.

(** The MODE SELECT operation code of the same CDB size as a MODE SENSE
    one. *)
Definition mode_select_of (sense_opcode : Z) : Z :=
  if sense_opcode =? MODE_SENSE_10 then MODE_SELECT_10 else MODE_SELECT.

(** The same nexus and device sending another CDB with [data] as its
    parameter list. *)
Definition resubmit (cmd : se_cmd) (cdb data : list Z) : se_cmd :=
  {| t_task_cdb := cdb; data_length := Z.of_nat (length data);
     t_data := Some data; se_cmd_dev := se_cmd_dev cmd;
     se_cmd_lun := se_cmd_lun cmd; se_sess := se_sess cmd;
     se_tfo := se_tfo cmd; protocol_data := protocol_data cmd;
     target_lun_is_rdonly := target_lun_is_rdonly cmd;
     execute_cmd := execute_cmd cmd; sam_task_attr := sam_task_attr cmd |}.

(** The command descriptor of the all-commands format as it is encoded
    on zeroed bytes: 8 bytes, or 20 with a timeouts descriptor. *)
Definition rsoc_command_descriptor (rctd : Z) (descr : target_opcode_descriptor)
  : list Z :=
  fst (spc_rsoc_encode_command_descriptor rctd descr (zeroed (8 + rctd * 12))).

(** The one-command response for a command that is not supported, and the
    outcome of a request answered with it. *)
Definition rsoc_not_supported (rctd : Z) : list Z :=
  [0; Z.lor (Z.shiftl rctd 7) SCSI_SUPPORT_NOT_SUPPORTED].

Definition rsoc_not_supported_outcome (cmd : se_cmd) : outcome :=
  {| ret := TCM_NO_SENSE;
     data_out := copy_out cmd (rsoc_not_supported (rsoc_rctd (t_task_cdb cmd)))
                          (min_u32 2 (data_length cmd));
     completed := Some (CompleteWithLength SAM_STAT_GOOD 2) |}.

(** The descriptors the all-commands format lists, and its payload. *)
Definition rsoc_listed (cmd : se_cmd) (table : list target_opcode_descriptor)
  : list target_opcode_descriptor :=
  List.filter (λ descr, descr_enabled descr cmd) table.

Definition rsoc_all_payload (cmd : se_cmd) (rctd : Z)
    (table : list target_opcode_descriptor) : list Z :=
  concat (rsoc_command_descriptor rctd <$> rsoc_listed cmd table).

(* ===================================================================== *)
(** * Sample configurations *)
(* ===================================================================== *)

Module Sample.

Definition attrib : se_dev_attrib :=
  {| emulate_ua_intlck_ctrl := TARGET_UA_INTLCK_CTRL_CLEAR;
     emulate_tas := 1; emulate_tpu := 0; emulate_tpws := 0; emulate_caw := 1;
     emulate_3pc := 1; emulate_pr := 1; emulate_rsoc := 1;
     pi_prot_type := 0; is_nonrot := 0; emulate_rest_reord := 0;
     unmap_zeroes_data := 0; hw_block_size := 512; block_size := 512;
     hw_max_sectors := 1024; optimal_sectors := 1024;
     max_unmap_lba_count := 0; max_unmap_block_desc_count := 0;
     unmap_granularity := 0; unmap_granularity_alignment := 0;
     max_write_same_len := 0xffff |}.

Definition wwn : t10_wwn_t :=
  {| vendor := c_array "LIO-ORG";
     model := c_array "RAMDISK-MCP";
     revision := c_array "4.0";
     unit_serial := c_array "b0c3a4f1-7d22";
     company_id := 0x001405 |}.

Definition alua : t10_alua_t :=
  {| lba_map_list_empty := true; lba_map_segment_size := 0;
     lba_map_segment_multiplier := 0 |}.

(** A disk of 2^20 blocks; [flags] is [dev->dev_flags]. *)
Definition disk (flags : Z) : se_device :=
  {| dev_attrib := attrib; dev_flags := flags; transport_flags := 0;
     export_count := 1; t10_wwn := wwn; t10_alua := alua;
     dev_alua_lu_gp_mem := Some {| lu_gp := Some {| lu_gp_id := 0 |} |};
     transport := {| get_device_type := TYPE_DISK; get_blocks := 0x100000;
                     get_io_min := None; get_io_opt := None |};
     target_check_wce := false; target_check_fua := false;
     target_sense_desc_format := false |}.

Definition tpg : se_portal_group :=
  {| proto_id := SCSI_PROTOCOL_ISCSI; tpg_rtpi := 1; tpg_get_tag := 1;
     tpg_get_wwn := c_array "iqn.2003-01.org.linux-iscsi.host:sn.1" |}.

Definition lun : se_lun :=
  {| lun_tpg := tpg;
     lun_tg_pt_gp := Some {| tg_pt_gp_alua_access_type := 0x10; tg_pt_gp_id := 0 |};
     lun_access_ro := false |}.

(** A session that sees the LUNs listed in [luns]. *)
Definition session (luns : list Z) : se_session :=
  {| sup_prot_ops := 0; sess_prot_type := 0;
     sess_node_acl := {| lun_entry_hlist := (λ l, {| mapped_lun := l |}) <$> luns |} |}.

(** A command on [dev] with CDB [cdb] whose data buffer holds [data]. *)
Definition command (dev : se_device) (sess : option se_session)
    (cdb : list Z) (data : list Z) : se_cmd :=
  {| t_task_cdb := cdb; data_length := Z.of_nat (length data);
     t_data := Some data; se_cmd_dev := dev; se_cmd_lun := lun;
     se_sess := sess; se_tfo := {| max_data_sg_nents := 0 |};
     protocol_data := {| execute_unmap := true; execute_write_same := true |};
     target_lun_is_rdonly := false; execute_cmd := None; sam_task_attr := 0 |}.

Definition passthrough_pgr_disk : se_device :=
  {| dev_attrib := attrib; dev_flags := DF_EMULATED_VPD_UNIT_SERIAL;
     transport_flags := TRANSPORT_FLAG_PASSTHROUGH_PGR;
     export_count := 1; t10_wwn := wwn; t10_alua := alua;
     dev_alua_lu_gp_mem := None;
     transport := {| get_device_type := TYPE_DISK; get_blocks := 0x100000;
                     get_io_min := None; get_io_opt := None |};
     target_check_wce := false; target_check_fua := false;
     target_sense_desc_format := false |}.

Definition mode_sense_10_cmd : se_cmd :=
  command (disk 4) None [MODE_SENSE_10; 0; 0x0a; 0; 0; 0; 0; 0x01; 0x02; 0] [].

Definition pr_out_cmd : se_cmd :=
  command passthrough_pgr_disk None
          [PERSISTENT_RESERVE_OUT; PRO_REGISTER; 0; 0; 0; 0; 0; 0; 24; 0] [].

End Sample.

(** Commands on the sample disk. *)
Definition mode_select_no_pf_cmd : se_cmd :=
  Sample.command (Sample.disk 4) None [MODE_SELECT; 0; 0; 0; 0; 0] [].

Definition inquiry_std_cmd : se_cmd :=
  Sample.command (Sample.disk 4) (Some (Sample.session [0]))
                 [INQUIRY; 0; 0; 0; 96; 0] (replicate 96 0).

Definition inquiry_vpd_00_cmd : se_cmd :=
  Sample.command (Sample.disk 0) None [INQUIRY; 0x01; 0x00; 0; 255; 0]
                 (replicate 8 0xaa).

Definition inquiry_vpd_83_cmd : se_cmd :=
  Sample.command (Sample.disk 4) (Some (Sample.session [0]))
                 [INQUIRY; 0x01; 0x83; 0; 255; 0] (replicate 255 0).

(** Three visible LUNs and room for one entry and a half. *)
Definition report_luns_cmd : se_cmd :=
  Sample.command (Sample.disk 4) (Some (Sample.session [0; 1; 2]))
                 [REPORT_LUNS; 0; 0; 0; 0; 0; 0; 0; 0; 20; 0; 0] (replicate 20 0xaa).

Definition mode_sense_6_cmd (dbd page : Z) : se_cmd :=
  Sample.command (Sample.disk 4) (Some (Sample.session [0]))
                 [MODE_SENSE; dbd; page; 0; 255; 0] (replicate 255 0).

Definition mode_select_6_cdb (pf len : Z) : list Z :=
  [MODE_SELECT; pf; 0; 0; len; 0].

(** An UNMAP-less configuration: [emulate_tpu] is off on the sample disk,
    so the predicate of the UNMAP descriptor is false. *)
Definition rsoc_cmd (options requested_opcode sa_hi sa_lo : Z) : se_cmd :=
  Sample.command (Sample.disk 4) (Some (Sample.session [0]))
    [MAINTENANCE_IN; MI_REPORT_SUPPORTED_OPERATION_CODES; options;
     requested_opcode; sa_hi; sa_lo; 0; 0; 0; 64; 0; 0]
    (replicate 64 0xaa).

(* ===================================================================== *)
(** * Properties of the command dispatcher *)
(* ===================================================================== *)

Section Dispatcher.

Variable cmd : se_cmd.

Let cdb := t_task_cdb cmd.
Let op := rd (t_task_cdb cmd) 0.

Local Ltac start H := unfold op in H; unfold spc_parse_cdb; cbv zeta.

Local Ltac dispatch H := start H; rewrite H; reflexivity.

Lemma parse_mode_sense :
  op = MODE_SENSE ->
  spc_parse_cdb cmd =
    (TCM_NO_SENSE, set_execute_cmd fn_spc_emulate_modesense cmd, Some (rd cdb 4)).
Proof. intros H. dispatch H. Qed.

Lemma parse_mode_select :
  op = MODE_SELECT ->
  spc_parse_cdb cmd =
    (TCM_NO_SENSE, set_execute_cmd fn_spc_emulate_modeselect cmd, Some (rd cdb 4)).
Proof. intros H. dispatch H. Qed.

Lemma parse_mode_sense_10 :
  op = MODE_SENSE_10 ->
  spc_parse_cdb cmd =
    (TCM_NO_SENSE, set_execute_cmd fn_spc_emulate_modesense cmd,
     Some (get_unaligned_be16 cdb 7)).
Proof. intros H. dispatch H. Qed.

Lemma parse_mode_select_10 :
  op = MODE_SELECT_10 ->
  spc_parse_cdb cmd =
    (TCM_NO_SENSE, set_execute_cmd fn_spc_emulate_modeselect cmd,
     Some (get_unaligned_be16 cdb 7)).
Proof. intros H. dispatch H. Qed.

(** PERSISTENT RESERVE IN and OUT pass the gate exactly when
    persistent-reservation emulation is on, whatever the transport flags. *)
Lemma parse_pr_out :
  op = PERSISTENT_RESERVE_OUT ->
  spc_parse_cdb cmd =
    if truthy (emulate_pr (dev_attrib (se_cmd_dev cmd))) then
      (TCM_NO_SENSE, set_execute_cmd fn_target_scsi3_emulate_pr_out cmd,
       Some (get_unaligned_be32 cdb 5))
    else (TCM_UNSUPPORTED_SCSI_OPCODE, cmd, None).
Proof.
  intros H. start H. rewrite H.
  destruct (truthy _); reflexivity.
Qed.

Lemma parse_pr_in :
  op = PERSISTENT_RESERVE_IN ->
  spc_parse_cdb cmd =
    if truthy (emulate_pr (dev_attrib (se_cmd_dev cmd))) then
      (TCM_NO_SENSE, set_execute_cmd fn_target_scsi3_emulate_pr_in cmd,
       Some (get_unaligned_be16 cdb 7))
    else (TCM_UNSUPPORTED_SCSI_OPCODE, cmd, None).
Proof.
  intros H. start H. rewrite H.
  destruct (truthy _); reflexivity.
Qed.

(** RESERVE and RELEASE, in both forms, are refused when emulation is off
    or when reservations are delegated to the backend. *)
Lemma parse_reserve_release_gate :
  In op [RESERVE; RESERVE_10; RELEASE; RELEASE_10] ->
  truthy (emulate_pr (dev_attrib (se_cmd_dev cmd))) = false
  ∨ truthy (Z.land (transport_flags (se_cmd_dev cmd)) TRANSPORT_FLAG_PASSTHROUGH_PGR)
    = true ->
  spc_parse_cdb cmd = (TCM_UNSUPPORTED_SCSI_OPCODE, cmd, None).
Proof.
  intros Hop Hoff. start Hop.
  assert (is_one_of (rd (t_task_cdb cmd) 0) [RESERVE; RESERVE_10; RELEASE; RELEASE_10] = true) as ->.
  { destruct Hop as [<- | [<- | [<- | [<- | []]]]]; reflexivity. }
  destruct Hoff as [-> | ->]; [reflexivity |].
  destruct (truthy (emulate_pr _)); reflexivity.
Qed.

End Dispatcher.

(** C3: whenever the dispatcher accepts a CDB, the size it hands back is
    the length field at the documented offset: byte 4 for MODE SENSE(6) and
    MODE SELECT(6), the big-endian 16-bit value at bytes 7-8 for the
    ten-byte forms, the big-endian 32-bit value at bytes 5-8 for PERSISTENT
    RESERVE OUT. *)
Theorem spc_parse_cdb_expected_size (cmd : se_cmd) :
  parse_ret (spc_parse_cdb cmd) = TCM_NO_SENSE ->
  let cdb := t_task_cdb cmd in
  let size := parse_size (spc_parse_cdb cmd) in
  (rd cdb 0 = MODE_SENSE ∨ rd cdb 0 = MODE_SELECT -> size = Some (rd cdb 4))
  ∧ (rd cdb 0 = MODE_SENSE_10 ∨ rd cdb 0 = MODE_SELECT_10 ->
     size = Some (Z.lor (Z.shiftl (rd cdb 7) 8) (rd cdb 8)))
  ∧ (rd cdb 0 = PERSISTENT_RESERVE_OUT ->
     size = Some (Z.lor (Z.lor (Z.lor (Z.shiftl (rd cdb 5) 24)
                                      (Z.shiftl (rd cdb 6) 16))
                               (Z.shiftl (rd cdb 7) 8))
                        (rd cdb 8))).
Proof.
  intros Hok cdb size. subst size. repeat split.
  - intros [H | H]; [rewrite (parse_mode_sense _ H) | rewrite (parse_mode_select _ H)];
      reflexivity.
  - intros [H | H];
      [rewrite (parse_mode_sense_10 _ H) | rewrite (parse_mode_select_10 _ H)];
      reflexivity.
  - intros H. rewrite (parse_pr_out _ H) in *.
    destruct (truthy _); [reflexivity | discriminate Hok].
Qed.

Lemma spc_parse_cdb_expected_size_witness :
  parse_size (spc_parse_cdb Sample.mode_sense_10_cmd) = Some 0x0102.
Proof.
  assert (parse_ret (spc_parse_cdb Sample.mode_sense_10_cmd) = TCM_NO_SENSE) as Hok
    by reflexivity.
  apply (proj1 (proj2 (spc_parse_cdb_expected_size Sample.mode_sense_10_cmd Hok))).
  left. reflexivity.
Defined.

(** C9: RESERVE, RESERVE(10), RELEASE, RELEASE(10), PERSISTENT RESERVE IN
    and PERSISTENT RESERVE OUT are refused as unsupported when
    persistent-reservation emulation is off; with emulation on and the
    passthrough-PGR flag set only the four RESERVE/RELEASE forms are
    refused, PERSISTENT RESERVE IN and OUT reach their handlers. *)
Theorem spc_parse_cdb_reservation_gate (cmd : se_cmd) :
  let cdb := t_task_cdb cmd in
  let dev := se_cmd_dev cmd in
  (truthy (emulate_pr (dev_attrib dev)) = false ->
   In (rd cdb 0) [RESERVE; RESERVE_10; RELEASE; RELEASE_10;
               PERSISTENT_RESERVE_IN; PERSISTENT_RESERVE_OUT] ->
   spc_parse_cdb cmd = (TCM_UNSUPPORTED_SCSI_OPCODE, cmd, None))
  ∧ (truthy (emulate_pr (dev_attrib dev)) = true ->
     truthy (Z.land (transport_flags dev) TRANSPORT_FLAG_PASSTHROUGH_PGR) = true ->
     (In (rd cdb 0) [RESERVE; RESERVE_10; RELEASE; RELEASE_10] ->
      spc_parse_cdb cmd = (TCM_UNSUPPORTED_SCSI_OPCODE, cmd, None))
     ∧ (rd cdb 0 = PERSISTENT_RESERVE_IN ->
        spc_parse_cdb cmd =
          (TCM_NO_SENSE, set_execute_cmd fn_target_scsi3_emulate_pr_in cmd,
           Some (get_unaligned_be16 cdb 7)))
     ∧ (rd cdb 0 = PERSISTENT_RESERVE_OUT ->
        spc_parse_cdb cmd =
          (TCM_NO_SENSE, set_execute_cmd fn_target_scsi3_emulate_pr_out cmd,
           Some (get_unaligned_be32 cdb 5)))).
Proof.
  cbv zeta. split.
  - intros Hoff Hop.
    destruct Hop as [H | [H | [H | [H | [H | [H | []]]]]]].
    1-4: apply parse_reserve_release_gate; [rewrite <- H; simpl; tauto | tauto].
    + rewrite (parse_pr_in _ (eq_sym H)), Hoff. reflexivity.
    + rewrite (parse_pr_out _ (eq_sym H)), Hoff. reflexivity.
  - intros Hon Hpgr. repeat split.
    + intros Hop. apply parse_reserve_release_gate; tauto.
    + intros H. rewrite (parse_pr_in _ H), Hon. reflexivity.
    + intros H. rewrite (parse_pr_out _ H), Hon. reflexivity.
Qed.

Lemma spc_parse_cdb_reservation_gate_witness :
  spc_parse_cdb Sample.pr_out_cmd =
    (TCM_NO_SENSE, set_execute_cmd fn_target_scsi3_emulate_pr_out Sample.pr_out_cmd,
     Some 24).
Proof.
  apply (proj2 (spc_parse_cdb_reservation_gate Sample.pr_out_cmd));
    reflexivity.
Defined.

(* ===================================================================== *)
(** * Buffer lemmas *)
(* ===================================================================== *)

Section Buffers.

Implicit Types (b src : list Z) (i j : nat) (off n v p : Z).

Lemma length_wr b off v : length (wr b off v) = length b.
Proof. apply length_insert. Qed.

Lemma lookup_wr b off v i :
  wr b off v !! i =
    if decide (Z.to_nat off = i ∧ (Z.to_nat off < length b)%nat)
    then Some (u8 v) else b !! i.
Proof. apply list_lookup_insert. Qed.

Lemma lookup_wr_ne b off v i : Z.to_nat off ≠ i -> wr b off v !! i = b !! i.
Proof. intros. by apply list_lookup_insert_ne. Qed.

Lemma length_wr_or b off v : length (wr_or b off v) = length b.
Proof. apply length_wr. Qed.

Lemma lookup_wr_or_ne b off v i : Z.to_nat off ≠ i -> wr_or b off v !! i = b !! i.
Proof. apply lookup_wr_ne. Qed.

Lemma length_put_unaligned_be16 v b off :
  length (put_unaligned_be16 v b off) = length b.
Proof. unfold put_unaligned_be16. by rewrite !length_wr. Qed.

Lemma lookup_put_unaligned_be16_ne v b off i :
  Z.to_nat off ≠ i -> Z.to_nat (off + 1) ≠ i ->
  put_unaligned_be16 v b off !! i = b !! i.
Proof. intros. unfold put_unaligned_be16. by rewrite !lookup_wr_ne. Qed.

Lemma length_memcpy_to b off src : length (memcpy_to b off src) = length b.
Proof.
  unfold memcpy_to. rewrite length_take, !length_app, length_take, length_drop.
  lia.
Qed.

Lemma lookup_memcpy_to b off src i :
  memcpy_to b off src !! i =
    if decide (Z.to_nat off ≤ i < Z.to_nat off + length src ∧ i < length b)%nat
    then src !! (i - Z.to_nat off)%nat else b !! i.
Proof.
  unfold memcpy_to. set (o := Z.to_nat off).
  rewrite lookup_take. case_decide as Hi.
  - destruct (decide (i < o)%nat) as [Hlt | Hge].
    + rewrite lookup_app_l by (rewrite length_take; lia).
      rewrite lookup_take_lt by done. case_decide; [lia | done].
    + rewrite lookup_app_r by (rewrite length_take; lia).
      rewrite length_take, Nat.min_l by lia.
      destruct (decide (i - o < length src)%nat).
      * rewrite lookup_app_l by done. case_decide; [done | lia].
      * rewrite lookup_app_r by lia. rewrite lookup_drop.
        case_decide; [lia |]. f_equal. lia.
  - case_decide; [lia |]. symmetry. apply lookup_ge_None. lia.
Qed.

Lemma length_memset_at b off c n : length (memset_at b off c n) = length b.
Proof. apply length_memcpy_to. Qed.

Lemma length_bytes_at b off n :
  0 <= off -> 0 <= n -> (Z.to_nat off + Z.to_nat n ≤ length b)%nat ->
  length (bytes_at b off n) = Z.to_nat n.
Proof.
  intros. unfold bytes_at. rewrite length_take, length_drop. lia.
Qed.

Lemma lookup_bytes_at b off n i :
  bytes_at b off n !! i =
    if decide (i < Z.to_nat n)%nat then b !! (Z.to_nat off + i)%nat else None.
Proof. unfold bytes_at. by rewrite lookup_take, lookup_drop. Qed.

Lemma rd_bytes_at b off n p :
  0 <= off -> 0 <= p < n -> rd (bytes_at b off n) p = rd b (off + p).
Proof.
  intros. unfold rd. rewrite lookup_bytes_at, decide_True by lia.
  do 2 f_equal. lia.
Qed.

(** Two buffers that agree on a range have the same field there. *)
Lemma bytes_at_ext b b' off n :
  (∀ i, (Z.to_nat off ≤ i < Z.to_nat off + Z.to_nat n)%nat -> b !! i = b' !! i) ->
  bytes_at b off n = bytes_at b' off n.
Proof.
  intros H. apply list_eq. intros i. rewrite !lookup_bytes_at.
  case_decide; [apply H; lia | done].
Qed.

(** Stores outside a field leave it alone. *)
Lemma bytes_at_wr b p v off n :
  p < off ∨ off + n <= p -> 0 <= p -> 0 <= off -> 0 <= n ->
  bytes_at (wr b p v) off n = bytes_at b off n.
Proof.
  intros. apply bytes_at_ext. intros k Hk. apply lookup_wr_ne. lia.
Qed.

Lemma bytes_at_wr_or b p v off n :
  p < off ∨ off + n <= p -> 0 <= p -> 0 <= off -> 0 <= n ->
  bytes_at (wr_or b p v) off n = bytes_at b off n.
Proof. apply bytes_at_wr. Qed.

Lemma bytes_at_put_unaligned_be16 b p v off n :
  p + 1 < off ∨ off + n <= p -> 0 <= p -> 0 <= off -> 0 <= n ->
  bytes_at (put_unaligned_be16 v b p) off n = bytes_at b off n.
Proof.
  intros. unfold put_unaligned_be16. rewrite !bytes_at_wr; [done | lia..].
Qed.

Lemma bytes_at_memcpy_to_disjoint b off' src off n :
  off' + Z.of_nat (length src) <= off ∨ off + n <= off' ->
  0 <= off' -> 0 <= off -> 0 <= n ->
  bytes_at (memcpy_to b off' src) off n = bytes_at b off n.
Proof.
  intros. apply bytes_at_ext. intros k Hk. rewrite lookup_memcpy_to.
  case_decide; [lia | done].
Qed.

(** A copy into the head of a field replaces that head. *)
Lemma bytes_at_memcpy_to_head b off src n :
  0 <= off -> (length src ≤ Z.to_nat n)%nat ->
  (Z.to_nat off + Z.to_nat n ≤ length b)%nat ->
  bytes_at (memcpy_to b off src) off n
  = src ++ drop (length src) (bytes_at b off n).
Proof.
  intros. apply list_eq. intros i.
  rewrite lookup_bytes_at, lookup_memcpy_to, lookup_app, lookup_drop,
          lookup_bytes_at.
  destruct (decide (i < length src)%nat) as [Hi | Hi].
  - destruct (lookup_lt_is_Some_2 src i Hi) as [x Hx]. rewrite Hx.
    repeat case_decide; try lia. rewrite <- Hx. f_equal. lia.
  - rewrite (lookup_ge_None_2 src i) by lia.
    repeat case_decide; try lia; try done. f_equal. lia.
Qed.

Lemma bytes_at_memset_at b off c n off' n' :
  0 <= off -> 0 <= n -> off <= off' -> 0 <= n' -> off' + n' <= off + n ->
  (Z.to_nat off + Z.to_nat n ≤ length b)%nat ->
  bytes_at (memset_at b off c n) off' n' = replicate (Z.to_nat n') (u8 c).
Proof.
  intros. apply list_eq. intros i. unfold memset_at.
  rewrite lookup_bytes_at, lookup_memcpy_to, length_replicate.
  destruct (decide (i < Z.to_nat n')%nat).
  - rewrite decide_True by lia.
    rewrite !lookup_replicate_2 by lia. done.
  - symmetry. apply lookup_ge_None. rewrite length_replicate. lia.
Qed.

End Buffers.

(* ===================================================================== *)
(** * C strings *)
(* ===================================================================== *)

Lemma cstr_prefix s : ∃ rest, s = cstr s ++ rest.
Proof.
  induction s as [| c s [rest IH]]; [by exists [] |]. simpl.
  destruct (c =? 0); [by eexists |].
  exists rest. simpl. by rewrite <- IH.
Qed.

(** [strnlen] bytes of the array are the string cut at [n]. *)
Lemma take_strnlen s n :
  0 <= n -> take (Z.to_nat (strnlen s n)) s = take (Z.to_nat n) (cstr s).
Proof.
  intros Hn. unfold strnlen, strlen.
  destruct (cstr_prefix s) as [rest Hs]. rewrite Hs at 2.
  rewrite take_app_le by lia.
  destruct (decide (Z.of_nat (length (cstr s)) <= n)).
  - rewrite Z.min_l, Nat2Z.id by done. rewrite !take_ge; [done | lia..].
  - rewrite Z.min_r by lia. done.
Qed.

Lemma memcpy_strn_field b off s n :
  0 <= off -> 0 < n ->
  bytes_at b off n = replicate (Z.to_nat n) 0x20 ->
  bytes_at (memcpy_strn b off s n) off n = space_padded n (cstr s).
Proof.
  intros Hoff Hn Hsp. unfold memcpy_strn, space_padded.
  rewrite take_strnlen by lia.
  assert (Z.to_nat off + Z.to_nat n ≤ length b)%nat as Hlen.
  { apply (f_equal length) in Hsp. unfold bytes_at in Hsp.
    rewrite length_take, length_drop, length_replicate in Hsp. lia. }
  rewrite bytes_at_memcpy_to_head; [| done | rewrite length_take; lia | done].
  rewrite Hsp, drop_replicate, length_take.
  set (c := cstr s).
  destruct (decide (length c ≤ Z.to_nat n)%nat).
  - rewrite take_ge, Nat.min_r by lia.
    rewrite take_app_ge, take_replicate by lia.
    do 2 f_equal. lia.
  - rewrite Nat.min_l by lia. rewrite Nat.sub_diag. simpl.
    rewrite app_nil_r. rewrite take_app_le by lia. done.
Qed.

(* ===================================================================== *)
(** * Properties of the standard INQUIRY data *)
(* ===================================================================== *)

Lemma rd_wr_eq b p v : (Z.to_nat p < length b)%nat -> rd (wr b p v) p = u8 v.
Proof. intros. unfold rd, wr. by rewrite list_lookup_insert_eq. Qed.

Lemma length_memcpy_strn b off s n : length (memcpy_strn b off s n) = length b.
Proof. apply length_memcpy_to. Qed.

Lemma bytes_at_memcpy_strn_disjoint b off' s n' off n :
  off' + n' <= off ∨ off + n <= off' ->
  0 <= off' -> 0 <= n' -> 0 <= off -> 0 <= n ->
  bytes_at (memcpy_strn b off' s n') off n = bytes_at b off n.
Proof.
  intros. unfold memcpy_strn. apply bytes_at_memcpy_to_disjoint; try lia.
  rewrite length_take. unfold strnlen. lia.
Qed.

Lemma length_spc_fill_alua_data lun b :
  length (spc_fill_alua_data lun b) = length b.
Proof.
  unfold spc_fill_alua_data.
  destruct (lun_tg_pt_gp lun); by rewrite ?length_wr_or, ?length_wr.
Qed.

(** Length bookkeeping through conditional stores. *)
Ltac buf_len :=
  repeat first
    [ rewrite length_wr | rewrite length_wr_or
    | rewrite length_put_unaligned_be16
    | rewrite length_memcpy_strn | rewrite length_memcpy_to
    | rewrite length_memset_at | rewrite length_spc_fill_alua_data
    | match goal with
      | |- context [length (if ?c then _ else _)] => destruct c
      end ].

(** Frame reasoning: peel the stores that miss the field looked at. *)
Ltac frame_step :=
  first
    [ rewrite bytes_at_wr by lia
    | rewrite bytes_at_wr_or by lia
    | rewrite bytes_at_put_unaligned_be16 by lia
    | rewrite bytes_at_memcpy_strn_disjoint by (vm_compute; intuition congruence)
    | match goal with
      | |- context [bytes_at (if ?c then _ else _) _ _] => destruct c
      end ].

(** C7: the standard INQUIRY data carries 91 in its additional-length byte,
    and its vendor, model and revision fields, 8, 16 and 4 bytes wide at
    offsets 8, 16 and 32, each hold the corresponding string cut to the
    field width or filled up on the right with ASCII spaces. *)
Theorem spc_emulate_inquiry_std_fields (cmd : se_cmd) (buf : list Z) :
  (96 ≤ length buf)%nat ->
  let wwn := t10_wwn (se_cmd_dev cmd) in
  let std := snd (spc_emulate_inquiry_std cmd buf) in
  fst (spc_emulate_inquiry_std cmd buf) = TCM_NO_SENSE
  ∧ rd std 4 = 91
  ∧ bytes_at std 8 8 = space_padded 8 (cstr (vendor wwn))
  ∧ bytes_at std 16 16 = space_padded 16 (cstr (model wwn))
  ∧ bytes_at std 32 4 = space_padded 4 (cstr (revision wwn)).
Proof.
  intros Hlen. cbv zeta. unfold spc_emulate_inquiry_std. cbv zeta. simpl fst. simpl snd.
  match goal with
  | |- context [memset_at ?b 8 0x20 _] => set (b0 := b)
  end.
  assert (length b0 = length buf) as Hb0 by (subst b0; buf_len; done).
  change (INQUIRY_VENDOR_LEN + INQUIRY_MODEL_LEN + INQUIRY_REVISION_LEN) with 28.
  change INQUIRY_VENDOR_LEN with 8. change INQUIRY_MODEL_LEN with 16.
  change INQUIRY_REVISION_LEN with 4.
  set (b1 := memset_at b0 8 32 28).
  assert (∀ off n, 8 <= off -> 0 <= n -> off + n <= 36 ->
            bytes_at b1 off n = replicate (Z.to_nat n) 0x20) as Hsp.
  { intros off n ???. subst b1.
    rewrite bytes_at_memset_at; [done | lia..]. }
  split; [done |]. split.
  { rewrite rd_wr_eq; [done |]. subst b1. buf_len; rewrite ?Hb0; lia. }
  split; [| split].
  - repeat frame_step.
    all: apply memcpy_strn_field; [lia | lia | apply Hsp; lia].
  - repeat frame_step.
    all: apply memcpy_strn_field; [lia | lia |].
    all: rewrite bytes_at_memcpy_strn_disjoint by lia; apply Hsp; lia.
  - repeat frame_step.
    all: apply memcpy_strn_field; [lia | lia |].
    all: rewrite !bytes_at_memcpy_strn_disjoint by lia; apply Hsp; lia.
Qed.

Lemma spc_emulate_inquiry_std_fields_witness :
  bytes_at (snd (spc_emulate_inquiry_std inquiry_std_cmd (zeroed SE_INQUIRY_BUF))) 8 8
  = bytes_of_string "LIO-ORG ".
Proof.
  assert (96 ≤ length (zeroed SE_INQUIRY_BUF))%nat as Hlen by (vm_compute; lia).
  apply (spc_emulate_inquiry_std_fields inquiry_std_cmd _ Hlen).
Defined.

(* ===================================================================== *)
(** * Properties of MODE SELECT with no parameter data *)
(* ===================================================================== *)

(** C10: a MODE SELECT whose transfer length is zero completes at once with
    GOOD status: whatever the CDB (PF bit included) and whatever the state
    of the data buffer, no check is made and no error is returned. *)
Theorem spc_emulate_modeselect_zero_length (cmd : se_cmd) :
  data_length cmd = 0 ->
  spc_emulate_modeselect cmd =
    {| ret := TCM_NO_SENSE; data_out := t_data cmd;
       completed := Some (Complete SAM_STAT_GOOD) |}.
Proof.
  intros H. unfold spc_emulate_modeselect. cbv zeta. rewrite H. reflexivity.
Qed.

Lemma spc_emulate_modeselect_zero_length_witness :
  spc_emulate_modeselect mode_select_no_pf_cmd =
    {| ret := TCM_NO_SENSE; data_out := Some [];
       completed := Some (Complete SAM_STAT_GOOD) |}.
Proof.
  apply (spc_emulate_modeselect_zero_length mode_select_no_pf_cmd).
  reflexivity.
Defined.

(* ===================================================================== *)
(** * Properties of the supported-pages VPD page *)
(* ===================================================================== *)

Lemma rd_zeroed n i : rd (zeroed n) i = 0.
Proof.
  unfold rd, zeroed.
  destruct (replicate _ _ !! _) eqn:E; [|reflexivity].
  apply lookup_replicate in E as [-> _]. reflexivity.
Qed.

(** With a unit serial the page lists the eight supported pages. *)
Lemma evpd_00_page_with_serial cmd :
  has_unit_serial (se_cmd_dev cmd) = true ->
  let page := snd (spc_emulate_evpd_00 cmd (zeroed SE_INQUIRY_BUF)) in
  get_unaligned_be16 page 2 = 8
  ∧ bytes_at page 4 8 = evpd_handler_pages.
Proof.
  intros H. unfold spc_emulate_evpd_00. rewrite H. vm_compute. done.
Qed.

(** Without one it is left as it was. *)
Lemma evpd_00_page_without_serial cmd buf :
  has_unit_serial (se_cmd_dev cmd) = false ->
  spc_emulate_evpd_00 cmd buf = (TCM_NO_SENSE, buf).
Proof. intros H. unfold spc_emulate_evpd_00. rewrite H. reflexivity. Qed.

(** C8: the supported-pages page has a non-zero page length, and a
    non-zero byte among those that follow it, exactly when a unit serial
    number has been configured, and it then lists the eight pages of the
    handler table; INQUIRY with EVPD=1 and page code 0 on a device without
    one succeeds with GOOD status, a transfer length of 4 and a page-length
    field of 0, the response holding nothing but the device type. *)
Theorem spc_emulate_evpd_00_gated_on_unit_serial (cmd : se_cmd) :
  let page := snd (spc_emulate_evpd_00 cmd (zeroed SE_INQUIRY_BUF)) in
  ((∃ i, 4 <= i ∧ rd page i ≠ 0) ↔ has_unit_serial (se_cmd_dev cmd) = true)
  ∧ (get_unaligned_be16 page 2 ≠ 0 ↔ has_unit_serial (se_cmd_dev cmd) = true)
  ∧ (has_unit_serial (se_cmd_dev cmd) = true ->
     get_unaligned_be16 page 2 = 8
     ∧ bytes_at page 4 8 = [0x00; 0x80; 0x83; 0x86; 0xb0; 0xb1; 0xb2; 0xb3])
  ∧ (has_unit_serial (se_cmd_dev cmd) = false ->
     Z.land (rd (t_task_cdb cmd) 1) 0x1 = 1 ->
     rd (t_task_cdb cmd) 2 = 0x00 ->
     let response := wr (zeroed SE_INQUIRY_BUF) 0
                        (get_device_type (transport (se_cmd_dev cmd))) in
     get_unaligned_be16 response 2 = 0
     ∧ spc_emulate_inquiry cmd =
         {| ret := TCM_NO_SENSE;
            data_out := copy_out cmd response
                                 (min_u32 SE_INQUIRY_BUF (data_length cmd));
            completed := Some (CompleteWithLength SAM_STAT_GOOD 4) |}).
Proof.
  cbv zeta.
  destruct (has_unit_serial (se_cmd_dev cmd)) eqn:E.
  - destruct (evpd_00_page_with_serial cmd E) as [Hlen Hpages].
    split; [| split; [| split]].
    + split; [done |]. intros _. exists 5. split; [lia |].
      change 5 with (4 + 1). rewrite <- (rd_bytes_at _ 4 8 1) by lia.
      rewrite Hpages. discriminate.
    + rewrite Hlen. done.
    + done.
    + discriminate.
  - rewrite (evpd_00_page_without_serial cmd _ E). cbn [snd].
    split; [| split; [| split]].
    + split; [| discriminate]. intros (i & _ & Hnz). destruct Hnz. apply rd_zeroed.
    + split; [| discriminate]. intros Hnz. destruct Hnz. reflexivity.
    + discriminate.
    + intros _ Hevpd Hpage. split; [reflexivity |].
      unfold spc_emulate_inquiry. cbv zeta.
      rewrite Hevpd. change (negb (truthy 1)) with false. cbv iota.
      unfold evpd_handlers, inquiry_evpd_loop.
      rewrite Hpage. change (0 =? 0) with true. cbv iota.
      rewrite (evpd_00_page_without_serial cmd _ E).
      reflexivity.
Qed.

Lemma spc_emulate_evpd_00_gated_on_unit_serial_witness :
  spc_emulate_inquiry inquiry_vpd_00_cmd =
    {| ret := TCM_NO_SENSE;
       data_out := Some [0; 0; 0; 0; 0; 0; 0; 0];
       completed := Some (CompleteWithLength SAM_STAT_GOOD 4) |}.
Proof.
  apply (proj2 (spc_emulate_evpd_00_gated_on_unit_serial inquiry_vpd_00_cmd));
    reflexivity.
Defined.

(* ===================================================================== *)
(** * Properties of the device identification VPD page *)
(* ===================================================================== *)

Lemma lor_shiftl_8 h l : 0 <= l < 256 -> Z.lor (Z.shiftl h 8) l = h * 256 + l.
Proof.
  intros Hl.
  assert (Z.land (Z.shiftl h 8) l = 0) as Hdisj.
  { apply Z.bits_inj'. intros k Hk. rewrite Z.land_spec, Z.bits_0.
    destruct (decide (k < 8)).
    - rewrite Z.shiftl_spec_low by lia. done.
    - replace l with (l mod 2 ^ 8) by (apply Z.mod_small; lia).
      rewrite Z.mod_pow2_bits_high by lia. apply andb_false_r. }
  rewrite <- Z.lxor_lor by done.
  rewrite <- Z.add_nocarry_lxor by done.
  rewrite Z.shiftl_mul_pow2 by lia. reflexivity.
Qed.

(** A 16-bit value stored big-endian reads back as itself. *)
Lemma get_put_unaligned_be16 v b off :
  0 <= v < 65536 -> 0 <= off -> (Z.to_nat off + 1 < length b)%nat ->
  get_unaligned_be16 (put_unaligned_be16 v b off) off = v.
Proof.
  intros Hv Hoff Hlen. unfold get_unaligned_be16, put_unaligned_be16.
  unfold u16. cbv zeta. rewrite (Z.mod_small v) by lia.
  assert (rd (wr (wr b off (Z.shiftr v 8)) (off + 1) v) (off + 1) = u8 v) as ->.
  { apply rd_wr_eq. rewrite length_wr. lia. }
  assert (rd (wr (wr b off (Z.shiftr v 8)) (off + 1) v) off = u8 (Z.shiftr v 8)) as ->.
  { unfold rd at 1. rewrite lookup_wr_ne by lia. apply rd_wr_eq. lia. }
  unfold u8. rewrite Z.shiftr_div_pow2 by lia.
  rewrite lor_shiftl_8 by (apply Z.mod_pos_bound; lia).
  change (2 ^ 8) with 256.
  pose proof (Z.div_mod v 256 ltac:(lia)).
  pose proof (Z.mod_pos_bound v 256 ltac:(lia)).
  rewrite (Z.mod_small (v / 256)) by lia. lia.
Qed.

Lemma scsi_name_pad_range n : 0 <= scsi_name_pad n <= 256.
Proof.
  unfold scsi_name_pad. cbv zeta.
  destruct (_ >? 256) eqn:E; [lia |].
  rewrite Z.gtb_ltb in E. apply Z.ltb_ge in E. split; [| done].
  destruct (truthy _); unfold u32; apply Z.mod_pos_bound; lia.
Qed.

Lemma length_naa_6h_loop p cnt b off next :
  length (naa_6h_loop p cnt b off next) = length b.
Proof.
  revert b off next. induction p as [| c p IH]; intros; simpl; [done |].
  destruct (truthy c && (off <? cnt)); [| done].
  destruct (hex_to_bin c <? 0); [apply IH |].
  destruct next; rewrite IH; by rewrite ?length_wr_or, ?length_wr.
Qed.

Lemma length_at_offset_naa dev off b :
  length (fst (at_offset off (spc_gen_naa_6h_vendor_specific dev) b)) = length b.
Proof.
  unfold at_offset, spc_gen_naa_6h_vendor_specific. cbv zeta. simpl fst.
  rewrite length_app, length_naa_6h_loop. rewrite !length_wr, length_wr_or, length_wr.
  rewrite length_take, length_drop. lia.
Qed.

Ltac buf_len83 :=
  repeat first
    [ rewrite length_wr | rewrite length_wr_or
    | rewrite length_put_unaligned_be16
    | rewrite length_memcpy_strn | rewrite length_memcpy_to
    | rewrite length_memset_at | rewrite length_at_offset_naa ].

(** Wrap-around does not occur on values within range. *)
Ltac mod_small :=
  unfold u16, u32;
  repeat match goal with
         | |- context [?x mod ?m] => rewrite (Z.mod_small x m) by lia
         end.

Section Evpd83.

Variables (size : nat) (bound : Z) (l : evpd_83_locals).
Hypothesis Hinv : evpd_83_inv size bound l.
Hypothesis Hbound : 0 <= bound <= 1000.

Local Ltac start :=
  destruct l as [buf off len], Hinv as (Hoff & Hlen & Hsize);
  cbn [e_off e_len e_buf] in *; subst off.

Local Ltac finish :=
  cbv beta iota zeta; unfold evpd_83_inv; cbn [e_off e_len e_buf];
  split; [mod_small; lia | split; [mod_small; lia | buf_len83; done]].

Lemma evpd_83_naa_inv dev :
  bound <= 20 -> evpd_83_inv size 20 (evpd_83_naa dev l).
Proof.
  intros. start. unfold evpd_83_naa. cbn [e_off e_len e_buf].
  destruct (has_unit_serial dev); cbn [negb].
  - finish.
  - unfold evpd_83_inv; cbn [e_off e_len e_buf]. split; [lia | split; [lia | done]].
Qed.

Lemma evpd_83_t10_vendor_inv dev :
  t10_wwn_fits (t10_wwn dev) ->
  evpd_83_inv size (bound + 283) (evpd_83_t10_vendor dev l).
Proof.
  intros [Hmodel Hserial]. start. unfold evpd_83_t10_vendor, sprintf_s.
  cbn [e_off e_len e_buf].
  assert (0 <= Z.of_nat (length (cstr (model (t10_wwn dev)) ++ [58]
                            ++ cstr (unit_serial (t10_wwn dev)))) <= 270) as Hid.
  { rewrite !length_app. simpl length. unfold strlen in *.
    unfold INQUIRY_MODEL_LEN, INQUIRY_VPD_SERIAL_LEN in *. lia. }
  revert Hid. generalize (Z.of_nat (length (cstr (model (t10_wwn dev)) ++ [58]
                            ++ cstr (unit_serial (t10_wwn dev))))).
  intros n Hn.
  destruct (has_unit_serial dev); finish.
Qed.

Lemma evpd_83_rtpi_inv lun : evpd_83_inv size (bound + 8) (evpd_83_rtpi lun l).
Proof. start. unfold evpd_83_rtpi. cbn [e_off e_len e_buf]. finish. Qed.

Lemma evpd_83_tg_pt_gp_inv lun :
  evpd_83_inv size (bound + 8) (evpd_83_tg_pt_gp lun l).
Proof.
  start. unfold evpd_83_tg_pt_gp. cbn [e_off e_len e_buf].
  destruct (lun_tg_pt_gp lun).
  - finish.
  - unfold evpd_83_inv; cbn [e_off e_len e_buf]. split; [lia | split; [lia | done]].
Qed.

Lemma evpd_83_lu_gp_inv dev :
  evpd_83_inv size (bound + 8) (evpd_83_lu_gp dev l).
Proof.
  start. unfold evpd_83_lu_gp. cbn [e_off e_len e_buf].
  destruct (dev_alua_lu_gp_mem dev) as [[[?|]]|]; cbn [lu_gp].
  - finish.
  - unfold evpd_83_inv; cbn [e_off e_len e_buf]. split; [lia | split; [lia | done]].
  - unfold evpd_83_inv; cbn [e_off e_len e_buf]. split; [lia | split; [lia | done]].
Qed.

Lemma evpd_83_scsi_name_inv tpg :
  evpd_83_inv size (bound + 260) (evpd_83_scsi_name tpg l).
Proof.
  start. unfold evpd_83_scsi_name, sprintf_s. cbn [e_off e_len e_buf].
  cbv beta iota zeta.
  match goal with
  | |- context [scsi_name_pad ?n] =>
    pose proof (scsi_name_pad_range n); generalize dependent (scsi_name_pad n)
  end.
  intros. finish.
Qed.

Lemma evpd_83_target_device_inv tpg :
  evpd_83_inv size (bound + 260) (evpd_83_target_device tpg l).
Proof.
  start. unfold evpd_83_target_device, sprintf_s. cbn [e_off e_len e_buf].
  cbv beta iota zeta.
  match goal with
  | |- context [scsi_name_pad ?n] =>
    pose proof (scsi_name_pad_range n); generalize dependent (scsi_name_pad n)
  end.
  intros. finish.
Qed.

End Evpd83.

Lemma evpd_83_designators_inv cmd buf :
  t10_wwn_fits (t10_wwn (se_cmd_dev cmd)) ->
  evpd_83_inv (length buf) 847 (evpd_83_designators cmd buf).
Proof.
  intros Hfits. unfold evpd_83_designators. cbv zeta.
  assert (evpd_83_inv (length buf) 0 {| e_buf := buf; e_off := 4; e_len := 0 |})
    as H0 by (unfold evpd_83_inv; cbn; lia).
  pose proof (evpd_83_naa_inv _ _ _ H0 (se_cmd_dev cmd) ltac:(lia)) as H1.
  pose proof (evpd_83_t10_vendor_inv _ _ _ H1 ltac:(lia) _ Hfits) as H2.
  pose proof (evpd_83_rtpi_inv _ _ _ H2 ltac:(lia) (se_cmd_lun cmd)) as H3.
  pose proof (evpd_83_tg_pt_gp_inv _ _ _ H3 ltac:(lia) (se_cmd_lun cmd)) as H4.
  pose proof (evpd_83_lu_gp_inv _ _ _ H4 ltac:(lia) (se_cmd_dev cmd)) as H5.
  pose proof (evpd_83_scsi_name_inv _ _ _ H5 ltac:(lia)
                (lun_tpg (se_cmd_lun cmd))) as H6.
  exact (evpd_83_target_device_inv _ _ _ H6 ltac:(lia) (lun_tpg (se_cmd_lun cmd))).
Qed.

(** C5: when the device identification page has been generated, the
    big-endian 16-bit page length patched in at offset 2 is the number of
    bytes encoded after the 4-byte header: the running offset at which
    encoding stopped is that length plus 4. *)
Theorem spc_emulate_evpd_83_page_length (cmd : se_cmd) (buf : list Z) :
  t10_wwn_fits (t10_wwn (se_cmd_dev cmd)) ->
  (4 ≤ length buf)%nat ->
  let final := spc_emulate_evpd_83_locals cmd buf in
  get_unaligned_be16 (e_buf final) 2 = e_len final
  ∧ e_off final = e_len final + 4.
Proof.
  intros Hfits Hlen. cbv zeta. unfold spc_emulate_evpd_83_locals. cbv zeta.
  cbn [e_off e_len e_buf].
  destruct (evpd_83_designators_inv cmd buf Hfits) as (Hoff & Hrange & Hsize).
  split; [| exact Hoff].
  apply get_put_unaligned_be16; [lia | lia | rewrite Hsize; lia].
Qed.

Lemma spc_emulate_evpd_83_page_length_witness :
  t10_wwn_fits (t10_wwn (se_cmd_dev inquiry_vpd_83_cmd))
  ∧ (let final :=
       spc_emulate_evpd_83_locals inquiry_vpd_83_cmd (zeroed SE_INQUIRY_BUF) in
     get_unaligned_be16 (e_buf final) 2 = e_len final
     ∧ e_off final = e_len final + 4).
Proof.
  assert (t10_wwn_fits (t10_wwn (se_cmd_dev inquiry_vpd_83_cmd))) as Hfits
    by (vm_compute; split; [discriminate | reflexivity]).
  assert (4 ≤ length (zeroed SE_INQUIRY_BUF))%nat as Hlen by (vm_compute; lia).
  split; [exact Hfits |].
  exact (spc_emulate_evpd_83_page_length inquiry_vpd_83_cmd _ Hfits Hlen).
Defined.

Example evpd_83_sample_offsets :
  let final :=
    spc_emulate_evpd_83_locals inquiry_vpd_83_cmd (zeroed SE_INQUIRY_BUF) in
  (get_unaligned_be16 (e_buf final) 2, e_len final, e_off final) = (178, 178, 182).
Proof. vm_compute. reflexivity. Qed.

(* ===================================================================== *)
(** * Properties of REPORT LUNS *)
(* ===================================================================== *)

Section Overlay.

Implicit Types (b src : list Z) (off : Z).

(** A copy that starts past the end changes nothing. *)
Lemma memcpy_to_beyond b off src :
  (length b ≤ Z.to_nat off)%nat -> memcpy_to b off src = b.
Proof.
  intros. apply list_eq. intros i. rewrite lookup_memcpy_to.
  case_decide; [lia | done].
Qed.

(** Clamping the byte count to the room left is what the copy does
    anyway. *)
Lemma memcpy_to_clamped b off src m :
  (length src ≤ m ∨ length b ≤ Z.to_nat off + m)%nat ->
  memcpy_to b off (take m src) = memcpy_to b off src.
Proof.
  intros Hm. apply list_eq. intros i. rewrite !lookup_memcpy_to, length_take.
  repeat case_decide; try lia; try done.
  apply lookup_take_lt. lia.
Qed.

(** Two adjacent copies are one copy of the concatenation. *)
Lemma memcpy_to_app b off src1 src2 :
  0 <= off ->
  memcpy_to (memcpy_to b off src1) (off + Z.of_nat (length src1)) src2
  = memcpy_to b off (src1 ++ src2).
Proof.
  intros. apply list_eq. intros i.
  rewrite !lookup_memcpy_to, length_memcpy_to, length_app, lookup_app.
  repeat case_decide; try lia.
  - rewrite (lookup_ge_None_2 src1) by lia. f_equal. lia.
  - destruct (lookup_lt_is_Some_2 src1 (i - Z.to_nat off)) as [x ->]; [lia | done].
  - done.
Qed.

End Overlay.

Lemma length_int_to_scsilun lun : length (int_to_scsilun lun) = 8%nat.
Proof. reflexivity. Qed.

Lemma int_to_scsilun_0 : int_to_scsilun 0 = [0; 0; 0; 0; 0; 0; 0; 0].
Proof. reflexivity. Qed.

Lemma u32_small x : 0 <= x < 4294967296 -> u32 x = x.
Proof. apply Z.mod_small. Qed.

Lemma s32_small x : 0 <= x < 2147483648 -> s32 x = x.
Proof.
  intros. unfold s32. rewrite u32_small by lia.
  destruct (x <? 2147483648) eqn:E; [done | lia].
Qed.

Lemma memcpy_to_nil (b : list Z) off : memcpy_to b off [] = b.
Proof.
  apply list_eq. intros i. rewrite lookup_memcpy_to. simpl.
  case_decide; [lia | done].
Qed.

(** The walk over the LUN list: every entry is counted; the entries are
    laid down one after the other from [offset] on, cut at the end of the
    buffer. *)
Lemma report_luns_loop_spec deves (b : option (list Z)) dl lun_count offset :
  match b with Some b' => Z.of_nat (length b') = dl | None => dl = 0 end ->
  0 <= lun_count -> lun_count + Z.of_nat (length deves) < 4294967296 ->
  0 <= offset -> 0 <= dl < 2147483648 ->
  ∃ offset',
    report_luns_loop deves dl b lun_count offset
    = ((λ b', memcpy_to b' offset
                (concat (int_to_scsilun <$> (mapped_lun <$> deves)))) <$> b,
       lun_count + Z.of_nat (length deves), offset')
    ∧ (deves = [] -> offset' = offset).
Proof.
  revert b lun_count offset.
  induction deves as [| deve rest IH]; intros b lun_count offset Hb Hc Hn Hoff Hdl.
  - exists offset. split; [| done]. cbn [report_luns_loop length Z.of_nat].
    rewrite Z.add_0_r. cbn [fmap list_fmap concat].
    destruct b as [b' |]; cbn; [rewrite memcpy_to_nil |]; done.
  - simpl length in Hn. cbn [report_luns_loop].
    rewrite u32_small by lia.
    replace (lun_count + Z.of_nat (length (deve :: rest)))
      with (lun_count + 1 + Z.of_nat (length rest)) by (simpl length; lia).
    destruct (offset >=? dl) eqn:Hskip.
    + (* the entry does not fit: counted, not copied *)
      destruct (IH b (lun_count + 1) offset) as (offset' & -> & _);
        [done | lia | lia | done | done |].
      exists offset'. split; [| done].
      destruct b as [b' |]; [| done]. cbn.
      rewrite !memcpy_to_beyond; [done | lia..].
    + (* the entry fits, in whole or in part *)
      assert (offset < dl) as Hlt by lia.
      destruct b as [b' |]; [| lia]. cbn [memcpy_opt].
      rewrite u32_small by lia.
      rewrite memcpy_to_clamped
        by (rewrite length_int_to_scsilun; lia).
      rewrite u32_small by lia.
      destruct (IH (Some (memcpy_to b' offset (int_to_scsilun (mapped_lun deve))))
                   (lun_count + 1) (offset + 8)) as (offset' & -> & _);
        [cbn; rewrite length_memcpy_to; done | lia | lia | lia | done |].
      exists offset'. split; [| done]. cbn.
      change 8 with (Z.of_nat (length (int_to_scsilun (mapped_lun deve)))) at 1.
      rewrite memcpy_to_app by done. done.
Qed.

(** The outcome of REPORT LUNS: the data buffer overlaid with the entries
    of the reported LUNs and then with the list length, both cut at its
    end. *)
Lemma report_luns_outcome cmd :
  data_buffer_ok cmd ->
  0 <= data_length cmd < 2 ^ 31 ->
  8 + 8 * Z.of_nat (length (visible_luns cmd)) < 2 ^ 31 ->
  let reported := reported_luns (visible_luns cmd) in
  let count := Z.of_nat (length reported) in
  spc_emulate_report_luns cmd =
    {| ret := TCM_NO_SENSE;
       data_out :=
         (λ buf, memcpy_to (memcpy_to buf 8 (concat (int_to_scsilun <$> reported)))
                           0 (cpu_to_be32 (8 * count))) <$> t_data cmd;
       completed := Some (CompleteWithLength SAM_STAT_GOOD (8 + 8 * count)) |}.
Proof.
  intros Hbuf Hdl Hn. cbv zeta.
  unfold spc_emulate_report_luns. cbv zeta.
  unfold data_buffer_ok in Hbuf.
  assert (truthy (data_length cmd) && negb (bool_decide (is_Some (t_data cmd)))
          = false) as ->.
  { destruct (t_data cmd) as [b |].
    - rewrite bool_decide_eq_true_2 by eauto. apply andb_false_r.
    - rewrite Hbuf. done. }
  set (dl := data_length cmd) in *.
  assert (∃ offset,
    match se_sess cmd with
    | Some sess =>
      report_luns_loop (lun_entry_hlist (sess_node_acl sess)) dl (t_data cmd) 0 8
    | None => (t_data cmd, 0, 8)
    end
    = ((λ b', memcpy_to b' 8 (concat (int_to_scsilun <$> visible_luns cmd)))
         <$> t_data cmd,
       Z.of_nat (length (visible_luns cmd)), offset)
    ∧ (visible_luns cmd = [] -> offset = 8)) as (offset & -> & Hoffset).
  { unfold visible_luns in *. destruct (se_sess cmd) as [sess |].
    - destruct (report_luns_loop_spec (lun_entry_hlist (sess_node_acl sess))
                  (t_data cmd) dl 0 8) as (offset' & Hloop & Hnil);
        [done | lia | rewrite length_fmap in Hn; lia | lia | lia |].
      exists offset'. rewrite Hloop. rewrite length_fmap. split; [done |].
      intros Hempty. apply Hnil. by apply fmap_nil_inv in Hempty.
    - exists 8. split; [| done]. f_equal. f_equal.
      destruct (t_data cmd) as [b |]; [| done]. cbn. f_equal.
      symmetry. apply list_eq. intros i. rewrite lookup_memcpy_to. simpl.
      case_decide; [lia | done]. }
  destruct (visible_luns cmd) as [| lun luns] eqn:Hluns.
  - (* no LUN is visible: virtual LUN 0 *)
    rewrite (Hoffset eq_refl). cbn [length reported_luns Z.of_nat Z.eqb].
    change (u32 (1 * 8)) with 8. change (8 * Z.of_nat 1) with 8.
    change (s32 (u32 (8 + 8))) with 16. change (8 + 8) with 16.
    f_equal.
    destruct (t_data cmd) as [b |]; [| destruct (dl >? 8); done].
    cbn [fmap option_fmap option_map memcpy_opt].
    assert ((if dl >? 8
             then Some (memcpy_to (memcpy_to b 8 []) 8
                          (take (Z.to_nat (Z.min 8 (u32 (dl - 8)))) (int_to_scsilun 0)))
             else Some (memcpy_to b 8 []))
            = Some (memcpy_to b 8 (int_to_scsilun 0))) as Hentry.
    { assert (memcpy_to b 8 [] = b) as ->.
      { apply list_eq. intros i. rewrite lookup_memcpy_to. simpl.
        case_decide; [lia | done]. }
      destruct (dl >? 8) eqn:E.
      - rewrite u32_small by lia.
        rewrite memcpy_to_clamped by (rewrite length_int_to_scsilun; lia). done.
      - rewrite memcpy_to_beyond by lia. done. }
    cbn [concat list_fmap]. rewrite app_nil_r.
    rewrite Hentry. cbn [memcpy_opt]. f_equal.
    rewrite s32_small by lia.
    apply memcpy_to_clamped. rewrite length_memcpy_to. simpl. lia.
  - (* at least one LUN is visible *)
    cbn [reported_luns].
    assert (0 < Z.of_nat (length (lun :: luns))) as Hpos by (simpl; lia).
    revert Hn Hpos. generalize (Z.of_nat (length (lun :: luns))).
    intros count Hn Hpos.
    assert ((count =? 0) = false) as -> by lia.
    rewrite (u32_small (count * 8)) by lia.
    rewrite (u32_small (8 + count * 8)) by lia.
    rewrite (s32_small (8 + count * 8)) by lia.
    rewrite s32_small by lia.
    replace (count * 8) with (8 * count) by lia.
    f_equal.
    destruct (t_data cmd) as [b |]; [| done].
    cbn [fmap option_fmap option_map memcpy_opt]. f_equal.
    apply memcpy_to_clamped. rewrite length_memcpy_to. simpl. lia.
Qed.

(** Where the [k]-th of a run of chunks of [n] elements lies in their
    concatenation. *)
Lemma lookup_concat_chunks {A B} (f : A -> list B) (n : nat) l k i x :
  (∀ y, length (f y) = n) -> l !! k = Some x -> (i < n)%nat ->
  concat (f <$> l) !! (k * n + i)%nat = f x !! i.
Proof.
  intros Hlen. revert k. induction l as [| a l IH]; intros k Hk Hi; [done |].
  cbn [fmap list_fmap concat]. destruct k as [| k].
  - injection Hk as ->. rewrite lookup_app_l by (rewrite Hlen; lia). done.
  - rewrite lookup_app_r by (rewrite Hlen; lia). rewrite Hlen.
    replace (S k * n + i - n)%nat with (k * n + i)%nat by lia.
    apply IH; done.
Qed.

Lemma length_concat_chunks {A B} (f : A -> list B) (n : nat) l :
  (∀ y, length (f y) = n) -> length (concat (f <$> l)) = (length l * n)%nat.
Proof.
  intros Hlen. induction l as [| a l IH]; [done |].
  cbn [fmap list_fmap concat length]. rewrite length_app, Hlen, IH. lia.
Qed.

(** C4: REPORT LUNS counts every visible LUN: the response is the data
    buffer overlaid with the eight-byte entries of all reported LUNs from
    offset 8 on and with the big-endian list length, eight times their
    number, at offset 0, both cut at the end of the buffer; the transfer
    length is 8 plus that list length.  So the buffer keeps its size, the
    header, when there is room for it, is eight times the number of
    reported LUNs however few of them fit, and every entry that fits is in
    its place.  Without a session, or with no visible LUN, exactly one
    entry is reported, that of LUN 0, and the list length is 8. *)
Theorem spc_emulate_report_luns_count_exact (cmd : se_cmd) :
  data_buffer_ok cmd ->
  0 <= data_length cmd < 2 ^ 31 ->
  8 + 8 * Z.of_nat (length (visible_luns cmd)) < 2 ^ 31 ->
  let reported := reported_luns (visible_luns cmd) in
  let count := Z.of_nat (length reported) in
  spc_emulate_report_luns cmd =
    {| ret := TCM_NO_SENSE;
       data_out :=
         (λ buf, memcpy_to (memcpy_to buf 8 (concat (int_to_scsilun <$> reported)))
                           0 (cpu_to_be32 (8 * count))) <$> t_data cmd;
       completed := Some (CompleteWithLength SAM_STAT_GOOD (8 + 8 * count)) |}
  ∧ (∀ out, data_out (spc_emulate_report_luns cmd) = Some out ->
       Z.of_nat (length out) = data_length cmd
       ∧ (4 <= data_length cmd -> bytes_at out 0 4 = cpu_to_be32 (8 * count))
       ∧ (∀ k lun, reported !! k = Some lun ->
            8 + 8 * (Z.of_nat k + 1) <= data_length cmd ->
            bytes_at out (8 + 8 * Z.of_nat k) 8 = int_to_scsilun lun))
  ∧ (visible_luns cmd = [] ->
     count = 1 ∧ cpu_to_be32 (8 * count) = [0; 0; 0; 8]
     ∧ concat (int_to_scsilun <$> reported) = [0; 0; 0; 0; 0; 0; 0; 0]).
Proof.
  intros Hbuf Hdl Hn reported count.
  pose proof (report_luns_outcome cmd Hbuf Hdl Hn) as Heq. cbv zeta in Heq.
  fold reported in Heq. fold count in Heq.
  split; [exact Heq |]. split; [| subst reported count; intros ->; done].
  intros out. rewrite Heq. cbn [data_out]. unfold data_buffer_ok in Hbuf.
  destruct (t_data cmd) as [buf |]; [| discriminate].
  cbn [fmap option_fmap option_map]. intros [= <-].
  split; [rewrite !length_memcpy_to; exact Hbuf |]. split.
  - intros Hroom.
    rewrite bytes_at_memcpy_to_head;
      [| lia | cbn; lia | rewrite !length_memcpy_to; lia].
    rewrite drop_ge, app_nil_r; [done |].
    rewrite length_bytes_at; [cbn; lia | lia | lia |].
    rewrite !length_memcpy_to. lia.
  - intros k lun Hk Hfit.
    rewrite bytes_at_memcpy_to_disjoint by (cbn [length cpu_to_be32]; lia).
    apply list_eq. intros i. rewrite lookup_bytes_at, lookup_memcpy_to.
    rewrite (length_concat_chunks int_to_scsilun 8) by apply length_int_to_scsilun.
    apply lookup_lt_Some in Hk as Hklt.
    destruct (decide (i < 8)%nat) as [Hi | Hi].
    + rewrite decide_True by lia. rewrite decide_True by lia.
      replace (Z.to_nat (8 + 8 * Z.of_nat k) + i - Z.to_nat 8)%nat
        with (k * 8 + i)%nat by lia.
      apply (lookup_concat_chunks int_to_scsilun 8); [| done | done].
      apply length_int_to_scsilun.
    + rewrite decide_False by lia. symmetry. apply lookup_ge_None.
      rewrite length_int_to_scsilun. lia.
Qed.

Lemma spc_emulate_report_luns_count_exact_witness :
  spc_emulate_report_luns report_luns_cmd =
    {| ret := TCM_NO_SENSE;
       data_out :=
         Some [0; 0; 0; 24;  0xaa; 0xaa; 0xaa; 0xaa;
               0; 0; 0; 0; 0; 0; 0; 0;  0; 1; 0; 0];
       completed := Some (CompleteWithLength SAM_STAT_GOOD 32) |}.
Proof.
  assert (data_buffer_ok report_luns_cmd) as Hbuf by reflexivity.
  assert (0 <= data_length report_luns_cmd < 2 ^ 31) as Hdl
    by (vm_compute; split; [discriminate | reflexivity]).
  assert (8 + 8 * Z.of_nat (length (visible_luns report_luns_cmd)) < 2 ^ 31)
    as Hn by reflexivity.
  exact (proj1 (spc_emulate_report_luns_count_exact report_luns_cmd Hbuf Hdl Hn)).
Defined.

(* ===================================================================== *)
(** * Mode pages *)
(* ===================================================================== *)

Lemma bytes_eqb_refl a : bytes_eqb a a = true.
Proof. induction a as [| x a IH]; [done |]. simpl. by rewrite Z.eqb_refl, IH. Qed.

(** Case analysis on the tests a page generator makes. *)
Ltac page_cases :=
  repeat match goal with
         | |- context [if ?c then wr _ _ _ else _] => destruct c
         | |- context [if ?c then wr_or _ _ _ else _] => destruct c
         | |- context [if ?c then (if _ then _ else _) else _] => destruct c
         end.

(** Evaluate the length of a list built by stores into a literal. *)
Ltac eval_length :=
  match goal with
  | |- context [length ?l] =>
    let n := eval vm_compute in (length l) in change (length l) with n
  end.

(** A registered page generator, run for current values on zeroed bytes,
    writes a page that starts with its page code, has the page size it
    returns, and leaves what follows the page alone. *)
Lemma modesense_handler_page h cmd :
  In h modesense_handlers ->
  ∃ rest,
    let page := mh_page h :: rest in
    12 <= Z.of_nat (length page) <= 20
    ∧ ∀ tail, mh_emulate h cmd 0 (replicate (length page) 0 ++ tail)
              = (page ++ tail, Z.of_nat (length page)).
Proof.
  intros [<- | [<- | [<- | [<- | []]]]]; cbn [mh_page mh_emulate].
  - exists (tail (fst (spc_modesense_rwrecovery cmd 0 (replicate 12 0)))).
    split; [eval_length; lia | intros; reflexivity].
  - exists (tail (fst (spc_modesense_caching cmd 0 (replicate 20 0)))).
    unfold spc_modesense_caching. cbn [Z.eqb]. cbv zeta.
    destruct (target_check_wce _); (split; [eval_length; lia | intros; reflexivity]).
  - exists (tail (fst (spc_modesense_control cmd 0 (replicate 12 0)))).
    unfold spc_modesense_control. cbn [Z.eqb]. cbv zeta.
    page_cases; (split; [eval_length; lia | intros; reflexivity]).
  - exists (tail (fst (spc_modesense_informational_exceptions cmd 0 (replicate 12 0)))).
    split; [eval_length; lia | intros; reflexivity].
Qed.

Lemma modesense_find_registered h :
  In h modesense_handlers ->
  modesense_find modesense_handlers (mh_page h) (mh_subpage h) = Some h
  ∧ Z.land (mh_page h) 0x3f = mh_page h
  ∧ Z.land (mh_page h) 0x40 = 0
  ∧ Z.shiftr (mh_page h) 6 = 0
  ∧ mh_subpage h = 0
  ∧ mh_page h ≠ 0x3f.
Proof. intros [<- | [<- | [<- | [<- | []]]]]; repeat split; done. Qed.

Lemma at_offset_frame {A} (f : list Z -> list Z * A) (off : Z) b pre mid tail p a :
  b = pre ++ mid ++ tail -> length pre = Z.to_nat off ->
  f (mid ++ tail) = (p ++ tail, a) ->
  at_offset off f b = (pre ++ p ++ tail, a).
Proof.
  intros -> Hpre Hf. unfold at_offset.
  rewrite drop_app_length' by done. rewrite Hf.
  rewrite take_app_length' by done. done.
Qed.

Lemma modesense_scratch_one_page cmd h :
  In h modesense_handlers ->
  let cdb := t_task_cdb cmd in
  rd cdb 0 = MODE_SENSE ∨ rd cdb 0 = MODE_SENSE_10 ->
  rd cdb 2 = mh_page h -> rd cdb 3 = mh_subpage h ->
  truthy (Z.land (rd cdb 1) 0x08) = true
  ∨ get_device_type (transport (se_cmd_dev cmd)) ≠ TYPE_DISK ->
  ∃ hdr rest,
    let page := mh_page h :: rest in
    Z.of_nat (length hdr) = (if rd cdb 0 =? MODE_SENSE_10 then 8 else 4)
    ∧ 12 <= Z.of_nat (length page) <= 20
    ∧ (∀ tail, mh_emulate h cmd 0 (replicate (length page) 0 ++ tail)
               = (page ++ tail, Z.of_nat (length page)))
    ∧ spc_modesense_scratch cmd
      = inr (hdr ++ page ++ replicate (512 - length hdr - length page) 0,
             Z.of_nat (length hdr) + Z.of_nat (length page)).
Proof.
  intros Hin cdb Hop Hpage Hsub Hnodesc. subst cdb.
  destruct (modesense_handler_page h cmd Hin) as (rest & Hsize & Hframe).
  destruct (modesense_find_registered h Hin)
    as (Hfind & H3f & H40 & Hpc & Hsub0 & Hnot3f).
  cbv zeta in Hsize, Hframe.
  set (page := mh_page h :: rest) in *.
  unfold spc_modesense_scratch. cbv zeta.
  rewrite Hpage, Hsub, H3f, Hpc, Hfind.
  change (u8 0) with 0.
  assert ((mh_page h =? 63) = false) as -> by lia.
  assert (negb (truthy (Z.land (rd (t_task_cdb cmd) 1) 8))
          && (get_device_type (transport (se_cmd_dev cmd)) =? TYPE_DISK) = false)
    as Hnd.
  { destruct Hnodesc as [-> | Hne]; [done |].
    apply andb_false_iff. right. unfold TYPE_DISK in *. lia. }
  rewrite Hnd. clear Hnd Hnodesc.
  assert (∀ n m : nat, (m ≤ n)%nat ->
            replicate n 0 = replicate m 0 ++ replicate (n - m) 0) as Hzeros.
  { intros n m Hle. rewrite <- replicate_add. f_equal. lia. }
  unfold spc_modesense_dpofua.
  destruct (rd (t_task_cdb cmd) 0 =? MODE_SENSE_10);
    destruct (target_check_fua (se_cmd_dev cmd));
    destruct (lun_access_ro (se_cmd_lun cmd) || target_lun_is_rdonly cmd);
    destruct (get_device_type (transport (se_cmd_dev cmd)) =? TYPE_DISK);
    cbv beta iota.
  all: match goal with
       | |- context [at_offset ?off (mh_emulate _ _ 0) ?bufH] =>
         let hdr0 := eval vm_compute in (take (Z.to_nat off) bufH) in
         let z := eval vm_compute in (length bufH - Z.to_nat off)%nat in
         assert (bufH = hdr0 ++ replicate z 0) as -> by (vm_compute; reflexivity);
         rewrite (Hzeros z (length page)) by lia;
         erewrite (at_offset_frame _ off _ hdr0) by (done || apply Hframe);
         cbv beta iota
       end.
  all: match goal with
       | |- context [inr (wr (?hdr0 ++ _) 0 ?v, _)] =>
         exists (wr hdr0 0 v), rest
       | |- context [inr (put_unaligned_be16 ?v (?hdr0 ++ _) 0, _)] =>
         exists (put_unaligned_be16 v hdr0 0), rest
       end.
  all: fold page; repeat split; try done; try lia.
Qed.

(** The page generators look at the device and the session only. *)
Lemma mh_emulate_resubmit h cmd cdb data pc p :
  In h modesense_handlers ->
  mh_emulate h (resubmit cmd cdb data) pc p = mh_emulate h cmd pc p.
Proof. intros [<- | [<- | [<- | [<- | []]]]]; reflexivity. Qed.

Lemma rd_app_r (a b : list Z) k :
  0 <= k -> rd (a ++ b) (Z.of_nat (length a) + k) = rd b k.
Proof.
  intros. unfold rd. rewrite lookup_app_r by lia. do 2 f_equal. lia.
Qed.

Lemma rd_app_at (a b : list Z) : rd (a ++ b) (Z.of_nat (length a)) = rd b 0.
Proof. rewrite <- (rd_app_r a b 0) by lia. f_equal. lia. Qed.

Lemma rd_cons_0 x (l : list Z) : rd (x :: l) 0 = x.
Proof. reflexivity. Qed.

(** The first bytes of what was copied out are the first bytes of the
    scratch buffer. *)
Lemma take_memcpy_to_0 (rbuf src : list Z) (n : nat) :
  (n ≤ length src)%nat -> (n ≤ length rbuf)%nat ->
  take n (memcpy_to rbuf 0 src) = take n src.
Proof.
  intros. apply list_eq. intros i. rewrite !lookup_take, lookup_memcpy_to.
  repeat case_decide; try lia; try done. f_equal. lia.
Qed.

(** C1, as amended: for each registered mode page and whatever the state of
    the device, the complete MODE SENSE(6) or MODE SENSE(10) output for the
    current values of that page, when it carries no block descriptor (DBD
    set, or a device that is not a disk), is accepted by the MODE SELECT of
    the same CDB size sent with the PF bit set and that output as its
    parameter list: GOOD status, no error. *)
Theorem spc_modeselect_accepts_modesense_page
    (cmd : se_cmd) (h : modesense_handler) (rbuf select_cdb : list Z) :
  In h modesense_handlers ->
  let cdb := t_task_cdb cmd in
  rd cdb 0 = MODE_SENSE ∨ rd cdb 0 = MODE_SENSE_10 ->
  rd cdb 2 = mh_page h -> rd cdb 3 = mh_subpage h ->
  truthy (Z.land (rd cdb 1) 0x08) = true
  ∨ get_device_type (transport (se_cmd_dev cmd)) ≠ TYPE_DISK ->
  t_data cmd = Some rbuf -> Z.of_nat (length rbuf) = data_length cmd ->
  28 <= data_length cmd < 2 ^ 32 ->
  rd select_cdb 0 = mode_select_of (rd cdb 0) ->
  truthy (Z.land (rd select_cdb 1) 0x10) = true ->
  ∃ response length,
    spc_emulate_modesense cmd =
      {| ret := TCM_NO_SENSE; data_out := Some response;
         completed := Some (CompleteWithLength SAM_STAT_GOOD length) |}
    ∧ let parameter_list := take (Z.to_nat length) response in
      spc_emulate_modeselect (resubmit cmd select_cdb parameter_list) =
        {| ret := TCM_NO_SENSE; data_out := Some parameter_list;
           completed := Some (Complete SAM_STAT_GOOD) |}.
Proof.
  intros Hin cdb Hop Hpage Hsub Hnodesc Hdata Hrbuf Hdl Hselect Hpf. subst cdb.
  destruct (modesense_scratch_one_page cmd h Hin Hop Hpage Hsub Hnodesc)
    as (hdr & rest & Hhdr & Hsize & Hframe & Hscratch).
  destruct (modesense_find_registered h Hin)
    as (Hfind & H3f & H40 & _ & Hsub0 & _).
  cbv zeta in *. set (page := mh_page h :: rest) in *.
  unfold spc_emulate_modesense. rewrite Hscratch. unfold copy_out. rewrite Hdata.
  eexists _, _. split; [reflexivity |]. cbv zeta.
  assert (Z.of_nat (length hdr) = 4 ∨ Z.of_nat (length hdr) = 8) as Hhdr48
    by (destruct (_ =? MODE_SENSE_10); lia).
  (* the parameter list is the header followed by the page *)
  assert (take (Z.to_nat (Z.of_nat (length hdr) + Z.of_nat (length page)))
            (memcpy_to rbuf 0
               (take (Z.to_nat (min_u32 SE_MODE_PAGE_BUF (data_length cmd)))
                  (hdr ++ page ++ replicate (512 - length hdr - length page) 0)))
          = hdr ++ page) as ->.
  { unfold min_u32, SE_MODE_PAGE_BUF. rewrite !u32_small by lia.
    rewrite take_memcpy_to_0.
    - rewrite take_take, Nat.min_l by lia.
      rewrite app_assoc, take_app_le by (rewrite length_app; lia).
      apply take_ge. rewrite length_app. lia.
    - rewrite length_take, !length_app, length_replicate. lia.
    - lia. }
  unfold spc_emulate_modeselect. cbv zeta.
  cbn [t_task_cdb data_length t_data resubmit].
  rewrite Hselect, Hpf. unfold mode_select_of.
  assert ((if (if rd (t_task_cdb cmd) 0 =? MODE_SENSE_10
               then MODE_SELECT_10 else MODE_SELECT) =? MODE_SELECT_10
           then 8 else 4) = Z.of_nat (length hdr)) as ->.
  { rewrite Hhdr. destruct (_ =? MODE_SENSE_10); reflexivity. }
  rewrite length_app, Nat2Z.inj_add.
  assert (truthy (Z.of_nat (length hdr) + Z.of_nat (length page)) = true) as ->
    by (unfold truthy; rewrite negb_true_iff; lia).
  assert ((Z.of_nat (length hdr) + Z.of_nat (length page)
           <? Z.of_nat (length hdr) + 2) = false) as -> by lia.
  cbn [negb].
  rewrite !rd_app_at. change (rd page 0) with (mh_page h).
  rewrite H3f, H40. change (truthy 0) with false. cbv iota.
  rewrite Hsub0 in Hfind. rewrite Hfind.
  rewrite mh_emulate_resubmit by done.
  assert (zeroed SE_MODE_PAGE_BUF
          = replicate (length page) 0 ++ replicate (512 - length page) 0) as ->.
  { unfold zeroed, SE_MODE_PAGE_BUF. rewrite <- replicate_add. f_equal. lia. }
  rewrite Hframe.
  rewrite Z.ltb_irrefl.
  unfold memcmp. rewrite !Nat2Z.id.
  rewrite drop_app_length, take_app_length, take_ge by lia.
  rewrite bytes_eqb_refl. change (truthy 0) with false. reflexivity.
Qed.

Lemma spc_modeselect_accepts_modesense_page_witness :
  ∃ response length,
    spc_emulate_modesense (mode_sense_6_cmd 0x08 0x0a) =
      {| ret := TCM_NO_SENSE; data_out := Some response;
         completed := Some (CompleteWithLength SAM_STAT_GOOD length) |}
    ∧ let parameter_list := take (Z.to_nat length) response in
      spc_emulate_modeselect
        (resubmit (mode_sense_6_cmd 0x08 0x0a) (mode_select_6_cdb 0x10 16)
                  parameter_list) =
        {| ret := TCM_NO_SENSE; data_out := Some parameter_list;
           completed := Some (Complete SAM_STAT_GOOD) |}.
Proof.
  apply (spc_modeselect_accepts_modesense_page
           (mode_sense_6_cmd 0x08 0x0a)
           {| mh_page := 0x0a; mh_subpage := 0x00;
              mh_emulate := spc_modesense_control |}
           (replicate 255 0) (mode_select_6_cdb 0x10 16)).
  - right; right; left; reflexivity.
  - left; reflexivity.
  - reflexivity.
  - reflexivity.
  - left; reflexivity.
  - reflexivity.
  - reflexivity.
  - vm_compute. split; [discriminate | reflexivity].
  - reflexivity.
  - reflexivity.
Defined.

(** C1 as stated fails.  On a disk, MODE SENSE(6) without DBD answers
    page 0x01 with a block descriptor in front of the page; MODE SELECT(6)
    with PF set, given those 24 bytes back, looks for the page at offset 4,
    finds the block count there and fails with unknown mode page.  And the
    output obtained with DBD set, which has no block descriptor, is still
    refused, as invalid CDB field, when the MODE SELECT has PF clear. *)
Lemma spc_modeselect_rejects_modesense_output :
  (let sense := spc_emulate_modesense (mode_sense_6_cmd 0x00 0x01) in
   let parameter_list := take 24 (default [] (data_out sense)) in
   ret sense = TCM_NO_SENSE
   ∧ completed sense = Some (CompleteWithLength SAM_STAT_GOOD 24)
   ∧ spc_emulate_modeselect
       (resubmit (mode_sense_6_cmd 0x00 0x01) (mode_select_6_cdb 0x10 24)
                 parameter_list)
     = {| ret := TCM_UNKNOWN_MODE_PAGE; data_out := Some parameter_list;
          completed := None |})
  ∧ (let sense := spc_emulate_modesense (mode_sense_6_cmd 0x08 0x01) in
     let parameter_list := take 16 (default [] (data_out sense)) in
     ret sense = TCM_NO_SENSE
     ∧ completed sense = Some (CompleteWithLength SAM_STAT_GOOD 16)
     ∧ spc_emulate_modeselect
         (resubmit (mode_sense_6_cmd 0x08 0x01) (mode_select_6_cdb 0x00 16)
                   parameter_list)
       = {| ret := TCM_INVALID_CDB_FIELD; data_out := Some parameter_list;
            completed := None |}).
Proof. vm_compute. split; (split; [| split]); reflexivity. Qed.

Example mode_sense_6_with_block_descriptor :
  take 24 (default [] (data_out (spc_emulate_modesense (mode_sense_6_cmd 0x00 0x01))))
  = [23; 0; 0; 8;  0; 16; 0; 0;  0; 0; 2; 0;
     1; 10; 0; 0; 0; 0; 0; 0; 0; 0; 0; 0].
Proof. vm_compute. reflexivity. Qed.

(* ===================================================================== *)
(** * REPORT SUPPORTED OPERATION CODES *)
(* ===================================================================== *)

Lemma land_1_cases x : Z.land x 1 = 0 ∨ Z.land x 1 = 1.
Proof.
  assert (Z.land x 1 = x mod 2) as -> by (apply (Z.land_ones x 1); lia).
  pose proof (Z.mod_pos_bound x 2 ltac:(lia)). lia.
Qed.

Lemma rsoc_rctd_cases cdb : rsoc_rctd cdb = 0 ∨ rsoc_rctd cdb = 1.
Proof. apply land_1_cases. Qed.

Lemma rsoc_opts_range cdb : 0 <= rsoc_opts cdb <= 3.
Proof.
  unfold rsoc_opts.
  assert (Z.land (rd cdb 2) 3 = rd cdb 2 mod 4) as ->
    by (apply (Z.land_ones (rd cdb 2) 2); lia).
  pose proof (Z.mod_pos_bound (rd cdb 2) 4 ltac:(lia)). lia.
Qed.

(** The test [opts > 3] of [spc_rsoc_get_descr] never holds: [opts] has
    been masked to two bits. *)
Lemma spc_rsoc_get_descr_guard_dead cmd :
  spc_rsoc_get_descr cmd
  = spc_rsoc_get_descr_loop tcm_supported_opcodes cmd
      (rsoc_opts (t_task_cdb cmd)) (rsoc_requested_opcode (t_task_cdb cmd))
      (rsoc_requested_sa (t_task_cdb cmd)).
Proof.
  unfold spc_rsoc_get_descr. cbv zeta.
  pose proof (rsoc_opts_range (t_task_cdb cmd)).
  destruct (_ >? 3) eqn:E; [lia | done].
Qed.

Lemma rsoc_mapped cmd :
  data_buffer_ok cmd ->
  truthy (data_length cmd) && negb (bool_decide (is_Some (t_data cmd))) = false.
Proof.
  unfold data_buffer_ok. destruct (t_data cmd) as [b |].
  - intros _. rewrite bool_decide_eq_true_2 by eauto. apply andb_false_r.
  - intros ->. done.
Qed.

Section OneCommand.

Variable cmd : se_cmd.
Hypothesis Hrsoc : truthy (emulate_rsoc (dev_attrib (se_cmd_dev cmd))) = true.
Hypothesis Hbuf : data_buffer_ok cmd.
Hypothesis Hopts : rsoc_opts (t_task_cdb cmd) ≠ 0.

Lemma rsoc_one_command_not_found :
  spc_rsoc_get_descr cmd = (TCM_NO_SENSE, None) ->
  spc_emulate_report_supp_op_codes cmd = rsoc_not_supported_outcome cmd.
Proof.
  intros Hget. unfold spc_emulate_report_supp_op_codes. cbv zeta.
  rewrite Hrsoc, (rsoc_mapped _ Hbuf), Hget. cbn [negb].
  assert ((rsoc_opts (t_task_cdb cmd) =? 0) = false) as -> by lia.
  unfold rsoc_not_supported_outcome, rsoc_not_supported.
  destruct (rsoc_rctd_cases (t_task_cdb cmd)) as [-> | ->]; reflexivity.
Qed.

Lemma rsoc_one_command_rejected :
  spc_rsoc_get_descr cmd = (TCM_INVALID_CDB_FIELD, None) ->
  spc_emulate_report_supp_op_codes cmd
  = {| ret := TCM_INVALID_CDB_FIELD; data_out := t_data cmd; completed := None |}.
Proof.
  intros Hget. unfold spc_emulate_report_supp_op_codes. cbv zeta.
  rewrite Hrsoc, (rsoc_mapped _ Hbuf), Hget. cbn [negb].
  assert ((rsoc_opts (t_task_cdb cmd) =? 0) = false) as -> by lia.
  reflexivity.
Qed.

End OneCommand.

(** Evaluate the table scan for a request naming a given descriptor,
    leaving the enablement predicates alone. *)
Ltac scan_table :=
  match goal with
  | |- context [spc_rsoc_get_descr_loop ?t ?c ?o ?op ?sa] =>
    let r := eval lazy -[descr_enabled] in (spc_rsoc_get_descr_loop t c o op sa) in
    change (spc_rsoc_get_descr_loop t c o op sa) with r
  end.

(** The lookup for a request that names a descriptor whose predicate is
    false: rejected where the reporting option does not fit the kind of
    descriptor, not found otherwise. *)
Lemma spc_rsoc_get_descr_disabled cmd descr :
  In descr tcm_supported_opcodes ->
  descr_enabled descr cmd = false ->
  rsoc_requested_opcode (t_task_cdb cmd) = opcode descr ->
  rsoc_requested_sa (t_task_cdb cmd) = service_action descr ->
  let opts := rsoc_opts (t_task_cdb cmd) in
  (opts = 1 ∧ serv_action_valid descr = 0 ∨ opts = 2 ∧ serv_action_valid descr = 1
   ∨ opts = 3 ->
   spc_rsoc_get_descr cmd = (TCM_NO_SENSE, None))
  ∧ (opts = 1 ∧ serv_action_valid descr = 1 ∨ opts = 2 ∧ serv_action_valid descr = 0 ->
     spc_rsoc_get_descr cmd = (TCM_INVALID_CDB_FIELD, None)).
Proof.
  intros Hin Hdis Hop Hsa. cbv zeta.
  rewrite spc_rsoc_get_descr_guard_dead, Hop, Hsa.
  generalize dependent (rsoc_opts (t_task_cdb cmd)). intros opts.
  clear Hop Hsa.
  unfold tcm_supported_opcodes in Hin. cbn [In] in Hin.
  repeat (destruct Hin as [<- | Hin];
          [ first
              [ exfalso; revert Hdis; lazy; discriminate
              | lazy -[descr_enabled] in Hdis;
                split; intros Hcase;
                [ destruct Hcase as [[-> Hsav] | [[-> Hsav] | ->]];
                  try discriminate Hsav
                | destruct Hcase as [[-> Hsav] | [-> Hsav]];
                  try discriminate Hsav ];
                scan_table; rewrite ?Hdis; reflexivity ]
          | ]).
  destruct Hin.
Qed.

(** Encoding a command descriptor touches the bytes of that descriptor
    only. *)
Lemma spc_rsoc_encode_command_descriptor_frame rctd descr tail :
  rctd = 0 ∨ rctd = 1 ->
  spc_rsoc_encode_command_descriptor rctd descr
    (replicate (Z.to_nat (8 + rctd * 12)) 0 ++ tail)
  = (rsoc_command_descriptor rctd descr ++ tail, 8 + rctd * 12)
  ∧ Z.of_nat (length (rsoc_command_descriptor rctd descr)) = 8 + rctd * 12.
Proof. intros [-> | ->]; split; reflexivity. Qed.

(** The all-commands loop appends, in table order, the descriptor of every
    enabled command and skips the others. *)
Lemma rsoc_all_commands_spec table cmd rctd pre (room : nat) response_length :
  rctd = 0 ∨ rctd = 1 ->
  Z.of_nat (length pre) = response_length ->
  (Z.to_nat (8 + rctd * 12) * length table ≤ room)%nat ->
  let payload := rsoc_all_payload cmd rctd table in
  rsoc_all_commands table cmd rctd (pre ++ replicate room 0) response_length
  = (pre ++ payload ++ replicate (room - length payload) 0,
     response_length + Z.of_nat (length payload)).
Proof.
  intros Hrctd. cbv zeta. revert pre room response_length.
  assert (∃ n, n = Z.to_nat (8 + rctd * 12) ∧ (n = 8 ∨ n = 20)%nat)
    as (n & Hn & Hn') by (destruct Hrctd as [-> | ->]; eexists; split; eauto).
  rewrite <- Hn.
  induction table as [| descr table IH]; intros pre room rl Hpre Hroom.
  - cbn. rewrite Nat.sub_0_r, Z.add_0_r. done.
  - cbn [rsoc_all_commands]. unfold rsoc_all_payload, rsoc_listed in *.
    cbn [List.filter]. cbn [length] in Hroom.
    destruct (descr_enabled descr cmd); cbn [negb].
    + destruct (spc_rsoc_encode_command_descriptor_frame rctd descr
                  (replicate (room - n) 0) Hrctd)
        as [Hframe Hlen].
      rewrite <- Hn in Hframe.
      assert (n ≤ room)%nat as Hfits by (destruct Hn' as [-> | ->]; lia).
      rewrite (at_offset_frame _ rl _ pre (replicate n 0) (replicate (room - n) 0)
                 (rsoc_command_descriptor rctd descr) (8 + rctd * 12)).
      2: { rewrite <- replicate_add. do 2 f_equal. lia. }
      2: lia.
      2: exact Hframe.
      rewrite app_assoc.
      rewrite IH; [| rewrite length_app; lia | destruct Hn' as [-> | ->]; lia].
      cbn [fmap list_fmap concat]. rewrite !length_app, <- !app_assoc.
      f_equal; [| lia]. do 3 f_equal. f_equal. lia.
    + apply IH; [done | destruct Hn' as [-> | ->]; lia].
Qed.

(** The whole response of the all-commands format. *)
Lemma rsoc_all_commands_outcome cmd :
  truthy (emulate_rsoc (dev_attrib (se_cmd_dev cmd))) = true ->
  data_buffer_ok cmd ->
  rsoc_opts (t_task_cdb cmd) = 0 ->
  let payload :=
    rsoc_all_payload cmd (rsoc_rctd (t_task_cdb cmd)) tcm_supported_opcodes in
  let size := Z.of_nat (length payload) in
  spc_emulate_report_supp_op_codes cmd =
    {| ret := TCM_NO_SENSE;
       data_out := copy_out cmd (cpu_to_be32 size ++ payload)
                            (min_u32 (4 + size) (data_length cmd));
       completed := Some (CompleteWithLength SAM_STAT_GOOD (4 + size)) |}.
Proof.
  intros Hrsoc Hbuf Hopts. cbv zeta.
  unfold spc_emulate_report_supp_op_codes. cbv zeta.
  rewrite Hrsoc, (rsoc_mapped _ Hbuf), Hopts. cbn [negb Z.eqb].
  set (rctd := rsoc_rctd (t_task_cdb cmd)).
  assert (rctd = 0 ∨ rctd = 1) as Hrctd by apply rsoc_rctd_cases.
  set (n := Z.to_nat (8 + rctd * 12)).
  assert (zeroed (4 + (8 + rctd * 12) * Z.of_nat (length tcm_supported_opcodes))
          = [0; 0; 0; 0] ++ replicate (n * length tcm_supported_opcodes) 0) as ->.
  { unfold zeroed. change [0; 0; 0; 0] with (replicate 4 0).
    rewrite <- replicate_add. f_equal. subst n. lia. }
  rewrite rsoc_all_commands_spec; [| done | done | done].
  set (payload := rsoc_all_payload cmd rctd tcm_supported_opcodes).
  replace (4 + Z.of_nat (length payload) - 4) with (Z.of_nat (length payload))
    by lia.
  f_equal. unfold copy_out. destruct (t_data cmd) as [rbuf |]; [| done].
  f_equal. f_equal.
  change (put_unaligned_be32 (Z.of_nat (length payload))
            ([0; 0; 0; 0] ++ payload ++
             replicate (n * length tcm_supported_opcodes - length payload) 0) 0)
    with (cpu_to_be32 (Z.of_nat (length payload)) ++ payload ++
          replicate (n * length tcm_supported_opcodes - length payload) 0).
  rewrite app_assoc.
  assert (Z.to_nat (min_u32 (4 + Z.of_nat (length payload)) (data_length cmd))
          ≤ length (cpu_to_be32 (Z.of_nat (length payload)) ++ payload))%nat.
  { rewrite length_app. cbn [length cpu_to_be32]. unfold min_u32.
    pose proof (Z.mod_pos_bound (4 + Z.of_nat (length payload)) 4294967296
                  ltac:(lia)).
    pose proof (Z.mod_pos_bound (data_length cmd) 4294967296 ltac:(lia)).
    pose proof (Z.mod_le (4 + Z.of_nat (length payload)) 4294967296
                  ltac:(lia) ltac:(lia)).
    unfold u32. lia. }
  rewrite take_app_le by done. done.
Qed.

Lemma rsoc_listed_enabled cmd table descr :
  In descr (rsoc_listed cmd table) -> descr_enabled descr cmd = true.
Proof.
  unfold rsoc_listed. rewrite filter_In. intros [_ H]. exact H.
Qed.

(** C6, as amended: take a descriptor of the table whose enablement
    predicate is false, the emulation being on and the data buffer in
    order.  A one-command request that names its operation code and
    service action is answered with support = not-supported under option 1
    if the descriptor has no service actions, under option 2 if it has
    them, and under option 3 in either case; under option 1 for a
    descriptor with service actions and under option 2 for one without,
    the command is rejected with invalid CDB field, as it is for an
    enabled descriptor.  Under option 0 the descriptor contributes nothing:
    the response is the length header followed by the command descriptors
    of the enabled entries, in table order. *)
Theorem spc_rsoc_disabled_descriptor
    (cmd : se_cmd) (descr : target_opcode_descriptor) :
  In descr tcm_supported_opcodes ->
  descr_enabled descr cmd = false ->
  truthy (emulate_rsoc (dev_attrib (se_cmd_dev cmd))) = true ->
  data_buffer_ok cmd ->
  let cdb := t_task_cdb cmd in
  let opts := rsoc_opts cdb in
  (rsoc_requested_opcode cdb = opcode descr ->
   rsoc_requested_sa cdb = service_action descr ->
   (opts = 1 ∧ serv_action_valid descr = 0
    ∨ opts = 2 ∧ serv_action_valid descr = 1
    ∨ opts = 3 ->
    spc_emulate_report_supp_op_codes cmd = rsoc_not_supported_outcome cmd)
   ∧ (opts = 1 ∧ serv_action_valid descr = 1
      ∨ opts = 2 ∧ serv_action_valid descr = 0 ->
      spc_emulate_report_supp_op_codes cmd =
        {| ret := TCM_INVALID_CDB_FIELD; data_out := t_data cmd;
           completed := None |}))
  ∧ (opts = 0 ->
     let payload := rsoc_all_payload cmd (rsoc_rctd cdb) tcm_supported_opcodes in
     let size := Z.of_nat (length payload) in
     ¬ In descr (rsoc_listed cmd tcm_supported_opcodes)
     ∧ spc_emulate_report_supp_op_codes cmd =
         {| ret := TCM_NO_SENSE;
            data_out := copy_out cmd (cpu_to_be32 size ++ payload)
                                 (min_u32 (4 + size) (data_length cmd));
            completed := Some (CompleteWithLength SAM_STAT_GOOD (4 + size)) |}).
Proof.
  intros Hin Hdis Hrsoc Hbuf. cbv zeta. split.
  - intros Hop Hsa.
    destruct (spc_rsoc_get_descr_disabled cmd descr Hin Hdis Hop Hsa)
      as [Hnone Hrej].
    split; intros Hcase.
    + apply rsoc_one_command_not_found.
      * exact Hrsoc.
      * exact Hbuf.
      * destruct Hcase as [[Ho _] | [[Ho _] | Ho]]; rewrite Ho; lia.
      * apply Hnone. exact Hcase.
    + apply rsoc_one_command_rejected.
      * exact Hrsoc.
      * exact Hbuf.
      * destruct Hcase as [[Ho _] | [Ho _]]; rewrite Ho; lia.
      * apply Hrej. exact Hcase.
  - intros Hopts. split.
    + intros Hlisted. apply rsoc_listed_enabled in Hlisted.
      rewrite Hdis in Hlisted. discriminate Hlisted.
    + exact (rsoc_all_commands_outcome cmd Hrsoc Hbuf Hopts).
Qed.

Lemma spc_rsoc_disabled_descriptor_witness :
  spc_emulate_report_supp_op_codes (rsoc_cmd 0x01 UNMAP 0 0)
  = rsoc_not_supported_outcome (rsoc_cmd 0x01 UNMAP 0 0).
Proof.
  assert (In tcm_opcode_unmap tcm_supported_opcodes) as Hin
    by (unfold tcm_supported_opcodes; cbn [In]; tauto).
  assert (descr_enabled tcm_opcode_unmap (rsoc_cmd 0x01 UNMAP 0 0) = false)
    as Hdis by reflexivity.
  assert (truthy (emulate_rsoc (dev_attrib (se_cmd_dev (rsoc_cmd 0x01 UNMAP 0 0))))
          = true) as Hrsoc by reflexivity.
  assert (data_buffer_ok (rsoc_cmd 0x01 UNMAP 0 0)) as Hbuf by reflexivity.
  destruct (spc_rsoc_disabled_descriptor _ _ Hin Hdis Hrsoc Hbuf) as [Hone _].
  destruct (Hone eq_refl eq_refl) as [Hnone _].
  apply Hnone. left. split; reflexivity.
Defined.

(** C6 as stated fails: UNMAP is in the table and its predicate is false,
    yet a request for it under option 2 is not answered with a
    not-supported response but rejected; were the descriptor absent from
    the table the answer would be the not-supported response. *)
Lemma spc_rsoc_disabled_descriptor_rejected :
  In tcm_opcode_unmap tcm_supported_opcodes
  ∧ descr_enabled tcm_opcode_unmap (rsoc_cmd 0x02 UNMAP 0 0) = false
  ∧ spc_emulate_report_supp_op_codes (rsoc_cmd 0x02 UNMAP 0 0)
    = {| ret := TCM_INVALID_CDB_FIELD;
         data_out := Some (replicate 64 0xaa); completed := None |}
  ∧ spc_emulate_report_supp_op_codes (rsoc_cmd 0x02 UNMAP 0 0)
    ≠ rsoc_not_supported_outcome (rsoc_cmd 0x02 UNMAP 0 0)
  ∧ spc_rsoc_get_descr_loop
      (List.filter (λ d : target_opcode_descriptor, negb (opcode d =? UNMAP))
                   tcm_supported_opcodes)
      (rsoc_cmd 0x02 UNMAP 0 0) 2 UNMAP 0
    = (TCM_NO_SENSE, None).
Proof.
  split; [unfold tcm_supported_opcodes; cbn [In]; tauto |].
  split; [reflexivity |].
  assert (spc_emulate_report_supp_op_codes (rsoc_cmd 0x02 UNMAP 0 0)
          = {| ret := TCM_INVALID_CDB_FIELD;
               data_out := Some (replicate 64 0xaa); completed := None |}) as Hrej
    by (vm_compute; reflexivity).
  split; [exact Hrej |]. split; [| vm_compute; reflexivity].
  rewrite Hrej. discriminate.
Qed.

(** C2: a CDB whose three-bit REPORTING OPTIONS field holds 4 is not
    rejected: the two-bit mask turns it into option 0 and the all-commands
    list is returned with GOOD status. *)
Theorem spc_rsoc_reporting_options_4_served :
  Z.land (rd (t_task_cdb (rsoc_cmd 0x04 0 0 0)) 2) 0x7 = 4
  ∧ rsoc_opts (t_task_cdb (rsoc_cmd 0x04 0 0 0)) = 0
  ∧ spc_emulate_report_supp_op_codes (rsoc_cmd 0x04 0 0 0)
    = spc_emulate_report_supp_op_codes (rsoc_cmd 0x00 0 0 0)
  ∧ ret (spc_emulate_report_supp_op_codes (rsoc_cmd 0x04 0 0 0)) = TCM_NO_SENSE
  ∧ completed (spc_emulate_report_supp_op_codes (rsoc_cmd 0x04 0 0 0))
    = Some (CompleteWithLength SAM_STAT_GOOD 396).
Proof.
  split; [vm_compute; reflexivity |].
  split; [vm_compute; reflexivity |].
  split; [vm_compute; reflexivity |].
  split; vm_compute; reflexivity.
Qed.
